(** * VS-Code-STM32-IDE: tool-path reconciliation of the 'ideScripts'

    A shallow embedding of [utilities.py], [updatePaths.py] and
    [updateBuildData.py].  Python functions become functions of one
    state-and-exception monad [M] over a [world] (the JSON documents on disk,
    the operator's pending input lines, the console log and the clock).
    Everything the scripts ask of the host through [os], [shutil], [sys] and
    [platform] is collected in the record [Host]. *)

From Stdlib Require Import Ascii String List Bool ZArith Lia.
From stdpp Require Import base option list strings gmap.

Local Open Scope string_scope.

(** ** Strings, the way the scripts use them *)

Module Str.

Definition NL : string := String (ascii_of_nat 10) "".
Definition TAB : string := String (ascii_of_nat 9) "".
Definition dquote : ascii := ascii_of_nat 34.
Definition squote : ascii := ascii_of_nat 39.
Definition bslash : ascii := ascii_of_nat 92.
Definition slash : ascii := ascii_of_nat 47.

Definition chars : string → list ascii := list_ascii_of_string.
Definition of_chars : list ascii → string := string_of_list_ascii.

(** [s.startswith(p)] and [s.endswith(p)]. *)
Definition startswith (s p : string) : bool := String.prefix p s.
Definition endswith (s p : string) : bool :=
  String.prefix (of_chars (rev (chars p))) (of_chars (rev (chars s))).

(** [s.lower()] on ASCII letters. *)
Definition lower_ascii (c : ascii) : ascii :=
  let n := nat_of_ascii c in
  if (65 <=? n)%nat && (n <=? 90)%nat then ascii_of_nat (n + 32) else c.
Definition lower (s : string) : string := of_chars (map lower_ascii (chars s)).

(** [s.replace(c, '')] and [s.replace(c, d)] for one-character patterns. *)
Definition remove_char (c : ascii) (s : string) : string :=
  of_chars (filter (λ x, x ≠ c) (chars s)).
Definition replace_char (c d : ascii) (s : string) : string :=
  of_chars (map (λ x, if decide (x = c) then d else x) (chars s)).

(** [s.split()]: maximal runs of non-blank characters. *)
Definition isspace (c : ascii) : bool :=
  let n := nat_of_ascii c in
  ((9 <=? n)%nat && (n <=? 13)%nat) || ((28 <=? n)%nat && (n <=? 32)%nat).

Fixpoint split_go (cur : list ascii) (s : list ascii) : list string :=
  match s with
  | [] => match cur with [] => [] | _ => [of_chars (rev cur)] end
  | c :: s' =>
      if isspace c
      then match cur with
           | [] => split_go [] s'
           | _ => of_chars (rev cur) :: split_go [] s'
           end
      else split_go (c :: cur) s'
  end.
Definition split (s : string) : list string := split_go [] (chars s).

(** [s.split(c)] for a one-character separator and [c.join(l)]. *)
Fixpoint split_on_go (sep : ascii) (cur : list ascii) (s : list ascii)
  : list string :=
  match s with
  | [] => [of_chars (rev cur)]
  | c :: s' =>
      if decide (c = sep)
      then of_chars (rev cur) :: split_on_go sep [] s'
      else split_on_go sep (c :: cur) s'
  end.
Definition split_on (sep : ascii) (s : string) : list string :=
  split_on_go sep [] (chars s).

Fixpoint join (sep : string) (l : list string) : string :=
  match l with
  | [] => ""
  | [x] => x
  | x :: l' => x ++ sep ++ join sep l'
  end.

End Str.

(** ** POSIX flavour of [os.path]

    [posixpath.join], [posixpath.dirname] and [posixpath.normpath], used by
    the example hosts below; the scripts themselves are written against
    whatever [os.path] the host provides. *)

Module Posix.

Definition join (a b : string) : string :=
  if Str.startswith b "/" then b
  else if decide (a = "") then b
  else if Str.endswith a "/" then a ++ b
  else a ++ "/" ++ b.

Fixpoint drop_while (f : ascii → bool) (l : list ascii) : list ascii :=
  match l with
  | [] => []
  | c :: l' => if f c then drop_while f l' else l
  end.

Definition is_slash (c : ascii) : bool := bool_decide (c = Str.slash).

Definition all_slashes (l : list ascii) : bool :=
  forallb is_slash l.

(** [head = p[:p.rfind('/')+1]], then trailing slashes are stripped
    unless [head] consists of slashes only. *)
Definition dirname (p : string) : string :=
  let rhead := drop_while (λ c, negb (is_slash c)) (rev (Str.chars p)) in
  if all_slashes rhead then Str.of_chars (rev rhead)
  else Str.of_chars (rev (drop_while is_slash rhead)).

Fixpoint norm_comps (absolute : bool) (acc : list string)
         (comps : list string) : list string :=
  match comps with
  | [] => rev acc
  | c :: cs =>
      if decide (c = "") then norm_comps absolute acc cs
      else if decide (c = ".") then norm_comps absolute acc cs
      else if decide (c = "..") then
        match acc with
        | [] => if absolute then norm_comps absolute acc cs
                else norm_comps absolute [c] cs
        | top :: acc' =>
            if decide (top = "..") then norm_comps absolute (c :: acc) cs
            else norm_comps absolute acc' cs
        end
      else norm_comps absolute (c :: acc) cs
  end.

Definition normpath (path : string) : string :=
  if decide (path = "") then "."
  else
    let initial_slashes :=
      if Str.startswith path "/" then
        if Str.startswith path "//" && negb (Str.startswith path "///")
        then 2%nat else 1%nat
      else 0%nat in
    let comps :=
      norm_comps (negb (initial_slashes =? 0)%nat) []
                 (Str.split_on Str.slash path) in
    let body := Str.join "/" comps in
    let out := Str.of_chars (replicate initial_slashes Str.slash) ++ body in
    if decide (out = "") then "." else out.

End Posix.

(** ** JSON documents as Python dictionaries

    [json.load] yields a [dict] that keeps the order of the document, and
    [json.dump(..., sort_keys=False)] writes the keys back in that order, so
    a document is an association list: an assignment to a key that is present
    keeps its place, a new key goes to the end.  The values that occur in
    [buildData.json] and [toolsPaths.json] are [null], strings and arrays of
    strings. *)

Inductive value :=
  | VNone
  | VStr (s : string)
  | VList (l : list string).

#[global] Instance value_eq_dec : EqDecision value.
Proof. solve_decision. Defined.

Definition pydict := list (string * value).

(** [d[k]], [None] standing for [KeyError]. *)
Fixpoint dict_get (d : pydict) (k : string) : option value :=
  match d with
  | [] => None
  | (k', v) :: d' => if decide (k' = k) then Some v else dict_get d' k
  end.

(** [d[k] = v]. *)
Fixpoint dict_set (d : pydict) (k : string) (v : value) : pydict :=
  match d with
  | [] => [(k, v)]
  | (k', v') :: d' =>
      if decide (k' = k) then (k', v) :: d' else (k', v') :: dict_set d' k v
  end.

(** ** Exceptions and results *)

Inductive exn :=
  | KeyError (key : string)
  | TypeError
  | EOFError
  | UnboundLocalError (name : string)
  | OSError (path : string)
  | JSONDecodeError.

Definition str_exn (e : exn) : string :=
  match e with
  | KeyError k => "'" ++ k ++ "'"
  | TypeError => "expected str, bytes or os.PathLike object"
  | EOFError => "EOF when reading a line"
  | UnboundLocalError n =>
      "local variable '" ++ n ++ "' referenced before assignment"
  | OSError p => "[Errno] '" ++ p ++ "'"
  | JSONDecodeError => "Expecting value"
  end.

(** How a call ends: it returns, an exception propagates, or [sys.exit]
    was called. *)
Inductive outcome (A : Type) :=
  | Return (a : A)
  | Raise (e : exn)
  | Exit (code : Z).
Arguments Return {A} a.
Arguments Raise {A} e.
Arguments Exit {A} code.

(** ** The world the scripts run in *)

(** What is found at a path that the scripts themselves create, rewrite or
    delete: a folder, a file that [json.load] rejects, or a JSON document. *)
Inductive node :=
  | Folder
  | Corrupt
  | Doc (d : pydict).

Record world := World {
  files : gmap string node;
  stdin : list string;    (* the lines the operator is going to type *)
  stdout : list string;   (* what has been printed, oldest first *)
  clock : string          (* [str(datetime.datetime.now())] *)
}.

Definition set_files (f : gmap string node) (w : world) : world :=
  World f (stdin w) (stdout w) (clock w).
Definition set_stdin (i : list string) (w : world) : world :=
  World (files w) i (stdout w) (clock w).
Definition set_stdout (o : list string) (w : world) : world :=
  World (files w) (stdin w) o (clock w).

(** Key names of [updateMakefile.MakefileStrings]. *)
Record MakefileStrings := {
  mkf_cSources : string;
  mkf_asmSources : string;
  mkf_cIncludes : string;
  mkf_asmIncludes : string;
  mkf_cDefines : string;
  mkf_asmDefines : string;
  mkf_cFlags : string;
  mkf_asmFlags : string;
  mkf_buildDir : string;
  mkf_projectName : string
}.

(** The host: the operating system and the installed tools, which no script
    changes, together with the two constants the scripts import from modules
    outside these three files. *)
Record Host := {
  os_name : string;                           (* [os.name] *)
  platform_release : string;                  (* [platform.release()] *)
  sys_argv0 : string;                         (* [sys.argv[0]] *)
  os_path_join : string → string → string;
  os_path_dirname : string → string;
  os_path_normpath : string → string;
  os_path_expandvars : string → string;
  (* [os.path.exists] on everything that is not in [files] *)
  disk_exists : string → bool;
  shutil_which : string → option string;
  (* [os.walk(top, topdown=False)], in the order it yields *)
  os_walk_bottom_up : string → list (string * list string * list string);
  (* [os.listdir], [None] when it raises *)
  os_listdir : string → option (list string);
  can_write : string → bool;                  (* [open(p, 'w+')] succeeds *)
  can_remove : string → bool;                 (* [os.remove(p)] succeeds *)
  can_mkdir : string → bool;                  (* [os.mkdir(p)] succeeds *)
  buildDataTemplate : pydict;                 (* [tmpStr.buildDataTemplate] *)
  mkfStr : MakefileStrings
}.

(** ** The monad *)

Definition M (A : Type) : Type := world → outcome A * world.

Definition ret {A} (a : A) : M A := λ w, (Return a, w).

Definition bind {A B} (m : M A) (k : A → M B) : M B :=
  λ w, match m w with
       | (Return a, w') => k a w'
       | (Raise e, w') => (Raise e, w')
       | (Exit c, w') => (Exit c, w')
       end.

Notation "x <- m ;; k" := (bind m (λ x, k))
  (at level 100, m at next level, right associativity).
Notation "m ;;; k" := (bind m (λ _, k))
  (at level 100, right associativity).

Definition raise {A} (e : exn) : M A := λ w, (Raise e, w).
Definition sys_exit {A} (code : Z) : M A := λ w, (Exit code, w).
Definition gets {A} (f : world → A) : M A := λ w, (Return (f w), w).

(** [try: m  except Exception as err: h err]; [SystemExit] passes through. *)
Definition try_except {A} (m : M A) (h : exn → M A) : M A :=
  λ w, match m w with
       | (Raise e, w') => h e w'
       | r => r
       end.

(** [try: m  except: h], which also catches [SystemExit]. *)
Definition try_bare {A} (m : M A) (h : M A) : M A :=
  λ w, match m w with
       | (Return a, w') => (Return a, w')
       | (_, w') => h w'
       end.

Definition print (s : string) : M unit :=
  λ w, (Return tt, set_stdout (stdout w ++ [s]) w).

(** [input(msg)]: the prompt is written, then one line is read. *)
Definition input (msg : string) : M string :=
  λ w, match stdin w with
       | [] => (Raise EOFError, set_stdout (stdout w ++ [msg]) w)
       | l :: rest =>
           (Return l, set_stdin rest (set_stdout (stdout w ++ [msg]) w))
       end.

(** [while True: line = input(msg); ...]: [body] answers [Some a] to leave
    the loop with [a] and [None] to go round again.  Every round reads one
    line, so the pending input bounds the number of rounds; when the input
    ends, [input] raises [EOFError]. *)
Fixpoint input_rounds {A} (n : nat) (msg : string)
         (body : string → M (option A)) : M A :=
  match n with
  | O => _ <- input msg ;; raise EOFError
  | S n' =>
      line <- input msg ;;
      r <- body line ;;
      match r with
      | Some a => ret a
      | None => input_rounds n' msg body
      end
  end.

Definition while_input {A} (msg : string) (body : string → M (option A))
  : M A :=
  λ w, input_rounds (length (stdin w)) msg body w.

(** A computation leaves a component of the world alone. *)
Definition preserves {A X} (f : world → X) (m : M A) : Prop :=
  ∀ w, f (m w).2 = f w.

(** Values where Python wants a [str]. *)
Definition dict_item (d : pydict) (k : string) : M value :=
  match dict_get d k with
  | Some v => ret v
  | None => raise (KeyError k)
  end.

Definition as_str (v : value) : M string :=
  match v with
  | VStr s => ret s
  | _ => raise TypeError
  end.

(** [open(p, 'r')] followed by [json.load]. *)
Definition json_load_file (p : string) : M pydict :=
  λ w, match files w !! p with
       | Some (Doc d) => (Return d, w)
       | Some Corrupt => (Raise JSONDecodeError, w)
       | Some Folder => (Raise (OSError p), w)
       | None => (Raise (OSError p), w)
       end.

(** ** utilities.py *)

Definition version : string := "1.4".   (* [utils.__version__] *)

(** The module-level paths of [utilities.py], as [verifyFolderStructure]
    leaves them. *)
Record Workspace := {
  workspacePath : string;
  workspaceFilePath : string;
  cubeMxProjectFilePath : option string;
  ideScriptsPath : string;
  makefilePath : string;
  makefileBackupPath : string;
  cPropertiesPath : string;
  cPropertiesBackupPath : string;
  buildDataPath : string;
  toolsPaths : string;
  tasksPath : string;
  tasksBackupPath : string;
  launchPath : string;
  launchBackupPath : string
}.

Section Utilities.
Context (host : Host).

(** [printAndQuit]; [handling] tells whether an exception is being
    handled, in which case the traceback header is printed too. *)
Definition printAndQuit {A} (handling : bool) (msg : string) : M A :=
  print (Str.NL ++ "**** ERROR (unrecoverable) ****" ++ Str.NL ++ msg) ;;;
  (if handling then print (Str.NL ++ "Traceback:") else ret tt) ;;;
  sys_exit 1.

Definition os_path_exists (w : world) (p : string) : bool :=
  bool_decide (is_Some (files w !! p)) || disk_exists host p.

(** [shutil.which] answers [None] or a path, never an empty string, so its
    truth value is that of being a path. *)
Definition pathExists (w : world) (path : option string) : bool :=
  match path with
  | Some p =>
      if os_path_exists w p then true
      else if bool_decide (is_Some (shutil_which host p)) then true
      else false
  | None => false
  end.

Definition detectOS : M string :=
  if decide (os_name host = "nt") then ret "windows"
  else if decide (os_name host = "java") then ret "java"
  else if decide (os_name host = "posix") then
    let release := Str.lower (platform_release host) in
    if Str.endswith release "microsoft" then ret "wsl" else ret "unix"
  else raise (UnboundLocalError "osIs").

Definition pathWithForwardSlashes (path : string) : string :=
  Str.replace_char Str.bslash Str.slash (os_path_normpath host path).

Definition listdir (p : string) : M (list string) :=
  match os_listdir host p with
  | Some l => ret l
  | None => raise (OSError p)
  end.

Definition os_mkdir (p : string) : M unit :=
  λ w, if can_mkdir host p && negb (os_path_exists w p)
       then (Return tt, set_files (<[p := Folder]> (files w)) w)
       else (Raise (OSError p), w).

Definition os_remove (p : string) : M unit :=
  λ w, match files w !! p with
       | Some Folder | None => (Raise (OSError p), w)
       | Some _ =>
           if can_remove host p
           then (Return tt, set_files (delete p (files w)) w)
           else (Raise (OSError p), w)
       end.

(** [open(p, 'w+')] and [json.dump]. *)
Definition json_dump_file (p : string) (d : pydict) : M unit :=
  λ w, match files w !! p with
       | Some Folder => (Raise (OSError p), w)
       | _ =>
           if can_write host p
           then (Return tt, set_files (<[p := Doc d]> (files w)) w)
           else (Raise (OSError p), w)
       end.

(** [open(p, 'r+')]: the file has to be there already. *)
Definition open_update (p : string) : M unit :=
  λ w, match files w !! p with
       | Some Folder | None => (Raise (OSError p), w)
       | Some _ =>
           if can_write host p then (Return tt, w) else (Raise (OSError p), w)
       end.

(** Files of the workspace root with a given ending, as
    [getCodeWorkspaces] and [getCubeMXProjectFiles] collect them. *)
Definition rootFilesEnding (workspacePath ending : string)
  : M (list string) :=
  names <- listdir workspacePath ;;
  ret (map (λ theFile,
              pathWithForwardSlashes (os_path_join host workspacePath theFile))
           (filter (λ theFile, Str.endswith theFile ending = true) names)).

Definition getCodeWorkspaces (workspacePath : string) : M (list string) :=
  rootFilesEnding workspacePath ".code-workspace".

Definition getCubeMXProjectFiles (workspacePath : string) : M (list string) :=
  rootFilesEnding workspacePath ".ioc".

Definition vscodeFile (workspacePath name : string) : string :=
  pathWithForwardSlashes
    (os_path_join host (os_path_join host workspacePath ".vscode") name).

Definition verifyFolderStructure : M Workspace :=
  let thisFolderPath := os_path_dirname host (sys_argv0 host) in
  let workspacePath :=
    pathWithForwardSlashes (os_path_dirname host thisFolderPath) in
  let ideScriptsPath :=
    pathWithForwardSlashes (os_path_join host workspacePath "ideScripts") in
  codeWorkspaces <- getCodeWorkspaces workspacePath ;;
  workspaceFilePath <-
    match codeWorkspaces with
    | [one] => ret one
    | _ =>
        printAndQuit false
          ("Invalid folder/file structure:" ++ Str.NL
           ++ "Exactly one VS Code workspace ('*.code-workspace') file must exist "
           ++ "in the root folder where 'ideScripts' folder is placed." ++ Str.NL
           ++ "Expecting one '*.code-workspace' file in: " ++ workspacePath)
    end ;;
  let vscodeFolder :=
    pathWithForwardSlashes (os_path_join host workspacePath ".vscode") in
  there <- gets (λ w, pathExists w (Some vscodeFolder)) ;;
  (if negb there then
     try_except
       (os_mkdir vscodeFolder ;;; print "'.vscode' folder created.")
       (λ err,
          printAndQuit true
            ("Exception error creating '.vscode' subfolder:" ++ Str.NL
             ++ str_exn err))
   else print "Existing '.vscode' folder used.") ;;;
  let cPropertiesPath := vscodeFile workspacePath "c_cpp_properties.json" in
  let makefilePath :=
    pathWithForwardSlashes (os_path_join host workspacePath "Makefile") in
  let buildDataPath := vscodeFile workspacePath "buildData.json" in
  osIs <- detectOS ;;
  vsCodeSettingsFolderPath <-
    (if decide (osIs = "windows") then
       ret (os_path_expandvars host ("%APPDATA%" ++ "\Code\User\"))
     else if decide (osIs = "unix") then
       ret (os_path_expandvars host "$HOME/.config/Code/User/")
     else raise (UnboundLocalError "vsCodeSettingsFolderPath")) ;;
  let toolsPaths :=
    pathWithForwardSlashes
      (os_path_join host vsCodeSettingsFolderPath "toolsPaths.json") in
  let tasksPath := vscodeFile workspacePath "tasks.json" in
  let launchPath := vscodeFile workspacePath "launch.json" in
  cubeMxFiles <- getCubeMXProjectFiles workspacePath ;;
  cubeMxProjectFilePath <-
    match cubeMxFiles with
    | [one] =>
        print ("One STM32CubeMX file found: " ++ one) ;;; ret (Some one)
    | _ =>
        print "WARNING: None or more than one STM32CubeMX files found. None or one expected." ;;;
        ret None
    end ;;
  ret {| workspacePath := workspacePath;
         workspaceFilePath := workspaceFilePath;
         cubeMxProjectFilePath := cubeMxProjectFilePath;
         ideScriptsPath := ideScriptsPath;
         makefilePath := makefilePath;
         makefileBackupPath := makefilePath ++ ".backup";
         cPropertiesPath := cPropertiesPath;
         cPropertiesBackupPath := cPropertiesPath ++ ".backup";
         buildDataPath := buildDataPath;
         toolsPaths := toolsPaths;
         tasksPath := tasksPath;
         tasksBackupPath := tasksPath ++ ".backup";
         launchPath := launchPath;
         launchBackupPath := launchPath ++ ".backup" |}.

Definition getYesNoAnswer (msg : string) : M bool :=
  while_input msg
    (λ line,
       let resp := Str.lower line in
       if decide (resp = "y") then ret (Some true)
       else if decide (resp = "n") then ret (Some false)
       else ret None).

Definition getUserPath (pathName : string) : M string :=
  while_input
    (Str.NL ++ Str.TAB ++ "Enter path to '" ++ pathName ++ "':" ++ Str.NL
     ++ Str.TAB ++ "Paste here and press Enter: ")
    (λ line,
       let path := Str.remove_char Str.dquote line in
       let path := Str.remove_char Str.squote path in
       let path := pathWithForwardSlashes path in
       ok <- gets (λ w, pathExists w (Some path)) ;;
       if ok then ret (Some path)
       else print (Str.TAB ++ "Path not valid:  " ++ path) ;;; ret None).

(** The [for root, dirs, files in os.walk(...)] loop of
    [getGccIncludePath]. *)
Fixpoint firstFolderWith (searchForFile : string)
         (walk : list (string * list string * list string))
  : option string :=
  match walk with
  | [] => None
  | (root, dirs, files) :: rest =>
      if bool_decide (searchForFile ∈ files) then Some root
      else firstFolderWith searchForFile rest
  end.

Definition gccSearchPath (gccExePath : string) : string :=
  let gccExeFolderPath := os_path_dirname host gccExePath in
  let gccFolderPath := os_path_dirname host gccExeFolderPath in
  os_path_join host
    (os_path_join host (os_path_join host gccFolderPath "lib") "gcc")
    "arm-none-eabi".

Definition getGccIncludePath (gccExePath : string) : M string :=
  let searchPath := gccSearchPath gccExePath in
  let searchForFile := "stdint.h" in
  match firstFolderWith searchForFile (os_walk_bottom_up host searchPath) with
  | Some root => ret (pathWithForwardSlashes root)
  | None =>
      printAndQuit false
        ("Unable to find 'include' subfolder with " ++ searchForFile
         ++ " file on path:" ++ Str.NL ++ Str.TAB ++ searchPath)
  end.

Definition getPython3Path : M string :=
  osIs <- detectOS ;;
  let pythonPath :=
    if bool_decide (osIs = "unix") || bool_decide (osIs = "wsl")
    then "python3" else "python" in
  ok <- gets (λ w, pathExists w (Some pythonPath)) ;;
  if negb ok then
    print (Str.NL ++ Str.TAB
           ++ "Python version 3 or later installation not detected, please install or enter custom path below.") ;;;
    getUserPath pythonPath
  else ret pythonPath.

Definition openOcdScriptsPath (openOcdPath : string) : string :=
  let openOcdExePath := os_path_dirname host openOcdPath in
  let openOcdRootPath := os_path_dirname host openOcdExePath in
  os_path_join host
    (os_path_join host (os_path_join host openOcdRootPath "share") "openocd")
    "scripts".

(** The [for arg in config: ... else: break] loop: [Some configPaths] when
    the loop runs to its end, [None] when it is left by [break]. *)
Fixpoint checkConfigArgs (scripts : string) (config : list string)
         (configPaths : list string) : M (option (list string)) :=
  match config with
  | [] => ret (Some configPaths)
  | arg :: rest =>
      ok <- gets (λ w, pathExists w (Some (scripts ++ "/" ++ arg))) ;;
      if ok then
        print (Str.TAB ++ "Configuration file '" ++ arg
               ++ "' detected successfully") ;;;
        checkConfigArgs scripts rest (configPaths ++ [scripts ++ "/" ++ arg])
      else if Str.startswith arg "-" then
        checkConfigArgs scripts rest configPaths
      else
        print (Str.TAB ++ "Configuration invalid: '" ++ arg
               ++ "' not found in " ++ scripts) ;;;
        ret None
  end.

Definition getOpenOcdConfig (openOcdPath : string) : M (list string) :=
  let scripts := openOcdScriptsPath openOcdPath in
  while_input
    (Str.NL ++ Str.TAB
     ++ "Enter OpenOCD configuration files (eg: '-f interface/stlink.cfg -f target/stm32f0x.cfg):"
     ++ Str.NL ++ Str.TAB ++ "config files: ")
    (λ line,
       let config := Str.split (pathWithForwardSlashes line) in
       checkConfigArgs scripts config []).

Definition getStm32SvdFile (stm32SvdPath : string) : M string :=
  while_input
    (Str.NL ++ Str.TAB
     ++ "Enter SVD File name (eg: 'STM32F042x.svd'), or 'ls' to list available SVD files."
     ++ Str.NL ++ Str.TAB ++ "SVD file name: ")
    (λ fileName,
       if decide (fileName = "ls") then
         names <- listdir stm32SvdPath ;;
         print ("[" ++ Str.join ", " names ++ "]") ;;; ret None
       else
         ok <- gets (λ w, pathExists w (Some (stm32SvdPath ++ "/" ++ fileName))) ;;
         if ok then ret (Some fileName)
         else print (Str.TAB ++ "SVD File '" ++ fileName ++ "' not found") ;;;
              ret None).

Definition getBuildElfFilePath (workspacePath buildDirPath projectName : string)
  : string :=
  let elfFile := projectName ++ ".elf" in
  let buildFileName :=
    os_path_join host (os_path_join host workspacePath buildDirPath) elfFile in
  pathWithForwardSlashes buildFileName.

End Utilities.

(** ** updateBuildData.py: the key names *)

Module bStr.
Definition cSources := "cSources".
Definition asmSources := "asmSources".
Definition cIncludes := "cIncludes".
Definition asmIncludes := "asmIncludes".
Definition cDefines := "cDefines".
Definition asmDefines := "asmDefines".
Definition cFlags := "cFlags".
Definition asmFlags := "asmFlags".
Definition buildDirPath := "buildDir".
Definition gccInludePath := "gccInludePath".
Definition gccExePath := "gccExePath".
Definition buildToolsPath := "buildToolsPath".
Definition targetExecutablePath := "targetExecutablePath".
Definition pythonPath := "pythonPath".
Definition openOcdPath := "openOcdPath".
Definition openOcdConfig := "openOcdConfig".
Definition stm32SvdPath := "stm32SvdPath".
Definition stm32SvdFile := "stm32SvdFile".
Definition cubeMxProjectPath := "cubeMxProjectPath".
End bStr.

(** ** updatePaths.py *)

Section UpdatePaths.
Context (host : Host) (g : Workspace).

(** (path, name, default, updated?) *)
Definition toolsList : list (string * string * string * bool) :=
  [ (bStr.gccExePath, "arm-none-eabi-gcc", "arm-none-eabi-gcc", false);
    (bStr.buildToolsPath, "make", "make", false);
    (bStr.openOcdPath, "openocd", "openocd", false);
    (bStr.stm32SvdPath,
     "STM target '*.svd' folder (example: .../Keil*/CMSIS/SVD)",
     workspacePath g ++ "SVD", false) ].

Definition updatePath (path pathName default : string) : M string :=
  ok <- gets (λ w, pathExists host w (Some default)) ;;
  if ok then
    let pathDefault :=
      match shutil_which host default with
      | Some found => found
      | None => default
      end in
    yes <- getYesNoAnswer
             (Str.NL ++ Str.TAB ++ "Default path to '" ++ pathName
              ++ "' detected at '" ++ pathDefault ++ "'" ++ Str.NL ++ Str.TAB
              ++ "Use this path? [y/n]: ") ;;
    if yes then ret pathDefault else getUserPath host pathName
  else getUserPath host pathName.

(** [utils.pathExists] on a value read from the descriptor: [None] and
    strings are answered, an array makes [os.path.exists] raise. *)
Definition probe (pathToCheck : value) : M bool :=
  match pathToCheck with
  | VNone => gets (λ w, pathExists host w None)
  | VStr p => gets (λ w, pathExists host w (Some p))
  | VList _ => raise TypeError
  end.

(** The [try: ... except: ...] of one round of [verifyExistingPaths]:
    the descriptor after it and the value of [updated]. *)
Definition checkTool (request : bool) (buildData : pydict)
           (tool : string * string * string * bool) : M (pydict * bool) :=
  let '(path, pathName, default, updated) := tool in
  try_bare
    (pathToCheck <- dict_item buildData path ;;
     ok <- probe pathToCheck ;;
     if negb ok then
       newPath <- updatePath path pathName default ;;
       ret (dict_set buildData path (VStr newPath), true)
     else if request then
       yes <- getYesNoAnswer
                (Str.NL ++ Str.NL ++ "Valid path to '" ++ pathName
                 ++ "' detected at '" ++ path ++ Str.NL ++ Str.TAB
                 ++ "Update existing path? [y/n]: ") ;;
       if yes then
         newPath <- updatePath path pathName default ;;
         ret (dict_set buildData path (VStr newPath), true)
       else ret (buildData, updated)
     else ret (buildData, updated))
    (newPath <- updatePath path pathName default ;;
     ret (dict_set buildData path (VStr newPath), true)).

(** "validate derivative paths" *)
Definition updateDerived (buildData : pydict) (path : string) : M pydict :=
  if decide (path = bStr.gccExePath) then
    v <- dict_item buildData bStr.gccExePath ;;
    gccExePath <- as_str v ;;
    inc <- getGccIncludePath host gccExePath ;;
    ret (dict_set buildData bStr.gccInludePath (VStr inc))
  else if decide (path = bStr.openOcdPath) then
    v <- dict_item buildData bStr.openOcdPath ;;
    openOcdPath <- as_str v ;;
    cfg <- getOpenOcdConfig host openOcdPath ;;
    ret (dict_set buildData bStr.openOcdConfig (VList cfg))
  else if decide (path = bStr.stm32SvdPath) then
    v <- dict_item buildData bStr.stm32SvdPath ;;
    stm32SvdPath <- as_str v ;;
    file <- getStm32SvdFile host stm32SvdPath ;;
    ret (dict_set buildData bStr.stm32SvdFile (VStr file))
  else ret buildData.

(** One round of the [for] loop of [verifyExistingPaths]. *)
Definition verifyTool (request : bool) (buildData : pydict)
           (tool : string * string * string * bool) : M pydict :=
  r <- checkTool request buildData tool ;;
  let '(buildData, updated) := r in
  buildData <-
    (if updated then updateDerived buildData (tool.1.1.1)
     else ret buildData) ;;
  python <- getPython3Path host ;;
  ret (dict_set buildData bStr.pythonPath (VStr python)).

Fixpoint verifyTools (request : bool)
         (tools : list (string * string * string * bool))
         (buildData : pydict) : M pydict :=
  match tools with
  | [] => ret buildData
  | tool :: rest =>
      buildData <- verifyTool request buildData tool ;;
      verifyTools request rest buildData
  end.

Definition verifyExistingPaths (buildData : pydict) (request : bool)
  : M pydict :=
  verifyTools request toolsList buildData.

End UpdatePaths.

(** ** updateBuildData.py *)

Section BuildData.
Context (host : Host) (g : Workspace).

(** The eight fields that the descriptor and [toolsPaths.json] share, in
    the order in which [addToolsPathsData] and [createUserToolsFile]
    assign them. *)
Definition toolFields : list string :=
  [ bStr.gccExePath; bStr.gccInludePath; bStr.buildToolsPath;
    bStr.pythonPath; bStr.openOcdPath; bStr.openOcdConfig;
    bStr.stm32SvdPath; bStr.stm32SvdFile ].

(** [dst[k] = src[k]] for each [k] of [keys], in turn. *)
Fixpoint copyFields (keys : list string) (src dst : pydict) : M pydict :=
  match keys with
  | [] => ret dst
  | k :: rest =>
      v <- dict_item src k ;;
      copyFields rest src (dict_set dst k v)
  end.

Definition createBuildDataFile : M unit :=
  try_except
    (let data := buildDataTemplate host in
     json_dump_file host (buildDataPath g) data ;;;
     print "New 'buildData.json' file created.")
    (λ err,
       printAndQuit true
         ("Exception error creating new 'buildData.json' file:" ++ Str.NL
          ++ str_exn err)).

Definition checkBuildDataFile : M unit :=
  there <- gets (λ w, pathExists host w (Some (buildDataPath g))) ;;
  if there then
    try_except
      (_ <- json_load_file (buildDataPath g) ;;
       print "Existing 'buildData.json' file found.")
      (λ err,
         print ("Invalid 'buildData.json' file. Creating new one. Error:" ++ Str.NL
                ++ "Possible cause: invalid json format or comments (not supported by this scripts). Error:"
                ++ Str.NL ++ str_exn err) ;;;
         createBuildDataFile)
  else createBuildDataFile.

(** The two lines with which [checkToolsPathFile] reports what became of
    an unreadable [toolsPaths.json]. *)
Definition deletedMsg : string :=
  Str.TAB ++ "Deleted. New 'toolsPaths.json' will be created on first valid user paths update.".
Definition notDeletedMsg (err : exn) : string :=
  Str.TAB ++ "Error deleting 'toolsPaths.json'. Error:" ++ Str.NL
  ++ str_exn err.

Definition checkToolsPathFile : M bool :=
  there <- gets (λ w, pathExists host w (Some (toolsPaths g))) ;;
  if there then
    try_except
      (_ <- json_load_file (toolsPaths g) ;;
       print "Valid 'toolsPaths.json' file found." ;;;
       ret true)
      (λ err,
         print ("Invalid 'toolsPaths.json' file. Error:" ++ Str.NL
                ++ str_exn err) ;;;
         try_except
           (os_remove host (toolsPaths g) ;;; print deletedMsg)
           (λ err, print (notDeletedMsg err)) ;;;
         ret false)
  else ret false.

Definition createUserToolsFile (buildData : pydict) : M unit :=
  try_except
    (let data := [] in
     let data :=
       dict_set data "ABOUT1"
         (VStr "Common tools paths that are automatically filled in buildData.json.") in
     let data :=
       dict_set data "ABOUT2"
         (VStr "Delete/correct this file if paths change on system.") in
     data <- copyFields toolFields buildData data ;;
     json_dump_file host (toolsPaths g) data ;;;
     print "'toolsPaths.json' file updated!")
    (λ err,
       print ("WARNING: " ++ "Exception error overwriting 'toolsPaths.json' file:"
              ++ Str.NL ++ str_exn err)).

Definition getToolsPathsData : M pydict := json_load_file (toolsPaths g).

Definition getBuildData : M pydict := json_load_file (buildDataPath g).

Definition addToolsPathsData (buildData : pydict) : M pydict :=
  toolsPathsData <- getToolsPathsData ;;
  copyFields toolFields toolsPathsData buildData.

Definition prepareBuildData : M pydict :=
  checkBuildDataFile ;;;
  buildData <- getBuildData ;;
  cached <- checkToolsPathFile ;;
  buildData <-
    (if cached then addToolsPathsData buildData else ret buildData) ;;
  buildData <- verifyExistingPaths host g buildData false ;;
  createUserToolsFile buildData ;;;
  ret buildData.

(** The fields that [addMakefileDataToBuildDataFile] takes over as they
    are: (key of the descriptor, key of the Makefile data). *)
Definition makefileFields : list (string * string) :=
  let m := mkfStr host in
  [ (bStr.cSources, mkf_cSources m); (bStr.asmSources, mkf_asmSources m);
    (bStr.cIncludes, mkf_cIncludes m); (bStr.asmIncludes, mkf_asmIncludes m);
    (bStr.cDefines, mkf_cDefines m); (bStr.asmDefines, mkf_asmDefines m);
    (bStr.cFlags, mkf_cFlags m); (bStr.asmFlags, mkf_asmFlags m);
    (bStr.buildDirPath, mkf_buildDir m) ].

Fixpoint takeFields (keys : list (string * string)) (src dst : pydict)
  : M pydict :=
  match keys with
  | [] => ret dst
  | (kd, ks) :: rest =>
      v <- dict_item src ks ;;
      takeFields rest src (dict_set dst kd v)
  end.

Definition addMakefileDataToBuildDataFile (buildData makefileData : pydict)
  : M pydict :=
  buildData <- takeFields makefileFields makefileData buildData ;;
  v <- dict_item makefileData (mkf_buildDir (mkfStr host)) ;;
  v' <- dict_item makefileData (mkf_projectName (mkfStr host)) ;;
  projectName <- as_str v' ;;
  buildDirPath <- as_str v ;;
  let targetExecutablePath :=
    getBuildElfFilePath host (workspacePath g) buildDirPath projectName in
  ret (dict_set buildData bStr.targetExecutablePath
                (VStr targetExecutablePath)).

Definition addCubeMxProjectPathToBuildData (buildData : pydict) : pydict :=
  match cubeMxProjectFilePath g with
  | Some file => dict_set buildData bStr.cubeMxProjectPath (VStr file)
  | None => buildData
  end.

(** [data] is the caller's dictionary and is changed in place, so the
    function hands back what the caller holds afterwards. *)
Definition overwriteBuildDataFile (data : pydict) : M pydict :=
  try_except
    (open_update host (buildDataPath g) ;;;
     let data := dict_set data "VERSION" (VStr version) in
     now <- gets clock ;;
     let data := dict_set data "LAST_RUN" (VStr now) in
     json_dump_file host (buildDataPath g) data ;;;
     print "'buildData.json' file updated!" ;;;
     ret data)
    (λ err,
       printAndQuit true
         ("Exception error overwriting 'buildData.json' file:" ++ Str.NL
          ++ str_exn err)).

(** [updatePaths.py] run as a script, after [verifyFolderStructure]. *)
Definition updatePaths_run : M unit :=
  buildData <- prepareBuildData ;;
  buildData <- verifyExistingPaths host g buildData true ;;
  buildData <- overwriteBuildDataFile buildData ;;
  createUserToolsFile buildData.

End BuildData.

(** [updatePaths.py] run as a script. *)
Definition updatePaths_main (host : Host) : M unit :=
  g <- verifyFolderStructure host ;;
  updatePaths_run host g.

(** ** Example hosts

    A Linux machine with the ARM toolchain below [/opt/gcc], the other tools
    on the search path and the workspace in [/ws]. *)

Module Demo.

Definition executables : list (string * string) :=
  [ ("arm-none-eabi-gcc", "/opt/gcc/bin/arm-none-eabi-gcc");
    ("make", "/usr/bin/make");
    ("openocd", "/usr/bin/openocd");
    ("python3", "/usr/bin/python3") ].

Definition others : list string :=
  [ "/ws"; "/ws/SVD"; "/ws/SVD/STM32F042x.svd";
    "/opt/gcc10/bin/arm-none-eabi-gcc";
    "/opt/gcc/lib/gcc/arm-none-eabi/9.2.1/include";
    "/usr/share/openocd/scripts/interface/stlink.cfg";
    "/usr/share/openocd/scripts/target/stm32f0x.cfg" ].

Definition exists_on_disk (p : string) : bool :=
  bool_decide (p ∈ (map snd executables ++ others)%list).

Fixpoint lookup_command (l : list (string * string)) (c : string)
  : option string :=
  match l with
  | [] => None
  | (name, p) :: l' =>
      if decide (c = name) then Some p
      else if decide (c = p) then Some p
      else lookup_command l' c
  end.

Definition which (c : string) : option string :=
  lookup_command executables c.

Definition walk (top : string)
  : list (string * list string * list string) :=
  if decide (top = "/opt/gcc/lib/gcc/arm-none-eabi") then
    [ ("/opt/gcc/lib/gcc/arm-none-eabi/9.2.1/include", [],
       ["stddef.h"; "stdint.h"]);
      ("/opt/gcc/lib/gcc/arm-none-eabi/9.2.1", ["include"], ["crtbegin.o"]);
      ("/opt/gcc/lib/gcc/arm-none-eabi", ["9.2.1"], []) ]
  else [].

Definition ls (p : string) : option (list string) :=
  if decide (p = "/ws") then
    Some ["Makefile"; "fw.code-workspace"; "fw.ioc"; "ideScripts"; "SVD"]
  else if decide (p = "/ws/SVD") then Some ["STM32F042x.svd"]
  else None.

Definition expandvars (s : string) : string :=
  if decide (s = "$HOME/.config/Code/User/")
  then "/home/dev/.config/Code/User/" else s.

Definition template : pydict :=
  [ ("ABOUT1", VStr "This file is auto-generated by ideScripts.");
    ("VERSION", VStr "");
    ("LAST_RUN", VStr "");
    (bStr.gccExePath, VStr "");
    (bStr.gccInludePath, VStr "");
    (bStr.buildToolsPath, VStr "");
    (bStr.pythonPath, VStr "");
    (bStr.openOcdPath, VStr "");
    (bStr.openOcdConfig, VList []);
    (bStr.stm32SvdPath, VStr "");
    (bStr.stm32SvdFile, VStr "") ].

Definition makefileStrings : MakefileStrings :=
  {| mkf_cSources := "C_SOURCES"; mkf_asmSources := "ASM_SOURCES";
     mkf_cIncludes := "C_INCLUDES"; mkf_asmIncludes := "AS_INCLUDES";
     mkf_cDefines := "C_DEFS"; mkf_asmDefines := "AS_DEFS";
     mkf_cFlags := "CFLAGS"; mkf_asmFlags := "ASFLAGS";
     mkf_buildDir := "BUILD_DIR"; mkf_projectName := "TARGET" |}.

(** The machine, with the operating system as Python reports it and the
    answer of the disk to [os.remove]. *)
Definition machine (name release : string) (removable : bool) : Host :=
  {| os_name := name;
     platform_release := release;
     sys_argv0 := "/ws/ideScripts/updatePaths.py";
     os_path_join := Posix.join;
     os_path_dirname := Posix.dirname;
     os_path_normpath := Posix.normpath;
     os_path_expandvars := expandvars;
     disk_exists := exists_on_disk;
     shutil_which := which;
     os_walk_bottom_up := walk;
     os_listdir := ls;
     can_write := λ _, true;
     can_remove := λ _, removable;
     can_mkdir := λ _, true;
     buildDataTemplate := template;
     mkfStr := makefileStrings |}.

Definition linux : Host := machine "posix" "6.8.0-45-generic" true.
Definition linux_locked : Host := machine "posix" "6.8.0-45-generic" false.
Definition wsl : Host := machine "posix" "4.4.0-19041-Microsoft" true.
Definition jython : Host := machine "java" "" true.
Definition unknown_os : Host := machine "os2" "" true.

Definition ws : Workspace :=
  {| workspacePath := "/ws";
     workspaceFilePath := "/ws/fw.code-workspace";
     cubeMxProjectFilePath := Some "/ws/fw.ioc";
     ideScriptsPath := "/ws/ideScripts";
     makefilePath := "/ws/Makefile";
     makefileBackupPath := "/ws/Makefile.backup";
     cPropertiesPath := "/ws/.vscode/c_cpp_properties.json";
     cPropertiesBackupPath := "/ws/.vscode/c_cpp_properties.json.backup";
     buildDataPath := "/ws/.vscode/buildData.json";
     toolsPaths := "/home/dev/.config/Code/User/toolsPaths.json";
     tasksPath := "/ws/.vscode/tasks.json";
     tasksBackupPath := "/ws/.vscode/tasks.json.backup";
     launchPath := "/ws/.vscode/launch.json";
     launchBackupPath := "/ws/.vscode/launch.json.backup" |}.

(** A descriptor and a cache whose tool paths all exist; they disagree on
    the compiler. *)
Definition descriptor : pydict :=
  [ ("VERSION", VStr "1.4");
    ("LAST_RUN", VStr "2019-05-01 10:00:00.000000");
    (bStr.gccExePath, VStr "/opt/gcc10/bin/arm-none-eabi-gcc");
    (bStr.gccInludePath, VStr "/opt/gcc10/lib/gcc/arm-none-eabi/10.3.1/include");
    (bStr.buildToolsPath, VStr "/usr/bin/make");
    (bStr.pythonPath, VStr "python3");
    (bStr.openOcdPath, VStr "/usr/bin/openocd");
    (bStr.openOcdConfig,
     VList ["/usr/share/openocd/scripts/interface/stlink.cfg"]);
    (bStr.stm32SvdPath, VStr "/ws/SVD");
    (bStr.stm32SvdFile, VStr "STM32F042x.svd") ].

(** The same descriptor after the compiler has been removed from where
    it was. *)
Definition stale_descriptor : pydict :=
  dict_set descriptor bStr.gccExePath
           (VStr "/opt/old/bin/arm-none-eabi-gcc").

Definition cache : pydict :=
  [ ("ABOUT1", VStr "Common tools paths that are automatically filled in buildData.json.");
    ("ABOUT2", VStr "Delete/correct this file if paths change on system.");
    (bStr.gccExePath, VStr "/opt/gcc/bin/arm-none-eabi-gcc");
    (bStr.gccInludePath, VStr "/opt/gcc/lib/gcc/arm-none-eabi/9.2.1/include");
    (bStr.buildToolsPath, VStr "/usr/bin/make");
    (bStr.pythonPath, VStr "python3");
    (bStr.openOcdPath, VStr "/usr/bin/openocd");
    (bStr.openOcdConfig,
     VList ["/usr/share/openocd/scripts/interface/stlink.cfg"]);
    (bStr.stm32SvdPath, VStr "/ws/SVD");
    (bStr.stm32SvdFile, VStr "STM32F042x.svd") ].

(** What the Makefile reader hands over for a project [fw] built in
    [build]. *)
Definition makefileData : pydict :=
  [ ("C_SOURCES", VList ["Src/main.c"; "Src/system.c"]);
    ("ASM_SOURCES", VList ["startup_stm32f042x6.s"]);
    ("C_INCLUDES", VList ["Inc"]);
    ("AS_INCLUDES", VList []);
    ("C_DEFS", VList ["STM32F042x6"]);
    ("AS_DEFS", VList []);
    ("CFLAGS", VList ["-mcpu=cortex-m0"; "-mthumb"]);
    ("ASFLAGS", VList ["-mcpu=cortex-m0"; "-mthumb"]);
    ("BUILD_DIR", VStr "build");
    ("TARGET", VStr "fw") ].

(** Both documents on disk. *)
Definition both_documents : gmap string node :=
  {[ "/ws/.vscode/buildData.json" := Doc descriptor;
     "/home/dev/.config/Code/User/toolsPaths.json" := Doc cache ]}.

Definition at_start (docs : gmap string node) (typed : list string) : world :=
  {| files := docs; stdin := typed; stdout := [];
     clock := "2019-05-02 09:30:00.000000" |}.

End Demo.

(** ** Vocabulary of the statements *)

Section Vocabulary.
Context (host : Host).


Definition fragmentIsFile (w : world) (scripts arg : string) : bool :=
  pathExists host w (Some (scripts ++ "/" ++ arg)).

Definition fragmentAccepted (w : world) (scripts arg : string) : bool :=
  fragmentIsFile w scripts arg || Str.startswith arg "-".


Definition pathsOfFragments (w : world) (scripts : string)
           (args : list string) : list string :=
  map (λ arg, scripts ++ "/" ++ arg)
      (filter (λ arg, fragmentIsFile w scripts arg = true) args).

(** The descriptor [d] names, under [key], a path that passes the probe. *)
Definition passesProbe (w : world) (d : pydict) (key : string) : Prop :=
  ∃ p, dict_get d key = Some (VStr p) ∧ pathExists host w (Some p) = true.

(** The field that [verifyExistingPaths] recomputes after a tool path has
    changed. *)
Definition derivedField (path : string) : option string :=
  if decide (path = bStr.gccExePath) then Some bStr.gccInludePath
  else if decide (path = bStr.openOcdPath) then Some bStr.openOcdConfig
  else if decide (path = bStr.stm32SvdPath) then Some bStr.stm32SvdFile
  else None.

(** The keys that the round of [verifyExistingPaths] for the tool stored
    under [path] may assign. *)
Definition touched (path : string) : list string :=
  (path :: option_list (derivedField path) ++ [bStr.pythonPath])%list.

(** The key under which a tool of the list is stored. *)
Definition toolKey (tool : string * string * string * bool) : string :=
  tool.1.1.1.

(** What [shutil.which] finds is there. *)
Definition which_sound : Prop :=
  ∀ c p, shutil_which host c = Some p → disk_exists host p = true.

(** [copyFields] as a function: the dictionary after the assignments, or
    [None] when a key is missing from the source. *)
Fixpoint overlay (keys : list string) (src dst : pydict) : option pydict :=
  match keys with
  | [] => Some dst
  | k :: rest =>
      match dict_get src k with
      | Some v => overlay rest src (dict_set dst k v)
      | None => None
      end
  end.

(** The document that [createUserToolsFile] builds from a descriptor. *)
Definition cacheOf (buildData : pydict) : option pydict :=
  overlay toolFields buildData
    [ ("ABOUT1",
       VStr "Common tools paths that are automatically filled in buildData.json.");
      ("ABOUT2",
       VStr "Delete/correct this file if paths change on system.") ].

(** The descriptor as [overwriteBuildDataFile] writes it at time [now]. *)
Definition stamped (buildData : pydict) (now : string) : pydict :=
  dict_set (dict_set buildData "VERSION" (VStr version))
           "LAST_RUN" (VStr now).

(** What is at the place of [toolsPaths.json] after [checkToolsPathFile]
    and after [createUserToolsFile], given what was there before. *)
Definition afterCheck (g : Workspace) (slot : option node) : option node :=
  match slot with
  | Some Corrupt => if can_remove host (toolsPaths g) then None else slot
  | _ => slot
  end.

Definition afterSave (g : Workspace) (buildData : pydict)
           (slot : option node) : option node :=
  match cacheOf buildData with
  | Some c =>
      match slot with
      | Some Folder => slot
      | _ => if can_write host (toolsPaths g) then Some (Doc c) else slot
      end
  | None => slot
  end.

(** The descriptor after the cache, when there is one, has been laid over
    it by [addToolsPathsData]. *)
Definition candidates (cacheSlot : option node) (descriptor : pydict)
  : option pydict :=
  match cacheSlot with
  | Some (Doc c) => overlay toolFields c descriptor
  | _ => Some descriptor
  end.

(** A path that passes the probe whatever documents the scripts have
    written: it exists on the disk or is found on the search path. *)
Definition toolExists (p : string) : bool :=
  disk_exists host p || bool_decide (is_Some (shutil_which host p)).

(** Every tool of the list is stored in [d] with such a path. *)
Definition storedToolsPass (g : Workspace) (d : pydict) : Prop :=
  ∀ tool, tool ∈ toolsList g →
          ∃ p, dict_get d (toolKey tool) = Some (VStr p)
               ∧ toolExists p = true.

(** [getPython3Path] finds the interpreter without asking. *)
Definition pythonReady (python : string) : Prop :=
  ∀ w, getPython3Path host w = (Return python, w).

(** The operator declines: each answer is an [n], in either case. *)
Definition declines (answers : list string) : Prop :=
  Forall (λ line, Str.lower line = "n") answers.

End Vocabulary.

(** ** utilities.py: the helpers for lists of strings and the build folder *)

Module PyStr.

(** [sub in s], which is what [s.find(sub) != -1] tests. *)
Fixpoint contains (s sub : string) : bool :=
  match s with
  | EmptyString => String.prefix sub ""
  | String _ s' => String.prefix sub s || contains s' sub
  end.

(** [s[n:]]. *)
Definition from (n : nat) (s : string) : string :=
  Str.of_chars (drop n (Str.chars s)).

Fixpoint lstrip_chars (l : list ascii) : list ascii :=
  match l with
  | [] => []
  | c :: l' => if Str.isspace c then lstrip_chars l' else l
  end.

(** [s.strip()]. *)
Definition strip (s : string) : string :=
  Str.of_chars (rev (lstrip_chars (rev (lstrip_chars (Str.chars s))))).

(** [s.split(sep)] for a separator that is not empty: [skip] counts the
    characters of a separator just found that are still to be passed. *)
Fixpoint split_go (sep : string) (skip : nat) (cur : list ascii) (s : string)
  : list string :=
  match s with
  | EmptyString => [Str.of_chars (rev cur)]
  | String c s' =>
      match skip with
      | S k => split_go sep k cur s'
      | O =>
          if String.prefix sep s
          then Str.of_chars (rev cur)
               :: split_go sep (String.length sep - 1) [] s'
          else split_go sep 0 (c :: cur) s'
      end
  end.

(** [None] stands for the [ValueError] that an empty separator raises. *)
Definition split (s sep : string) : option (list string) :=
  if decide (sep = "") then None else Some (split_go sep 0 [] s).

End PyStr.

Fixpoint stripStartOfString (dataList : list string) (stringToStrip : string)
  : list string :=
  match dataList with
  | [] => []
  | data :: rest =>
      (if PyStr.contains data stringToStrip
       then PyStr.from (String.length stringToStrip) data
       else data)
      :: stripStartOfString rest stringToStrip
  end.

(** [data] is a list, whose items are then replaced one by one, or a
    string; on [None] the concatenation raises. *)
Definition preappendString (data : value) (stringToAppend : string)
  : exn + value :=
  match data with
  | VList items => inr (VList (map (λ item, stringToAppend ++ item) items))
  | VStr one => inr (VStr (stringToAppend ++ one))
  | VNone => inl TypeError
  end.

Definition stringToList (text separator : string) : option (list string) :=
  items ← PyStr.split text separator;
  Some (map PyStr.strip items).

Section BuildFolder.
Context (host : Host) (g : Workspace).

Definition createBuildFolder (folderName : string) : M unit :=
  let buildFolderPath := os_path_join host (workspacePath g) folderName in
  there <- gets (λ w, pathExists host w (Some buildFolderPath)) ;;
  if negb there then
    os_mkdir host buildFolderPath ;;;
    print ("Build folder created: " ++ buildFolderPath)
  else print ("Build folder already exist: '" ++ buildFolderPath ++ "'").

End BuildFolder.

(** ** Vocabulary of the further statements *)

(** No blank at either end. *)
Definition trimmed (s : string) : Prop :=
  (∀ c, head (Str.chars s) = Some c → Str.isspace c = false)
  ∧ (∀ c, last (Str.chars s) = Some c → Str.isspace c = false).

(** The line as [getUserPath] probes and returns it. *)
Definition cleanedPath (host : Host) (line : string) : string :=
  pathWithForwardSlashes host
    (Str.remove_char Str.squote (Str.remove_char Str.dquote line)).

(** What the operator means by a line typed at a yes/no question. *)
Definition yesNo (line : string) : option bool :=
  if decide (Str.lower line = "y") then Some true
  else if decide (Str.lower line = "n") then Some false
  else None.

(** The command by which [getPython3Path] looks for the interpreter. *)
Definition pythonCommand (osIs : string) : string :=
  if bool_decide (osIs = "unix") || bool_decide (osIs = "wsl")
  then "python3" else "python".

(** ** updatePaths.py: the fields computed from a tool's location *)



(** ** A toolchain with a second copy of the marker header

    The host [Demo.linux] with one more folder below the compiler's
    [include]: [include/sub], which holds a [stdint.h] of its own.  The walk
    is bottom-up, so the folder comes before [include]. *)

Definition nestedWalk (top : string)
  : list (string * list string * list string) :=
  if decide (top = "/opt/gcc/lib/gcc/arm-none-eabi") then
    [ ("/opt/gcc/lib/gcc/arm-none-eabi/9.2.1/include/sub", [], ["stdint.h"]);
      ("/opt/gcc/lib/gcc/arm-none-eabi/9.2.1/include", ["sub"],
       ["stddef.h"; "stdint.h"]);
      ("/opt/gcc/lib/gcc/arm-none-eabi/9.2.1", ["include"], ["crtbegin.o"]);
      ("/opt/gcc/lib/gcc/arm-none-eabi", ["9.2.1"], []) ]
  else [].

Definition nested_headers : Host :=
  {| os_name := os_name Demo.linux;
     platform_release := platform_release Demo.linux;
     sys_argv0 := sys_argv0 Demo.linux;
     os_path_join := os_path_join Demo.linux;
     os_path_dirname := os_path_dirname Demo.linux;
     os_path_normpath := os_path_normpath Demo.linux;
     os_path_expandvars := os_path_expandvars Demo.linux;
     disk_exists := disk_exists Demo.linux;
     shutil_which := shutil_which Demo.linux;
     os_walk_bottom_up := nestedWalk;
     os_listdir := os_listdir Demo.linux;
     can_write := can_write Demo.linux;
     can_remove := can_remove Demo.linux;
     can_mkdir := can_mkdir Demo.linux;
     buildDataTemplate := buildDataTemplate Demo.linux;
     mkfStr := mkfStr Demo.linux |}.

(** * Properties *)

(** ** Dictionaries *)

Lemma dict_get_set_eq (d : pydict) k v : dict_get (dict_set d k v) k = Some v.
Proof.
  induction d as [|[k' v'] d IH]; simpl.
  - by rewrite decide_True.
  - destruct (decide (k' = k)) as [->|Hne]; simpl.
    + by rewrite decide_True.
    + by rewrite decide_False.
Qed.

Lemma dict_get_set_ne (d : pydict) k k' v :
  k ≠ k' → dict_get (dict_set d k v) k' = dict_get d k'.
Proof.
  intros Hne. induction d as [|[k0 v0] d IH]; simpl.
  - by rewrite decide_False.
  - destruct (decide (k0 = k)) as [->|Hk]; simpl.
    + by rewrite !decide_False.
    + by rewrite IH.
Qed.

Lemma dict_set_same (d : pydict) k v : dict_get d k = Some v → dict_set d k v = d.
Proof.
  induction d as [|[k0 v0] d IH]; simpl; [done|].
  destruct (decide (k0 = k)) as [->|Hk]; intros H.
  - by simplify_eq.
  - by rewrite IH.
Qed.

Lemma dict_set_set (d : pydict) k v v' :
  dict_set (dict_set d k v) k v' = dict_set d k v'.
Proof.
  induction d as [|[k0 v0] d IH]; simpl.
  - by rewrite decide_True.
  - destruct (decide (k0 = k)) as [->|Hk]; simpl.
    + by rewrite decide_True.
    + by rewrite decide_False, IH.
Qed.

(** ** The monad: how a run that returns decomposes *)

Lemma bind_returns {A B} (m : M A) (k : A → M B) w b w' :
  bind m k w = (Return b, w') ↔
  ∃ a w1, m w = (Return a, w1) ∧ k a w1 = (Return b, w').
Proof.
  unfold bind. split.
  - destruct (m w) as [[a|e|c] w1]; [eauto|done..].
  - intros (a & w1 & -> & H). done.
Qed.

Lemma bind_step {A B} (m : M A) (k : A → M B) w a w1 :
  m w = (Return a, w1) → bind m k w = k a w1.
Proof. unfold bind. by intros ->. Qed.

Lemma bind_gets {A B} (f : world → A) (k : A → M B) w :
  bind (gets f) k w = k (f w) w.
Proof. reflexivity. Qed.

Lemma bind_raises {A B} (m : M A) (k : A → M B) w e w1 :
  m w = (Raise e, w1) → bind m k w = (Raise e, w1).
Proof. unfold bind. by intros ->. Qed.

Lemma bind_exits {A B} (m : M A) (k : A → M B) w c w1 :
  m w = (Exit c, w1) → bind m k w = (Exit c, w1).
Proof. unfold bind. by intros ->. Qed.

Lemma try_bare_returns {A} (m h : M A) w a w' :
  try_bare m h w = (Return a, w') →
  m w = (Return a, w') ∨
  ∃ w1, (∀ x, m w ≠ (Return x, w1)) ∧ (m w).2 = w1 ∧ h w1 = (Return a, w').
Proof.
  unfold try_bare. destruct (m w) as [[x|e|c] w1] eqn:E; intros H.
  - left. by simplify_eq.
  - right. exists w1. naive_solver.
  - right. exists w1. naive_solver.
Qed.

Lemma preserves_run {A X} (f : world → X) (m : M A) w r w' :
  preserves f m → m w = (r, w') → f w' = f w.
Proof. intros Hm E. specialize (Hm w). by rewrite E in Hm. Qed.

Section Preserves.
Context {X : Type} (f : world → X).

Lemma preserves_ret {A} (a : A) : preserves f (ret a).
Proof. done. Qed.

Lemma preserves_raise {A} e : preserves f (@raise A e).
Proof. done. Qed.

Lemma preserves_sys_exit {A} c : preserves f (@sys_exit A c).
Proof. done. Qed.

Lemma preserves_gets {A} (h : world → A) : preserves f (gets h).
Proof. done. Qed.

Lemma preserves_bind {A B} (m : M A) (k : A → M B) :
  preserves f m → (∀ a, preserves f (k a)) → preserves f (bind m k).
Proof.
  intros Hm Hk w. unfold bind. specialize (Hm w).
  destruct (m w) as [[a|e|c] w1]; simpl in *; [|done..].
  by rewrite Hk.
Qed.

Lemma preserves_try_except {A} (m : M A) h :
  preserves f m → (∀ e, preserves f (h e)) → preserves f (try_except m h).
Proof.
  intros Hm Hh w. unfold try_except. specialize (Hm w).
  destruct (m w) as [[a|e|c] w1]; simpl in *; [done| |done].
  by rewrite Hh.
Qed.

Lemma preserves_try_bare {A} (m h : M A) :
  preserves f m → preserves f h → preserves f (try_bare m h).
Proof.
  intros Hm Hh w. unfold try_bare. specialize (Hm w).
  destruct (m w) as [[a|e|c] w1]; simpl in *; [done|..]; by rewrite Hh.
Qed.

Lemma preserves_if {A} (b : bool) (m1 m2 : M A) :
  preserves f m1 → preserves f m2 → preserves f (if b then m1 else m2).
Proof. by destruct b. Qed.

Lemma preserves_decide {A} P `{Decision P} (m1 m2 : M A) :
  preserves f m1 → preserves f m2 →
  preserves f (if decide P then m1 else m2).
Proof. by destruct (decide P). Qed.

Lemma preserves_dict_item d k : preserves f (dict_item d k).
Proof. unfold dict_item. by destruct (dict_get d k). Qed.

Lemma preserves_as_str v : preserves f (as_str v).
Proof. by destruct v. Qed.

Lemma preserves_json_load_file p : preserves f (json_load_file p).
Proof.
  intros w. unfold json_load_file. by destruct (files w !! p) as [[]|].
Qed.

End Preserves.

Lemma preserves_print_files s : preserves files (print s).
Proof. done. Qed.
Lemma preserves_print_stdin s : preserves stdin (print s).
Proof. done. Qed.
Lemma preserves_print_clock s : preserves clock (print s).
Proof. done. Qed.
Lemma preserves_input_files msg : preserves files (input msg).
Proof. intros w. unfold input. by destruct (stdin w). Qed.
Lemma preserves_input_clock msg : preserves clock (input msg).
Proof. intros w. unfold input. by destruct (stdin w). Qed.

Lemma preserves_input_rounds {A X} (f : world → X) n msg
      (body : string → M (option A)) :
  preserves f (input msg) → (∀ l, preserves f (body l)) →
  preserves f (input_rounds n msg body).
Proof.
  intros Hi Hb. induction n as [|n IH]; simpl.
  - apply preserves_bind; [done|]. intros. apply preserves_raise.
  - apply preserves_bind; [done|]. intros l.
    apply preserves_bind; [done|]. intros [a|]; [apply preserves_ret|done].
Qed.

Lemma preserves_while_input {A X} (f : world → X) msg
      (body : string → M (option A)) :
  preserves f (input msg) → (∀ l, preserves f (body l)) →
  preserves f (while_input msg body).
Proof.
  intros Hi Hb w. unfold while_input. by apply preserves_input_rounds.
Qed.

(** What a prompt loop returns was accepted by its body. *)
Lemma input_rounds_returns {A} n msg (body : string → M (option A))
      (Q : A → world → Prop) :
  (∀ line w a w', body line w = (Return (Some a), w') → Q a w') →
  ∀ w a w', input_rounds n msg body w = (Return a, w') → Q a w'.
Proof.
  intros Hbody. induction n as [|n IH]; intros w a w'; simpl.
  - intros (? & ? & _ & H)%bind_returns. discriminate H.
  - intros (line & w1 & _ & (r & w2 & Hb & H)%bind_returns)%bind_returns.
    destruct r as [x|].
    + unfold ret in H. simplify_eq. eauto.
    + eauto.
Qed.

Lemma while_input_returns {A} msg (body : string → M (option A))
      (Q : A → world → Prop) :
  (∀ line w a w', body line w = (Return (Some a), w') → Q a w') →
  ∀ w a w', while_input msg body w = (Return a, w') → Q a w'.
Proof. intros Hbody w. unfold while_input. by apply input_rounds_returns. Qed.

(** ** The existence probe *)




Lemma pathExists_files (host : Host) (w w' : world) p :
  files w = files w' → pathExists host w p = pathExists host w' p.
Proof.
  intros E. destruct p as [p|]; [|done]. simpl. unfold os_path_exists.
  by rewrite E.
Qed.

(** ** The executable path taken from the Makefile data *)

Lemma takeFields_returns keys (src dst : pydict) w :
  (∀ kd ks, (kd, ks) ∈ keys → is_Some (dict_get src ks)) →
  ∃ dst', takeFields keys src dst w = (Return dst', w).
Proof.
  revert dst. induction keys as [|[kd ks] keys IH]; intros dst Hall; simpl.
  - by eexists.
  - destruct (Hall kd ks) as [v Hv]; [by left|].
    unfold bind, dict_item. rewrite Hv. simpl.
    apply IH. intros ???. apply (Hall kd0). by right.
Qed.

(** C5, as the code has it.  When the Makefile data holds every field the
    function reads, with a string for the output directory and for the
    project name, [addMakefileDataToBuildDataFile] returns, changes nothing
    else in the world, and the descriptor's [targetExecutablePath] is the
    workspace path joined with the output directory and with the project name
    followed by [.elf], normalised to forward slashes. *)
Theorem targetExecutablePath_written (host : Host) (g : Workspace)
        (buildData makefileData : pydict) (outputDir projectName : string)
        (w : world)
        (Hfacts : ∀ kd ks, (kd, ks) ∈ makefileFields host →
                           is_Some (dict_get makefileData ks))
        (Hdir : dict_get makefileData (mkf_buildDir (mkfStr host))
                = Some (VStr outputDir))
        (Hname : dict_get makefileData (mkf_projectName (mkfStr host))
                 = Some (VStr projectName)) :
  ∃ buildData',
    addMakefileDataToBuildDataFile host g buildData makefileData w
    = (Return buildData', w)
    ∧ dict_get buildData' bStr.targetExecutablePath
      = Some (VStr (pathWithForwardSlashes host
                      (os_path_join host
                         (os_path_join host (workspacePath g) outputDir)
                         (projectName ++ ".elf")))).
Proof.
  destruct (takeFields_returns (makefileFields host) makefileData buildData w
              Hfacts) as [bd1 Hbd1].
  eexists. split.
  - unfold addMakefileDataToBuildDataFile, bind at 1. rewrite Hbd1.
    unfold bind, dict_item. rewrite Hdir, Hname. simpl. reflexivity.
  - apply dict_get_set_eq.
Qed.

Lemma targetExecutablePath_written_witness :
  (∀ kd ks, (kd, ks) ∈ makefileFields Demo.linux →
            is_Some (dict_get Demo.makefileData ks))
  ∧ ∃ buildData',
      addMakefileDataToBuildDataFile Demo.linux Demo.ws Demo.descriptor
        Demo.makefileData (Demo.at_start ∅ [])
      = (Return buildData', Demo.at_start ∅ [])
      ∧ dict_get buildData' bStr.targetExecutablePath
        = Some (VStr "/ws/build/fw.elf").
Proof.
  assert (Hfacts : ∀ kd ks, (kd, ks) ∈ makefileFields Demo.linux →
                            is_Some (dict_get Demo.makefileData ks)).
  { intros kd ks Hin. unfold makefileFields in Hin. simpl in Hin.
    repeat (apply elem_of_cons in Hin as [Hin|Hin];
            [injection Hin as -> ->; by eexists|]).
    by apply elem_of_nil in Hin. }
  split; [exact Hfacts|].
  exact (targetExecutablePath_written Demo.linux Demo.ws Demo.descriptor
           Demo.makefileData "build" "fw" (Demo.at_start ∅ [])
           Hfacts eq_refl eq_refl).
Defined.

(** C5 as stated fails: for the output directory [build] and the project
    [fw] in the workspace [/ws] the field is [/ws/build/fw.elf], not the
    output directory joined with [fw.elf]. *)
Lemma targetExecutablePath_not_outputDir_joined :
  ∃ buildData' w',
    addMakefileDataToBuildDataFile Demo.linux Demo.ws Demo.descriptor
      Demo.makefileData (Demo.at_start ∅ []) = (Return buildData', w')
    ∧ dict_get Demo.makefileData "BUILD_DIR" = Some (VStr "build")
    ∧ dict_get Demo.makefileData "TARGET" = Some (VStr "fw")
    ∧ dict_get buildData' bStr.targetExecutablePath
      = Some (VStr "/ws/build/fw.elf")
    ∧ dict_get buildData' bStr.targetExecutablePath
      ≠ Some (VStr (pathWithForwardSlashes Demo.linux
                      (os_path_join Demo.linux "build" ("fw" ++ ".elf")))).
Proof.
  eexists _, _. split; [vm_compute; reflexivity|].
  repeat split; vm_compute; congruence.
Qed.

(** ** The header directory of the compiler *)

Lemma firstFolderWith_unique marker walk include :
  (∃ dirs fs, (include, dirs, fs) ∈ walk ∧ marker ∈ fs) →
  (∀ root dirs fs, (root, dirs, fs) ∈ walk → marker ∈ fs → root = include) →
  firstFolderWith marker walk = Some include.
Proof.
  induction walk as [|[[root dirs] fs] walk IH]; intros (d & f & Hin & Hm) Huniq.
  - by apply elem_of_nil in Hin.
  - simpl. case_bool_decide as Hhere.
    + f_equal. eapply Huniq; [by left|done].
    + apply IH.
      * apply elem_of_cons in Hin as [Heq|Hin]; [by simplify_eq|eauto].
      * intros ?????. eapply Huniq; [by right|done].
Qed.

Lemma firstFolderWith_none marker walk :
  (∀ root dirs fs, (root, dirs, fs) ∈ walk → marker ∉ fs) →
  firstFolderWith marker walk = None.
Proof.
  induction walk as [|[[root dirs] fs] walk IH]; intros Hnone; [done|].
  simpl. rewrite bool_decide_false by (eapply Hnone; by left).
  apply IH. intros ????. eapply Hnone. by right.
Qed.

Lemma firstFolderWith_first marker before root dirs fs after :
  marker ∈ fs →
  (∀ r d f, (r, d, f) ∈ before → marker ∉ f) →
  firstFolderWith marker (before ++ (root, dirs, fs) :: after)%list
  = Some root.
Proof.
  intros Hm. induction before as [|[[r d] f] before IH]; intros Hnone; simpl.
  - by rewrite bool_decide_eq_true_2.
  - rewrite bool_decide_eq_false_2 by (eapply Hnone; by left).
    apply IH. intros ????. eapply Hnone. by right.
Qed.

(** C6, as the code has it.  The search goes bottom-up through
    [lib/gcc/arm-none-eabi] below the installation root of the compiler, and
    [getGccIncludePath] returns (with forward slashes) the first folder of
    that walk which holds [stdint.h], whatever folders come after it.  So it
    returns [<version>/include] when that is the one folder of the whole
    walk that holds [stdint.h]; and if no folder of the walk holds it, the
    error is printed and the run ends in [sys.exit(1)]. *)
Theorem getGccIncludePath_spec (host : Host) (gccExePath : string) (w : world) :
  let searchPath := gccSearchPath host gccExePath in
  let walk := os_walk_bottom_up host searchPath in
  (∀ before root dirs fs after,
     walk = (before ++ (root, dirs, fs) :: after)%list →
     "stdint.h" ∈ fs →
     (∀ r d f, (r, d, f) ∈ before → "stdint.h" ∉ f) →
     getGccIncludePath host gccExePath w
     = (Return (pathWithForwardSlashes host root), w))
  ∧ (∀ version,
       let include :=
         os_path_join host (os_path_join host searchPath version) "include" in
       (∃ dirs fs, (include, dirs, fs) ∈ walk ∧ "stdint.h" ∈ fs) →
       (∀ root dirs fs,
          (root, dirs, fs) ∈ walk → "stdint.h" ∈ fs → root = include) →
       getGccIncludePath host gccExePath w
       = (Return (pathWithForwardSlashes host include), w))
  ∧ ((∀ root dirs fs, (root, dirs, fs) ∈ walk → "stdint.h" ∉ fs) →
     ∃ w', getGccIncludePath host gccExePath w = (Exit 1, w')
           ∧ files w' = files w).
Proof.
  intros searchPath walk. split; [|split].
  - intros before root dirs fs after Hwalk Hm Hnone.
    unfold getGccIncludePath. fold searchPath. fold walk. rewrite Hwalk.
    by rewrite (firstFolderWith_first _ _ _ _ _ _ Hm Hnone).
  - intros version include Hex Huniq. unfold getGccIncludePath.
    fold searchPath. fold walk.
    by rewrite (firstFolderWith_unique _ _ include Hex Huniq).
  - intros Hnone. unfold getGccIncludePath. fold searchPath. fold walk.
    rewrite (firstFolderWith_none _ _ Hnone). by eexists.
Qed.

Lemma getGccIncludePath_spec_witness :
  getGccIncludePath Demo.linux "/opt/gcc/bin/arm-none-eabi-gcc"
    (Demo.at_start ∅ [])
  = (Return "/opt/gcc/lib/gcc/arm-none-eabi/9.2.1/include",
     Demo.at_start ∅ [])
  ∧ getGccIncludePath nested_headers "/opt/gcc/bin/arm-none-eabi-gcc"
      (Demo.at_start ∅ [])
    = (Return "/opt/gcc/lib/gcc/arm-none-eabi/9.2.1/include/sub",
       Demo.at_start ∅ [])
  ∧ ∃ w', getGccIncludePath Demo.linux "/opt/gcc10/bin/arm-none-eabi-gcc"
            (Demo.at_start ∅ []) = (Exit 1, w').
Proof.
  split; [|split].
  - refine (proj1 (proj2 (getGccIncludePath_spec Demo.linux
                            "/opt/gcc/bin/arm-none-eabi-gcc"
                            (Demo.at_start ∅ [])))
                  "9.2.1" _ _).
    + exists [], ["stddef.h"; "stdint.h"]. split; [by left|]. by right; left.
    + intros root dirs fs Hin Hm. vm_compute in Hin.
      apply elem_of_cons in Hin as [Hin|Hin]; [by simplify_eq|].
      apply elem_of_cons in Hin as [Hin|Hin].
      { injection Hin as -> -> ->. exfalso. revert Hm.
        by rewrite !elem_of_cons, elem_of_nil; intros [|[]]. }
      apply elem_of_cons in Hin as [Hin|Hin].
      { injection Hin as -> -> ->. by apply elem_of_nil in Hm. }
      by apply elem_of_nil in Hin.
  - refine (proj1 (getGccIncludePath_spec nested_headers
                     "/opt/gcc/bin/arm-none-eabi-gcc" (Demo.at_start ∅ []))
                  [] "/opt/gcc/lib/gcc/arm-none-eabi/9.2.1/include/sub"
                  [] ["stdint.h"] _ eq_refl _ _).
    + by left.
    + intros r d f Hin. by apply elem_of_nil in Hin.
  - destruct (proj2 (proj2 (getGccIncludePath_spec Demo.linux
                       "/opt/gcc10/bin/arm-none-eabi-gcc" (Demo.at_start ∅ []))))
      as (w' & Hw' & _); [|by exists w'].
    intros root dirs fs Hin. vm_compute in Hin. by apply elem_of_nil in Hin.
Defined.

(** ** Where the tool-path cache lives *)

(** C10. Once [verifyFolderStructure] is past its checks of the folder (one
    [*.code-workspace] file in the workspace root, a [.vscode] folder that is
    there or can be made), a host that [detectOS] calls [java] or [wsl], or
    whose [os.name] it does not know, makes it end in an
    [UnboundLocalError]: no path of [toolsPaths.json] is computed and no
    diagnostic is printed by [printAndQuit].  The script [updatePaths.py]
    does not catch it. *)
Theorem toolsPaths_location_undefined (host : Host) (w : world)
        (names : list string) (workspaceFile : string) :
  let root :=
    pathWithForwardSlashes host
      (os_path_dirname host (os_path_dirname host (sys_argv0 host))) in
  let vscodeFolder :=
    pathWithForwardSlashes host (os_path_join host root ".vscode") in
  os_listdir host root = Some names →
  filter (λ f, Str.endswith f ".code-workspace" = true) names
  = [workspaceFile] →
  pathExists host w (Some vscodeFolder) = true
  ∨ can_mkdir host vscodeFolder = true →
  os_name host = "java"
  ∨ (os_name host = "posix"
     ∧ Str.endswith (Str.lower (platform_release host)) "microsoft" = true)
  ∨ (os_name host ≠ "nt" ∧ os_name host ≠ "java" ∧ os_name host ≠ "posix") →
  ∃ name w',
    verifyFolderStructure host w = (Raise (UnboundLocalError name), w')
    ∧ updatePaths_main host w = (Raise (UnboundLocalError name), w').
Proof.
  intros root vscodeFolder Hls Hone Hvs Hos.
  assert (Hcw : getCodeWorkspaces host root w
                = (Return [pathWithForwardSlashes host
                             (os_path_join host root workspaceFile)], w)).
  { unfold getCodeWorkspaces, rootFilesEnding, bind, listdir.
    rewrite Hls. simpl. unfold ret. by rewrite Hone. }
  assert (Hfolder : ∃ w1,
            (if negb (pathExists host w (Some vscodeFolder)) then
               try_except
                 (os_mkdir host vscodeFolder ;;;
                  print "'.vscode' folder created.")
                 (λ err,
                    printAndQuit true
                      ("Exception error creating '.vscode' subfolder:"
                       ++ Str.NL ++ str_exn err))
             else print "Existing '.vscode' folder used.") w
            = (Return tt, w1)).
  { destruct (pathExists host w (Some vscodeFolder)) eqn:Hthere; simpl.
    - by eexists.
    - destruct Hvs as [?|Hmk]; [done|].
      assert (os_path_exists host w vscodeFolder = false) as Hno.
      { simpl in Hthere. by destruct (os_path_exists host w vscodeFolder). }
      unfold try_except, bind, os_mkdir. rewrite Hmk, Hno. simpl. by eexists. }
  destruct Hfolder as [w1 Hfolder].
  assert (Hdetect :
            detectOS host w1 = (Raise (UnboundLocalError "osIs"), w1)
            ∨ ∃ osIs, detectOS host w1 = (Return osIs, w1)
                      ∧ osIs ≠ "windows" ∧ osIs ≠ "unix").
  { unfold detectOS.
    destruct Hos as [Hj|[[Hp Hms]|(Hnt & Hj & Hp)]].
    - rewrite Hj. right. by exists "java".
    - rewrite Hp, Hms. right. by exists "wsl".
    - rewrite !decide_False by done. by left. }
  assert (Hv : ∃ name, verifyFolderStructure host w
                       = (Raise (UnboundLocalError name), w1)).
  { unfold verifyFolderStructure. fold root.
    rewrite (bind_step _ _ _ _ _ Hcw).
    erewrite bind_step by reflexivity.
    erewrite bind_step by reflexivity. fold vscodeFolder.
    rewrite (bind_step _ _ _ _ _ Hfolder).
    destruct Hdetect as [Hd|(osIs & Hd & Hw & Hu)].
    - rewrite (bind_raises _ _ _ _ _ Hd). by eexists.
    - rewrite (bind_step _ _ _ _ _ Hd).
      rewrite !decide_False by done.
      erewrite bind_raises by reflexivity. by eexists. }
  destruct Hv as [name Hv].
  exists name, w1. split; [exact Hv|].
  unfold updatePaths_main. by rewrite (bind_raises _ _ _ _ _ Hv).
Qed.

Lemma toolsPaths_location_undefined_witness :
  (∃ name w', verifyFolderStructure Demo.jython (Demo.at_start ∅ [])
              = (Raise (UnboundLocalError name), w'))
  ∧ (∃ name w', verifyFolderStructure Demo.wsl (Demo.at_start ∅ [])
                = (Raise (UnboundLocalError name), w'))
  ∧ (∃ name w', verifyFolderStructure Demo.unknown_os (Demo.at_start ∅ [])
                = (Raise (UnboundLocalError name), w')).
Proof.
  repeat split.
  - destruct (toolsPaths_location_undefined Demo.jython (Demo.at_start ∅ [])
                ["Makefile"; "fw.code-workspace"; "fw.ioc"; "ideScripts"; "SVD"]
                "fw.code-workspace")
      as (name & w' & H & _);
      [reflexivity | reflexivity | by right | by left | by exists name, w'].
  - destruct (toolsPaths_location_undefined Demo.wsl (Demo.at_start ∅ [])
                ["Makefile"; "fw.code-workspace"; "fw.ioc"; "ideScripts"; "SVD"]
                "fw.code-workspace")
      as (name & w' & H & _);
      [reflexivity | reflexivity | by right | right; by left
      | by exists name, w'].
  - destruct (toolsPaths_location_undefined Demo.unknown_os
                (Demo.at_start ∅ [])
                ["Makefile"; "fw.code-workspace"; "fw.ioc"; "ideScripts"; "SVD"]
                "fw.code-workspace")
      as (name & w' & H & _);
      [reflexivity | reflexivity | by right | right; right; by repeat split
      | by exists name, w'].
Defined.

(** On the host [linux] the same run computes the cache location. *)
Example verifyFolderStructure_linux :
  ∃ g w', verifyFolderStructure Demo.linux (Demo.at_start ∅ []) = (Return g, w')
          ∧ g = Demo.ws.
Proof. eexists _, _. split; vm_compute; reflexivity. Qed.

(** ** Loading the tool-path cache *)

(** C3, as the code has it.  When [toolsPaths.json] is there and
    [json.load] rejects it, [checkToolsPathFile] returns [False] and raises
    nothing.  If [os.remove] succeeds the file is gone afterwards and the
    last line printed says so; if [os.remove] fails the file is left as it
    was and the last line printed reports that failure. *)
Theorem checkToolsPathFile_corrupt (host : Host) (g : Workspace) (w : world)
        (Hcorrupt : files w !! toolsPaths g = Some Corrupt) :
  ∃ w',
    checkToolsPathFile host g w = (Return false, w')
    ∧ stdin w' = stdin w
    ∧ if can_remove host (toolsPaths g)
      then files w' = delete (toolsPaths g) (files w)
           ∧ files w' !! toolsPaths g = None
           ∧ last (stdout w') = Some deletedMsg
      else files w' = files w
           ∧ last (stdout w') = Some (notDeletedMsg (OSError (toolsPaths g))).
Proof.
  unfold checkToolsPathFile.
  assert (Hthere : pathExists host w (Some (toolsPaths g)) = true).
  { simpl. unfold os_path_exists.
    rewrite bool_decide_true; [done|]. rewrite Hcorrupt. by eexists. }
  erewrite bind_step by (unfold gets; by rewrite Hthere). simpl.
  unfold try_except at 1, bind at 1, json_load_file. rewrite Hcorrupt.
  unfold bind at 1, print at 1.
  unfold bind at 1, try_except, bind at 1, os_remove. simpl.
  rewrite Hcorrupt.
  destruct (can_remove host (toolsPaths g)); simpl.
  - eexists. split; [reflexivity|]. simpl. split; [done|].
    split; [done|]. split; [apply lookup_delete_eq|].
    by rewrite last_snoc.
  - eexists. split; [reflexivity|]. simpl. split; [done|].
    split; [done|]. by rewrite last_snoc.
Qed.

Lemma checkToolsPathFile_corrupt_witness :
  let w := Demo.at_start {[ toolsPaths Demo.ws := Corrupt ]} [] in
  files w !! toolsPaths Demo.ws = Some Corrupt
  ∧ ∃ w', checkToolsPathFile Demo.linux Demo.ws w = (Return false, w')
          ∧ files w' !! toolsPaths Demo.ws = None
          ∧ last (stdout w') = Some deletedMsg.
Proof.
  intros w.
  assert (H : files w !! toolsPaths Demo.ws = Some Corrupt)
    by (vm_compute; reflexivity).
  split; [exact H|].
  destruct (checkToolsPathFile_corrupt Demo.linux Demo.ws w H)
    as (w' & Hrun & _ & Hrest).
  simpl in Hrest. destruct Hrest as (_ & Hgone & Hlog).
  by exists w'.
Defined.

(** C3 as stated fails: on a disk that refuses [os.remove], an unreadable
    [toolsPaths.json] is still there after the call. *)
Lemma checkToolsPathFile_corrupt_kept :
  let w := Demo.at_start {[ toolsPaths Demo.ws := Corrupt ]} [] in
  files w !! toolsPaths Demo.ws = Some Corrupt
  ∧ ∃ w', checkToolsPathFile Demo.linux_locked Demo.ws w = (Return false, w')
          ∧ files w' !! toolsPaths Demo.ws = Some Corrupt
          ∧ pathExists Demo.linux_locked w' (Some (toolsPaths Demo.ws)) = true.
Proof.
  intros w. split; [vm_compute; reflexivity|].
  eexists. split; [vm_compute; reflexivity|].
  split; vm_compute; reflexivity.
Qed.

(** ** Prompt loops, one round at a time *)

Lemma while_input_eof {A} msg (body : string → M (option A)) w :
  stdin w = [] →
  while_input msg body w = (Raise EOFError, set_stdout (stdout w ++ [msg]) w).
Proof.
  intros E. unfold while_input. rewrite E. simpl.
  unfold bind, input. by rewrite E.
Qed.

Lemma while_input_step {A} msg (body : string → M (option A)) w line rest :
  (∀ l, preserves stdin (body l)) →
  stdin w = line :: rest →
  while_input msg body w =
  match body line (set_stdin rest (set_stdout (stdout w ++ [msg]) w)) with
  | (Return (Some a), w') => (Return a, w')
  | (Return None, w') => while_input msg body w'
  | (Raise e, w') => (Raise e, w')
  | (Exit c, w') => (Exit c, w')
  end.
Proof.
  intros Hbody E. unfold while_input at 1. rewrite E. simpl.
  unfold bind at 1, input. rewrite E.
  unfold bind at 1.
  pose proof (Hbody line (set_stdin rest (set_stdout (stdout w ++ [msg]) w)))
    as Hkeep.
  destruct (body line _) as [[[a|]|e|c] w1]; try done.
  unfold while_input. simpl in Hkeep. by rewrite Hkeep.
Qed.

Lemma forallb_ext {A} (f f' : A → bool) (l : list A) :
  (∀ x, f x = f' x) → forallb f l = forallb f' l.
Proof. intros E. induction l as [|x l IH]; simpl; [done|]. by rewrite E, IH. Qed.

(** ** The configuration files of the debugger *)

Section OpenOcdConfig.
Context (host : Host).

Lemma fragmentIsFile_files w w' scripts arg :
  files w = files w' →
  fragmentIsFile host w scripts arg = fragmentIsFile host w' scripts arg.
Proof. intros E. unfold fragmentIsFile. by apply pathExists_files. Qed.

Lemma fragmentAccepted_files w w' scripts arg :
  files w = files w' →
  fragmentAccepted host w scripts arg = fragmentAccepted host w' scripts arg.
Proof.
  intros E. unfold fragmentAccepted.
  by rewrite (fragmentIsFile_files w w').
Qed.


Lemma pathsOfFragments_files w w' scripts args :
  files w = files w' →
  pathsOfFragments host w scripts args = pathsOfFragments host w' scripts args.
Proof.
  intros E. unfold pathsOfFragments. f_equal.
  induction args as [|arg args IH]; [done|].
  rewrite !filter_cons, IH, (fragmentIsFile_files w w') by done. done.
Qed.

Lemma pathsOfFragments_cons w scripts arg args :
  pathsOfFragments host w scripts (arg :: args)
  = if fragmentIsFile host w scripts arg
    then (scripts ++ "/" ++ arg) :: pathsOfFragments host w scripts args
    else pathsOfFragments host w scripts args.
Proof.
  unfold pathsOfFragments. rewrite filter_cons.
  destruct (fragmentIsFile host w scripts arg).
  - by rewrite decide_True.
  - by rewrite decide_False.
Qed.

Lemma checkConfigArgs_cons scripts arg rest acc w :
  checkConfigArgs host scripts (arg :: rest) acc w
  = if fragmentIsFile host w scripts arg then
      checkConfigArgs host scripts rest (acc ++ [scripts ++ "/" ++ arg])
        (set_stdout
           (stdout w ++ [Str.TAB ++ "Configuration file '" ++ arg
                         ++ "' detected successfully"]) w)
    else if Str.startswith arg "-" then
      checkConfigArgs host scripts rest acc w
    else
      (Return None,
       set_stdout
         (stdout w ++ [Str.TAB ++ "Configuration invalid: '" ++ arg
                       ++ "' not found in " ++ scripts]) w).
Proof.
  unfold fragmentIsFile.
  change (checkConfigArgs host scripts (arg :: rest) acc w)
    with (bind (gets (λ w, pathExists host w (Some (scripts ++ "/" ++ arg))))
            (λ ok : bool,
               if ok then
                 print (Str.TAB ++ "Configuration file '" ++ arg
                        ++ "' detected successfully") ;;;
                 checkConfigArgs host scripts rest
                   (acc ++ [scripts ++ "/" ++ arg])
               else if Str.startswith arg "-" then
                 checkConfigArgs host scripts rest acc
               else
                 print (Str.TAB ++ "Configuration invalid: '" ++ arg
                        ++ "' not found in " ++ scripts) ;;;
                 ret None) w).
  unfold bind at 1, gets.
  destruct (pathExists host w (Some (scripts ++ "/" ++ arg))); [done|].
  by destruct (Str.startswith arg "-").
Qed.

(** The [for] loop over the fragments: it runs to its end exactly when
    every fragment is let through, and then it has collected the paths of
    the fragments that name files, in their order. *)
Lemma checkConfigArgs_spec scripts args acc w :
  ∃ w1,
    checkConfigArgs host scripts args acc w
    = (Return (if forallb (fragmentAccepted host w scripts) args
               then Some (acc ++ pathsOfFragments host w scripts args)%list
               else None), w1)
    ∧ stdin w1 = stdin w ∧ files w1 = files w.
Proof.
  revert acc w. induction args as [|arg args IH]; intros acc w.
  - exists w. simpl. unfold pathsOfFragments. simpl. by rewrite app_nil_r.
  - rewrite checkConfigArgs_cons, pathsOfFragments_cons.
    cbn [forallb]. unfold fragmentAccepted at 1.
    destruct (fragmentIsFile host w scripts arg) eqn:Hfile;
      cbn [orb andb].
    + set (w0 := set_stdout _ w).
      destruct (IH (app acc [scripts ++ "/" ++ arg]) w0)
        as (w1 & Hrun & Hin & Hf).
      exists w1. rewrite Hrun. split; [|done].
      rewrite (forallb_ext _ (fragmentAccepted host w scripts))
        by (intros; by apply fragmentAccepted_files).
      rewrite (pathsOfFragments_files w0 w) by done.
      by rewrite <- app_assoc.
    + destruct (Str.startswith arg "-") eqn:Hflag; cbn [andb].
      * apply IH.
      * by eexists.
Qed.



End OpenOcdConfig.

(** ** What the prompts and the probes leave alone *)

Create HintDb keeps discriminated.

#[export] Hint Resolve preserves_print_files preserves_input_files
  preserves_print_clock preserves_input_clock preserves_print_stdin : keeps.

Ltac preserves_step :=
  first
    [ solve [auto 1 with keeps nocore]
    | apply preserves_ret | apply preserves_raise | apply preserves_sys_exit
    | apply preserves_gets | apply preserves_dict_item | apply preserves_as_str
    | apply preserves_json_load_file
    | apply preserves_while_input
    | apply preserves_bind | apply preserves_try_except
    | apply preserves_try_bare
    | match goal with
      | |- ∀ _, _ => intro
      | |- preserves _ (let _ := _ in _) => cbv zeta
      | |- preserves _ (if decide ?P then _ else _) => destruct (decide P)
      | |- preserves _ (if ?b then _ else _) => destruct b
      | |- preserves _ (match ?x with _ => _ end) => destruct x
      end ].

Ltac preserves_auto := repeat preserves_step.

Section Untouched.
Context (host : Host) (g : Workspace).

Lemma printAndQuit_files {A} handling msg :
  preserves files (@printAndQuit A handling msg).
Proof. unfold printAndQuit. preserves_auto. Qed.
#[local] Hint Resolve printAndQuit_files : keeps.

Lemma detectOS_pure w : (detectOS host w).2 = w.
Proof. unfold detectOS. repeat case_decide; try done. by case_match. Qed.

Lemma detectOS_files : preserves files (detectOS host).
Proof. intros w. by rewrite detectOS_pure. Qed.
#[local] Hint Resolve detectOS_files : keeps.

Lemma listdir_files p : preserves files (listdir host p).
Proof. unfold listdir. preserves_auto. Qed.
#[local] Hint Resolve listdir_files : keeps.

Lemma getYesNoAnswer_files msg : preserves files (getYesNoAnswer msg).
Proof. unfold getYesNoAnswer. preserves_auto. Qed.
#[local] Hint Resolve getYesNoAnswer_files : keeps.

Lemma getUserPath_files name : preserves files (getUserPath host name).
Proof. unfold getUserPath. preserves_auto. Qed.
#[local] Hint Resolve getUserPath_files : keeps.

Lemma getGccIncludePath_files p : preserves files (getGccIncludePath host p).
Proof. unfold getGccIncludePath. preserves_auto. Qed.
#[local] Hint Resolve getGccIncludePath_files : keeps.

Lemma checkConfigArgs_files scripts args acc :
  preserves files (checkConfigArgs host scripts args acc).
Proof.
  intros w. destruct (checkConfigArgs_spec host scripts args acc w)
    as (w1 & -> & _ & ?). done.
Qed.
#[local] Hint Resolve checkConfigArgs_files : keeps.

Lemma getOpenOcdConfig_files p : preserves files (getOpenOcdConfig host p).
Proof. unfold getOpenOcdConfig. preserves_auto. Qed.
#[local] Hint Resolve getOpenOcdConfig_files : keeps.

Lemma getStm32SvdFile_files p : preserves files (getStm32SvdFile host p).
Proof. unfold getStm32SvdFile. preserves_auto. Qed.
#[local] Hint Resolve getStm32SvdFile_files : keeps.

Lemma getPython3Path_files : preserves files (getPython3Path host).
Proof. unfold getPython3Path. preserves_auto. Qed.
#[local] Hint Resolve getPython3Path_files : keeps.

Lemma updatePath_files path name default :
  preserves files (updatePath host path name default).
Proof. unfold updatePath. preserves_auto. Qed.
#[local] Hint Resolve updatePath_files : keeps.

Lemma probe_files v : preserves files (probe host v).
Proof. unfold probe. preserves_auto. Qed.
#[local] Hint Resolve probe_files : keeps.

Lemma checkTool_files request bd tool :
  preserves files (checkTool host request bd tool).
Proof.
  destruct tool as [[[path name] default] updated]. unfold checkTool.
  preserves_auto.
Qed.
#[local] Hint Resolve checkTool_files : keeps.

Lemma updateDerived_files bd path :
  preserves files (updateDerived host bd path).
Proof. unfold updateDerived. preserves_auto. Qed.
#[local] Hint Resolve updateDerived_files : keeps.

Lemma verifyTool_files request bd tool :
  preserves files (verifyTool host request bd tool).
Proof. unfold verifyTool. preserves_auto. Qed.

Lemma verifyTools_files request tools bd :
  preserves files (verifyTools host request tools bd).
Proof.
  revert bd. induction tools as [|tool tools IH]; intros bd; simpl.
  - apply preserves_ret.
  - apply preserves_bind; [apply verifyTool_files|done].
Qed.

Lemma verifyExistingPaths_files bd request :
  preserves files (verifyExistingPaths host g bd request).
Proof. apply verifyTools_files. Qed.

End Untouched.

(** ** One round of [verifyExistingPaths] *)

Section Rounds.
Context (host : Host).

Lemma passesProbe_files w w' d k :
  files w = files w' → passesProbe host w d k → passesProbe host w' d k.
Proof.
  intros E (p & Hd & Hp). exists p. split; [done|].
  by rewrite <- (pathExists_files host w w').
Qed.

Lemma getUserPath_returns name w p w' :
  getUserPath host name w = (Return p, w') →
  pathExists host w' (Some p) = true.
Proof.
  unfold getUserPath.
  apply (while_input_returns _ _ (λ p w', pathExists host w' (Some p) = true)).
  clear. intros line w a w' Hk. cbv zeta in Hk. rewrite bind_gets in Hk.
  destruct (pathExists host w _) eqn:E.
  - unfold ret in Hk. by simplify_eq.
  - apply bind_returns in Hk as (? & ? & _ & Hr). discriminate Hr.
Qed.

Lemma updatePath_returns (Hwhich : which_sound host)
      path name default w p w' :
  updatePath host path name default w = (Return p, w') →
  pathExists host w' (Some p) = true.
Proof.
  unfold updatePath. rewrite bind_gets. intros Hk.
  destruct (pathExists host w (Some default)) eqn:Hdef;
    [|by eapply getUserPath_returns].
  apply bind_returns in Hk as (yes & w1 & Hyes & Hk).
  destruct yes; [|by eapply getUserPath_returns].
  unfold ret in Hk. injection Hk as <- <-.
  pose proof (preserves_run files _ _ _ _ (getYesNoAnswer_files _) Hyes)
    as Hf.
  destruct (shutil_which host default) as [found|] eqn:Hfound.
  - simpl. unfold os_path_exists. rewrite (Hwhich _ _ Hfound).
    by rewrite orb_true_r.
  - by rewrite (pathExists_files host w1 w).
Qed.

(** A stored path that passes the probe is left as it is, and nothing is
    asked, unless the caller requested a confirmation. *)
Lemma checkTool_valid buildData path name default updated w :
  passesProbe host w buildData path →
  checkTool host false buildData (path, name, default, updated) w
  = (Return (buildData, updated), w).
Proof.
  intros (p & Hd & Hp). unfold checkTool, try_bare.
  unfold bind at 1, dict_item. rewrite Hd. unfold ret at 1.
  unfold bind at 1, probe, gets. by rewrite Hp.
Qed.

Lemma checkTool_returns request buildData
      path name default updated w buildData' u w' :
  checkTool host request buildData (path, name, default, updated) w
  = (Return (buildData', u), w') →
  (buildData' = buildData ∧ u = updated ∧ passesProbe host w buildData path)
  ∨ (∃ p w0, buildData' = dict_set buildData path (VStr p) ∧ u = true
             ∧ updatePath host path name default w0 = (Return p, w')).
Proof.
  unfold checkTool.
  intros [H|(w1 & _ & _ & H)]%try_bare_returns.
  - apply bind_returns in H as (v & w1 & Hv & H).
    unfold dict_item in Hv.
    destruct (dict_get buildData path) as [v'|] eqn:Hd; [|discriminate Hv].
    unfold ret in Hv. injection Hv as <- <-.
    apply bind_returns in H as (ok & w1 & Hok & H).
    assert (w1 = w ∧ (ok = true → passesProbe host w buildData path))
      as [-> Hpass].
    { destruct v' as [|p|l]; unfold probe, gets, raise in Hok.
      - by injection Hok as <- <-.
      - injection Hok as Hok <-. split; [done|]. intros ->. by exists p.
      - discriminate Hok. }
    destruct ok; simpl in H.
    + destruct request.
      * apply bind_returns in H as (yes & w1 & _ & H). destruct yes.
        -- apply bind_returns in H as (p & w2 & Hp & H).
           unfold ret in H. injection H as <- <- <-.
           right. exists p. eauto.
        -- unfold ret in H. injection H as <- <- <-. left. eauto.
      * unfold ret in H. injection H as <- <- <-. left. eauto.
    + apply bind_returns in H as (p & w2 & Hp & H).
      unfold ret in H. injection H as <- <- <-.
      right. exists p. eauto.
  - apply bind_returns in H as (p & w2 & Hp & H).
    unfold ret in H. injection H as <- <- <-.
    right. exists p. eauto.
Qed.

Lemma updateDerived_returns buildData path w buildData' w' :
  updateDerived host buildData path w = (Return buildData', w') →
  match derivedField path with
  | Some k => ∃ v, buildData' = dict_set buildData k v
  | None => buildData' = buildData
  end.
Proof.
  unfold updateDerived, derivedField.
  repeat case_decide.
  - intros (? & ? & _ & (? & ? & _ & (? & ? & _ & Hr)%bind_returns)
                          %bind_returns)%bind_returns.
    unfold ret in Hr. injection Hr as <- <-. by eexists.
  - intros (? & ? & _ & (? & ? & _ & (? & ? & _ & Hr)%bind_returns)
                          %bind_returns)%bind_returns.
    unfold ret in Hr. injection Hr as <- <-. by eexists.
  - intros (? & ? & _ & (? & ? & _ & (? & ? & _ & Hr)%bind_returns)
                          %bind_returns)%bind_returns.
    unfold ret in Hr. injection Hr as <- <-. by eexists.
  - unfold ret. by intros [= <- <-].
Qed.

(** How a round that returns is made up. *)
Lemma verifyTool_returns request buildData tool w buildData' w' :
  verifyTool host request buildData tool w = (Return buildData', w') →
  ∃ bd1 u w1 bd2 python,
    checkTool host request buildData tool w = (Return (bd1, u), w1)
    ∧ (if u then match derivedField (toolKey tool) with
                 | Some k => ∃ v, bd2 = dict_set bd1 k v
                 | None => bd2 = bd1
                 end
       else bd2 = bd1)
    ∧ buildData' = dict_set bd2 bStr.pythonPath (VStr python)
    ∧ files w' = files w.
Proof.
  intros H.
  pose proof (preserves_run files _ _ _ _
                (verifyTool_files host request buildData tool) H) as Hf.
  unfold verifyTool in H.
  apply bind_returns in H as ([bd1 u] & w1 & Hc & H).
  apply bind_returns in H as (bd2 & w2 & Hd & H).
  apply bind_returns in H as (python & w3 & _ & H).
  unfold ret in H. injection H as <- <-.
  exists bd1, u, w1, bd2, python. split; [done|]. split; [|done].
  destruct u.
  - by eapply updateDerived_returns.
  - unfold ret in Hd. by injection Hd as <- <-.
Qed.

(** A round assigns nothing outside the keys of its tool. *)
Lemma verifyTool_frame request buildData tool w buildData' w' k :
  verifyTool host request buildData tool w = (Return buildData', w') →
  k ∉ touched (toolKey tool) →
  dict_get buildData' k = dict_get buildData k.
Proof.
  intros (bd1 & u & w1 & bd2 & python & Hc & Hd & -> & _)%verifyTool_returns
         Hk.
  destruct tool as [[[path name] default] updated].
  unfold touched, toolKey in *. simpl in *.
  apply not_elem_of_cons in Hk as [Hpath Hk].
  apply not_elem_of_app in Hk as [Hder Hpy].
  apply not_elem_of_cons in Hpy as [Hpy _].
  rewrite dict_get_set_ne by done.
  assert (dict_get bd2 k = dict_get bd1 k) as ->.
  { destruct u; [|by subst].
    destruct (derivedField path) as [k'|]; [|by subst].
    destruct Hd as [v ->]. apply dict_get_set_ne.
    intros ->. apply Hder. by left. }
  apply checkTool_returns in Hc as [(-> & _ & _)|(p & ? & -> & _ & _)];
    [done|].
  by apply dict_get_set_ne.
Qed.

(** After a round the path of its tool passes the probe. *)
Lemma verifyTool_valid (Hwhich : which_sound host) request buildData tool
      w buildData' w' :
  verifyTool host request buildData tool w = (Return buildData', w') →
  derivedField (toolKey tool) ≠ Some (toolKey tool) →
  toolKey tool ≠ bStr.pythonPath →
  passesProbe host w' buildData' (toolKey tool).
Proof.
  intros (bd1 & u & w1 & bd2 & python & Hc & Hd & -> & Hf)%verifyTool_returns
         Hder Hpy.
  destruct tool as [[[path name] default] updated].
  unfold toolKey in *. simpl in *.
  pose proof (preserves_run files _ _ _ _
                (checkTool_files host request buildData
                   (path, name, default, updated)) Hc) as Hf1.
  assert (passesProbe host w1 bd1 path) as Hpass.
  { apply checkTool_returns in Hc as [(-> & _ & Hp)|(p & ? & -> & _ & Hp)].
    - by apply (passesProbe_files w).
    - exists p. rewrite dict_get_set_eq. eauto using updatePath_returns. }
  apply (passesProbe_files w1); [congruence|].
  destruct Hpass as (p & Hget & Hp). exists p. split; [|done].
  rewrite dict_get_set_ne by done.
  destruct u; [|by subst].
  destruct (derivedField path) as [k'|]; [|by subst].
  destruct Hd as [v ->]. rewrite dict_get_set_ne; [done|].
  intros ->. by apply Hder.
Qed.

End Rounds.

(** ** The whole of [verifyExistingPaths] *)

Ltac not_in_concrete_list :=
  apply (bool_decide_unpack _); vm_compute; exact I.

Section Reconciled.
Context (host : Host).

(** Whatever the start, a tool whose round has been run names a path that
    passes the probe when the loop returns, as long as no other round
    assigns its key. *)
Lemma verifyTools_valid (Hwhich : which_sound host) request P tools :
  (∀ t, t ∈ tools → toolKey t = P ∨ P ∉ touched (toolKey t)) →
  derivedField P ≠ Some P → P ≠ bStr.pythonPath →
  ∀ bd w bd' w',
    verifyTools host request tools bd w = (Return bd', w') →
    (∃ t, t ∈ tools ∧ toolKey t = P) ∨ passesProbe host w bd P →
    passesProbe host w' bd' P.
Proof.
  intros Hsep Hder Hpy.
  induction tools as [|t tools IH]; intros bd w bd' w' Hrun Hstart.
  - unfold verifyTools, ret in Hrun. injection Hrun as <- <-.
    destruct Hstart as [(t & Ht & _)|?]; [|done].
    by apply elem_of_nil in Ht.
  - simpl in Hrun. apply bind_returns in Hrun as (bd1 & w1 & Hround & Hrun).
    apply (IH (λ t' Ht', Hsep t' (list_elem_of_further _ _ _ Ht'))
              bd1 w1 bd' w' Hrun).
    destruct (Hsep t) as [HtP|Hout]; [by left| |].
    + right. rewrite <- HtP. apply (verifyTool_valid host Hwhich _ _ _ _ _ _ Hround);
        by rewrite HtP.
    + destruct Hstart as [(t' & [->|Ht']%elem_of_cons & Hkey)|Hpass].
      * exfalso. apply Hout. rewrite Hkey. unfold touched. by left.
      * left. eauto.
      * right. destruct Hpass as (p & Hget & Hp). exists p. split.
        -- by rewrite (verifyTool_frame host _ _ _ _ _ _ P Hround Hout).
        -- rewrite <- Hp. apply pathExists_files.
           apply (preserves_run files _ _ _ _
                    (verifyTool_files host request bd t) Hround).
Qed.

(** Without a request for confirmation, a tool whose path passes the probe
    keeps its path, and so does any key [k] that only its own round could
    assign. *)
Lemma verifyTools_keeps P k tools :
  (∀ t, t ∈ tools →
        t.2 = false
        ∧ (toolKey t = P
           ∨ ((P ∉ touched (toolKey t)) ∧ (k ∉ touched (toolKey t))))) →
  P ≠ bStr.pythonPath → k ≠ bStr.pythonPath →
  ∀ bd w bd' w',
    passesProbe host w bd P →
    verifyTools host false tools bd w = (Return bd', w') →
    dict_get bd' P = dict_get bd P ∧ dict_get bd' k = dict_get bd k.
Proof.
  intros Hsep HPpy Hkpy.
  induction tools as [|t tools IH]; intros bd w bd' w' Hpass Hrun.
  - unfold verifyTools, ret in Hrun. by injection Hrun as <- <-.
  - simpl in Hrun. apply bind_returns in Hrun as (bd1 & w1 & Hround & Hrun).
    assert (dict_get bd1 P = dict_get bd P ∧ dict_get bd1 k = dict_get bd k)
      as [HP Hk].
    { destruct (Hsep t) as [Hflag [HtP|[HoutP Houtk]]]; [by left| |].
      - destruct t as [[[path name] default] updated].
        unfold toolKey in HtP. simpl in HtP, Hflag. subst path updated.
        apply verifyTool_returns in Hround
          as (b1 & u & w0 & b2 & python & Hc & Hd & -> & _).
        rewrite (checkTool_valid host _ _ _ _ _ _ Hpass) in Hc.
        injection Hc as <- <- <-. subst b2.
        by rewrite !dict_get_set_ne.
      - split; eapply verifyTool_frame; eauto. }
    assert (passesProbe host w1 bd1 P) as Hpass1.
    { destruct Hpass as (p & Hget & Hp). exists p. split; [congruence|].
      rewrite <- Hp. apply pathExists_files.
      apply (preserves_run files _ _ _ _
               (verifyTool_files host false bd t) Hround). }
    destruct (IH (λ t' Ht', Hsep t' (list_elem_of_further _ _ _ Ht'))
                 bd1 w1 bd' w' Hpass1 Hrun) as [HP' Hk'].
    split; congruence.
Qed.

End Reconciled.

Lemma demo_which_sound name release removable :
  which_sound (Demo.machine name release removable).
Proof.
  intros c p. simpl. unfold Demo.which, Demo.executables, Demo.lookup_command.
  repeat case_decide; intros [= <-]; reflexivity.
Qed.

(** C2. On a host where what [shutil.which] finds exists, take a tool of
    the list whose stored path fails the probe when [verifyExistingPaths]
    starts (the key is missing, or holds no path, or a path that does not
    pass).  Then either [verifyExistingPaths] returns a descriptor in which
    that tool's path passes the probe, or it does not return at all: the run
    ends in an exception or in [sys.exit]. *)
Theorem verifyExistingPaths_repairs (host : Host) (g : Workspace)
        (Hwhich : which_sound host) (buildData : pydict) (request : bool)
        (w : world) (tool : string * string * string * bool) :
  tool ∈ toolsList g →
  ¬ passesProbe host w buildData (toolKey tool) →
  match verifyExistingPaths host g buildData request w with
  | (Return buildData', w') =>
      passesProbe host w' buildData' (toolKey tool) ∧ files w' = files w
  | (Raise _, _) | (Exit _, _) => True
  end.
Proof.
  intros Hin _.
  destruct (verifyExistingPaths host g buildData request w)
    as [[bd'|e|c] w'] eqn:Hrun; [|done..].
  split; [|apply (preserves_run files _ _ _ _
                    (verifyExistingPaths_files host g buildData request) Hrun)].
  unfold verifyExistingPaths in Hrun.
  apply (verifyTools_valid host Hwhich request (toolKey tool) (toolsList g))
    with (bd := buildData) (w := w); [| | |done|by eauto].
  - unfold toolsList in Hin |- *. intros t Ht.
    repeat (apply elem_of_cons in Hin as [->|Hin]);
      [..|by apply elem_of_nil in Hin];
      (repeat (apply elem_of_cons in Ht as [->|Ht]);
       [..|by apply elem_of_nil in Ht]);
      first [left; reflexivity | right; not_in_concrete_list].
  - unfold toolsList in Hin.
    repeat (apply elem_of_cons in Hin as [->|Hin]);
      [..|by apply elem_of_nil in Hin]; by vm_compute.
  - unfold toolsList in Hin.
    repeat (apply elem_of_cons in Hin as [->|Hin]);
      [..|by apply elem_of_nil in Hin]; by vm_compute.
Qed.

Lemma verifyExistingPaths_repairs_witness :
  let tool := (bStr.gccExePath, "arm-none-eabi-gcc", "arm-none-eabi-gcc", false) in
  let w := Demo.at_start ∅ ["y"] in
  which_sound Demo.linux
  ∧ tool ∈ toolsList Demo.ws
  ∧ ¬ passesProbe Demo.linux w Demo.stale_descriptor (toolKey tool)
  ∧ ∃ buildData' w',
      verifyExistingPaths Demo.linux Demo.ws Demo.stale_descriptor false w
      = (Return buildData', w')
      ∧ dict_get buildData' bStr.gccExePath
        = Some (VStr "/opt/gcc/bin/arm-none-eabi-gcc")
      ∧ passesProbe Demo.linux w' buildData' (toolKey tool).
Proof.
  intros tool w.
  assert (Hsound : which_sound Demo.linux) by apply demo_which_sound.
  assert (Hin : tool ∈ toolsList Demo.ws) by (by left).
  assert (Hfails : ¬ passesProbe Demo.linux w Demo.stale_descriptor
                     (toolKey tool)).
  { intros (p & Hget & Hp). vm_compute in Hget. injection Hget as <-.
    vm_compute in Hp. discriminate Hp. }
  split; [exact Hsound|]. split; [exact Hin|]. split; [exact Hfails|].
  pose proof (verifyExistingPaths_repairs Demo.linux Demo.ws Hsound
                Demo.stale_descriptor false w tool Hin Hfails) as Hthm.
  destruct (verifyExistingPaths Demo.linux Demo.ws Demo.stale_descriptor false w)
    as [[bd'|e|c] w'] eqn:Hrun.
  - exists bd', w'. split; [reflexivity|].
    split; [|exact (proj1 Hthm)].
    vm_compute in Hrun. by injection Hrun as <- <-.
  - vm_compute in Hrun. discriminate Hrun.
  - vm_compute in Hrun. discriminate Hrun.
Defined.

Ltac tools_cases H :=
  unfold toolsList in H;
  repeat (apply elem_of_cons in H as [->|H]); [..|by apply elem_of_nil in H].

Lemma toolsList_keeps_apart (g : Workspace) P k :
  P ∈ [bStr.gccExePath; bStr.buildToolsPath; bStr.openOcdPath;
       bStr.stm32SvdPath] →
  k = P ∨ derivedField P = Some k →
  (∀ t, t ∈ toolsList g →
        (t.2) = false
        ∧ (toolKey t = P
           ∨ ((P ∉ touched (toolKey t)) ∧ (k ∉ touched (toolKey t)))))
  ∧ P ≠ bStr.pythonPath ∧ k ≠ bStr.pythonPath.
Proof.
  intros HP Hk.
  repeat (apply elem_of_cons in HP as [->|HP]); [..|by apply elem_of_nil in HP];
    (destruct Hk as [->|Hk];
     [|vm_compute in Hk; first [injection Hk as <- | discriminate Hk]]);
    (split; [|split; by vm_compute]);
    intros t Ht; tools_cases Ht;
    (split; [reflexivity|]);
    first [left; reflexivity
          | right; split; not_in_concrete_list].
Qed.

Lemma verifyExistingPaths_keeps (host : Host) (g : Workspace)
      (buildData : pydict) (w : world) tool buildData' w' :
  tool ∈ toolsList g →
  passesProbe host w buildData (toolKey tool) →
  verifyExistingPaths host g buildData false w = (Return buildData', w') →
  dict_get buildData' (toolKey tool) = dict_get buildData (toolKey tool)
  ∧ ∀ k, derivedField (toolKey tool) = Some k →
         dict_get buildData' k = dict_get buildData k.
Proof.
  intros Hin Hpass Hrun. unfold verifyExistingPaths in Hrun.
  assert (HP : toolKey tool
               ∈ [bStr.gccExePath; bStr.buildToolsPath; bStr.openOcdPath;
                  bStr.stm32SvdPath]).
  { tools_cases Hin; unfold toolKey; simpl; set_solver. }
  split.
  - destruct (toolsList_keeps_apart g (toolKey tool) (toolKey tool) HP)
      as (Hsep & Hpy & _); [by left|].
    by destruct (verifyTools_keeps host _ _ _ Hsep Hpy Hpy _ _ _ _ Hpass Hrun).
  - intros k Hk.
    destruct (toolsList_keeps_apart g (toolKey tool) k HP)
      as (Hsep & Hpy & Hkpy); [by right|].
    by destruct (verifyTools_keeps host _ _ _ Hsep Hpy Hkpy _ _ _ _ Hpass Hrun).
Qed.

(** C8. Take a tool of the list whose stored path passes the probe, and run
    [verifyExistingPaths] without the request for confirmation.  The round
    of that tool asks nothing and changes nothing: it hands back the
    descriptor and the world as they were, with [updated] false, so that no
    derived field is recomputed.  And when the whole loop returns, the
    tool's path and its derived field (the compiler's include folder, the
    debugger's configuration files, the name of the SVD file) are what they
    were at the start. *)
Theorem verifyExistingPaths_keeps_valid (host : Host) (g : Workspace)
        (buildData : pydict) (w : world)
        (tool : string * string * string * bool) :
  tool ∈ toolsList g →
  passesProbe host w buildData (toolKey tool) →
  checkTool host false buildData tool w = (Return (buildData, false), w)
  ∧ ∀ buildData' w',
      verifyExistingPaths host g buildData false w = (Return buildData', w') →
      dict_get buildData' (toolKey tool) = dict_get buildData (toolKey tool)
      ∧ ∀ k, derivedField (toolKey tool) = Some k →
             dict_get buildData' k = dict_get buildData k.
Proof.
  intros Hin Hpass. split.
  - tools_cases Hin; by apply checkTool_valid.
  - intros bd' w' Hrun. by eapply verifyExistingPaths_keeps.
Qed.

Lemma verifyExistingPaths_keeps_valid_witness :
  let tool := (bStr.openOcdPath, "openocd", "openocd", false) in
  let w := Demo.at_start ∅ ["y"] in
  tool ∈ toolsList Demo.ws
  ∧ passesProbe Demo.linux w Demo.stale_descriptor (toolKey tool)
  ∧ ∃ buildData' w',
      verifyExistingPaths Demo.linux Demo.ws Demo.stale_descriptor false w
      = (Return buildData', w')
      ∧ dict_get buildData' bStr.openOcdPath = Some (VStr "/usr/bin/openocd")
      ∧ dict_get buildData' bStr.openOcdConfig
        = Some (VList ["/usr/share/openocd/scripts/interface/stlink.cfg"]).
Proof.
  intros tool w.
  assert (Hin : tool ∈ toolsList Demo.ws) by (right; right; by left).
  assert (Hpass : passesProbe Demo.linux w Demo.stale_descriptor (toolKey tool)).
  { exists "/usr/bin/openocd". split; vm_compute; reflexivity. }
  split; [exact Hin|]. split; [exact Hpass|].
  destruct (verifyExistingPaths_keeps_valid Demo.linux Demo.ws
              Demo.stale_descriptor w tool Hin Hpass) as [_ Hkeep].
  destruct (verifyExistingPaths Demo.linux Demo.ws Demo.stale_descriptor false w)
    as [[bd'|e|c] w'] eqn:Hrun.
  - exists bd', w'. split; [reflexivity|].
    destruct (Hkeep bd' w' eq_refl) as [Hpath Hder].
    split; [exact Hpath|]. exact (Hder bStr.openOcdConfig eq_refl).
  - vm_compute in Hrun. discriminate Hrun.
  - vm_compute in Hrun. discriminate Hrun.
Defined.

(** ** Copying fields between documents *)

Lemma copyFields_returns keys (src dst d : pydict) w :
  overlay keys src dst = Some d → copyFields keys src dst w = (Return d, w).
Proof.
  revert dst. induction keys as [|k keys IH]; intros dst; simpl.
  - by intros [= ->].
  - unfold bind, dict_item. destruct (dict_get src k) as [v|]; [|done].
    simpl. apply IH.
Qed.

Lemma copyFields_raises keys (src dst : pydict) w :
  overlay keys src dst = None →
  ∃ k, copyFields keys src dst w = (Raise (KeyError k), w).
Proof.
  revert dst. induction keys as [|k keys IH]; intros dst; simpl; [done|].
  unfold bind, dict_item. destruct (dict_get src k) as [v|].
  - simpl. apply IH.
  - by exists k.
Qed.

Lemma overlay_get keys (src dst d : pydict) k :
  overlay keys src dst = Some d →
  dict_get d k = if bool_decide (k ∈ keys) then dict_get src k
                 else dict_get dst k.
Proof.
  revert dst. induction keys as [|k0 keys IH]; intros dst; simpl.
  - by intros [= ->].
  - destruct (dict_get src k0) as [v|] eqn:Hv; [|done].
    intros Hd. rewrite (IH _ Hd).
    destruct (decide (k = k0)) as [->|Hne].
    + rewrite (bool_decide_true (k0 ∈ k0 :: keys)) by by left.
      case_bool_decide; [done|]. by rewrite dict_get_set_eq.
    + rewrite dict_get_set_ne by done.
      rewrite (bool_decide_ext (k ∈ k0 :: keys) (k ∈ keys)); [done|].
      rewrite elem_of_cons. split; [by intros [?|?]|by right].
Qed.

(** Laying [src] over a document that already agrees with it, except
    possibly under [key], changes nothing but the value under [key]. *)
Lemma overlay_absorbed_from keys (src dst cur : pydict) key v :
  dict_set cur key v = dst →
  (∀ k, k ∈ keys →
        is_Some (dict_get src k)
        ∧ (k ≠ key → dict_get src k = dict_get dst k)) →
  ∃ d, overlay keys src cur = Some d ∧ dict_set d key v = dst.
Proof.
  revert cur. induction keys as [|k keys IH]; intros cur Hinv Hagree; simpl.
  - by exists cur.
  - destruct (Hagree k) as [[x Hx] Hsame]; [by left|]. rewrite Hx.
    apply IH.
    + destruct (decide (k = key)) as [->|Hne].
      * by rewrite dict_set_set.
      * rewrite (dict_set_same cur k x); [done|].
        rewrite <- Hx, (Hsame Hne), <- Hinv. by rewrite dict_get_set_ne.
    + intros k' Hk'. apply Hagree. by right.
Qed.

Lemma overlay_absorbed keys (src dst : pydict) key v :
  dict_get dst key = Some v →
  (∀ k, k ∈ keys →
        is_Some (dict_get src k)
        ∧ (k ≠ key → dict_get src k = dict_get dst k)) →
  ∃ d, overlay keys src dst = Some d ∧ dict_set d key v = dst.
Proof.
  intros Hkey. apply overlay_absorbed_from. by apply dict_set_same.
Qed.

(** ** Reading and writing the two documents *)

Section Persistence.
Context (host : Host) (g : Workspace).

Lemma toolExists_pathExists w p :
  toolExists host p = true → pathExists host w (Some p) = true.
Proof.
  unfold toolExists, pathExists, os_path_exists.
  destruct (disk_exists host p); simpl.
  - by rewrite orb_true_r.
  - intros ->. by destruct (bool_decide _ || false).
Qed.

Lemma storedToolsPass_passesProbe w d tool :
  storedToolsPass host g d → tool ∈ toolsList g →
  passesProbe host w d (toolKey tool).
Proof.
  intros Hd Hin. destruct (Hd tool Hin) as (p & Hget & Hp).
  exists p. eauto using toolExists_pathExists.
Qed.

Lemma file_exists w p n :
  files w !! p = Some n → pathExists host w (Some p) = true.
Proof.
  intros E. simpl. unfold os_path_exists.
  rewrite bool_decide_true; [done|]. rewrite E. by eexists.
Qed.

Lemma checkBuildDataFile_doc w D :
  files w !! buildDataPath g = Some (Doc D) →
  ∃ w1, checkBuildDataFile host g w = (Return tt, w1)
        ∧ files w1 = files w ∧ stdin w1 = stdin w ∧ clock w1 = clock w.
Proof.
  intros E. unfold checkBuildDataFile. rewrite bind_gets.
  rewrite (file_exists _ _ _ E).
  unfold try_except, bind, json_load_file. rewrite E. simpl.
  by eexists.
Qed.

Lemma getBuildData_doc w D :
  files w !! buildDataPath g = Some (Doc D) →
  getBuildData g w = (Return D, w).
Proof. intros E. unfold getBuildData, json_load_file. by rewrite E. Qed.

Lemma getToolsPathsData_doc w C :
  files w !! toolsPaths g = Some (Doc C) →
  getToolsPathsData g w = (Return C, w).
Proof. intros E. unfold getToolsPathsData, json_load_file. by rewrite E. Qed.

(** [checkToolsPathFile] always returns; it says whether a document was
    read, and it changes nothing but, possibly, the unreadable file. *)
Lemma checkToolsPathFile_spec w :
  ∃ w1,
    checkToolsPathFile host g w
    = (Return (match files w !! toolsPaths g with
               | Some (Doc _) => true
               | _ => false
               end), w1)
    ∧ files w1 !! toolsPaths g = afterCheck host g (files w !! toolsPaths g)
    ∧ (∀ p, p ≠ toolsPaths g → files w1 !! p = files w !! p)
    ∧ stdin w1 = stdin w ∧ clock w1 = clock w.
Proof.
  unfold checkToolsPathFile, afterCheck. rewrite bind_gets.
  destruct (files w !! toolsPaths g) as [[| |C]|] eqn:E.
  - rewrite (file_exists _ _ _ E).
    unfold try_except at 1, bind at 1, json_load_file. rewrite E.
    unfold bind at 1, print at 1.
    unfold bind at 1, try_except, bind at 1, os_remove. simpl. rewrite E.
    eexists. split; [reflexivity|]. simpl. by rewrite E.
  - rewrite (file_exists _ _ _ E).
    unfold try_except at 1, bind at 1, json_load_file. rewrite E.
    unfold bind at 1, print at 1.
    unfold bind at 1, try_except, bind at 1, os_remove. simpl. rewrite E.
    destruct (can_remove host (toolsPaths g)) eqn:Hrm; simpl.
    + eexists. split; [reflexivity|]. simpl.
      split; [apply lookup_delete_eq|]. split; [|done].
      intros p Hp. by apply lookup_delete_ne.
    + eexists. split; [reflexivity|]. simpl. by rewrite E.
  - rewrite (file_exists _ _ _ E).
    unfold try_except, bind, json_load_file. rewrite E. simpl.
    eexists. split; [reflexivity|]. simpl. by rewrite E.
  - destruct (pathExists host w (Some (toolsPaths g))).
    + unfold try_except at 1, bind at 1, json_load_file. rewrite E.
      unfold bind at 1, print at 1.
      unfold bind at 1, try_except, bind at 1, os_remove. simpl. rewrite E.
      eexists. split; [reflexivity|]. simpl. by rewrite E.
    + eexists. split; [reflexivity|]. by rewrite E.
Qed.

(** [createUserToolsFile] always returns, and writes at most the cache. *)
Lemma createUserToolsFile_spec buildData w :
  ∃ w1,
    createUserToolsFile host g buildData w = (Return tt, w1)
    ∧ files w1 !! toolsPaths g
      = afterSave host g buildData (files w !! toolsPaths g)
    ∧ (∀ p, p ≠ toolsPaths g → files w1 !! p = files w !! p)
    ∧ stdin w1 = stdin w ∧ clock w1 = clock w.
Proof.
  unfold createUserToolsFile, afterSave, cacheOf. cbv zeta.
  change (dict_set (dict_set [] "ABOUT1" ?a) "ABOUT2" ?b)
    with [("ABOUT1", a); ("ABOUT2", b)].
  set (about := [("ABOUT1", _); ("ABOUT2", _)]).
  destruct (overlay toolFields buildData about) as [c|] eqn:Hc.
  - unfold try_except, bind at 1.
    rewrite (copyFields_returns _ _ _ _ w Hc).
    unfold bind, json_dump_file.
    destruct (files w !! toolsPaths g) as [[| |C]|] eqn:E;
      [by eexists|..];
      (destruct (can_write host (toolsPaths g)); simpl;
       [ eexists; split; [reflexivity|]; simpl;
         split; [apply lookup_insert_eq|]; split; [|done];
         intros p Hp; by apply lookup_insert_ne
       | by eexists ]).
  - destruct (copyFields_raises _ _ _ w Hc) as [k Hk].
    unfold try_except, bind at 1. rewrite Hk. by eexists.
Qed.

(** [overwriteBuildDataFile] on a descriptor that is there: it is
    rewritten with the stamp, or the run ends. *)
Lemma overwriteBuildDataFile_spec buildData w D :
  files w !! buildDataPath g = Some (Doc D) →
  if can_write host (buildDataPath g) then
    ∃ w1,
      overwriteBuildDataFile host g buildData w
      = (Return (stamped buildData (clock w)), w1)
      ∧ files w1
        = <[buildDataPath g := Doc (stamped buildData (clock w))]> (files w)
      ∧ stdin w1 = stdin w ∧ clock w1 = clock w
  else ∃ w1, overwriteBuildDataFile host g buildData w = (Exit 1, w1).
Proof.
  intros E. unfold overwriteBuildDataFile, try_except.
  destruct (can_write host (buildDataPath g)) eqn:Hw.
  - rewrite (bind_step _ _ w tt w)
      by (unfold open_update; by rewrite E, Hw).
    rewrite bind_gets.
    erewrite bind_step
      by (unfold json_dump_file; rewrite E, Hw; reflexivity).
    by eexists.
  - rewrite (bind_raises _ _ w (OSError (buildDataPath g)) w)
      by (unfold open_update; by rewrite E, Hw).
    by eexists.
Qed.

End Persistence.

(** ** Runs in which every stored path passes *)

Section Quiet.
Context (host : Host) (g : Workspace) (python : string).
Hypothesis Hpython : pythonReady host python.

Lemma passesProbe_set_ne w d key v k :
  k ≠ key → passesProbe host w d k →
  passesProbe host w (dict_set d key v) k.
Proof.
  intros Hne (p & Hget & Hp). exists p. by rewrite dict_get_set_ne.
Qed.

Lemma getYesNoAnswer_no msg w line rest :
  stdin w = line :: rest → Str.lower line = "n" →
  getYesNoAnswer msg w
  = (Return false, set_stdin rest (set_stdout (stdout w ++ [msg]) w)).
Proof.
  intros E Hn. unfold getYesNoAnswer.
  rewrite (while_input_step _ _ w line rest); [|intros l; preserves_auto|done].
  cbv zeta. rewrite Hn. by rewrite decide_False, decide_True.
Qed.

Lemma verifyTool_quiet bd tool w :
  (tool.2) = false → passesProbe host w bd (toolKey tool) →
  verifyTool host false bd tool w
  = (Return (dict_set bd bStr.pythonPath (VStr python)), w).
Proof.
  destruct tool as [[[path name] default] updated]. simpl.
  intros -> Hpass. unfold verifyTool.
  rewrite (bind_step _ _ _ _ _ (checkTool_valid host _ _ _ _ _ _ Hpass)).
  rewrite (bind_step _ _ w bd w) by done.
  by rewrite (bind_step _ _ _ _ _ (Hpython w)).
Qed.

Lemma verifyTool_declined bd tool w line rest :
  (tool.2) = false → passesProbe host w bd (toolKey tool) →
  stdin w = line :: rest → Str.lower line = "n" →
  ∃ w1,
    verifyTool host true bd tool w
    = (Return (dict_set bd bStr.pythonPath (VStr python)), w1)
    ∧ files w1 = files w ∧ stdin w1 = rest ∧ clock w1 = clock w.
Proof.
  destruct tool as [[[path name] default] updated]. simpl.
  intros -> (p & Hget & Hp) E Hn. unfold verifyTool.
  unfold toolKey in Hget. simpl in Hget.
  eexists. split.
  - erewrite bind_step.
    2:{ unfold checkTool, try_bare.
        unfold bind at 1, dict_item. rewrite Hget. unfold ret at 1.
        unfold bind at 1, probe, gets. rewrite Hp. simpl.
        unfold bind at 1. rewrite (getYesNoAnswer_no _ w line rest E Hn).
        reflexivity. }
    cbv beta iota. rewrite (bind_step _ _ _ bd _) by done.
    by rewrite (bind_step _ _ _ _ _ (Hpython _)).
  - done.
Qed.

Lemma verifyTools_quiet tools bd w :
  dict_get bd bStr.pythonPath = Some (VStr python) →
  (∀ t, t ∈ tools → (t.2) = false ∧ passesProbe host w bd (toolKey t)) →
  verifyTools host false tools bd w = (Return bd, w).
Proof.
  intros Hpy. induction tools as [|t tools IH]; intros Hall; [done|].
  simpl. destruct (Hall t) as [Hflag Hpass]; [by left|].
  rewrite (bind_step _ _ _ _ _ (verifyTool_quiet bd t w Hflag Hpass)).
  rewrite (dict_set_same _ _ _ Hpy).
  apply IH. intros t' Ht'. apply Hall. by right.
Qed.

Lemma verifyTools_declined tools : ∀ answers bd w rest,
  length answers = length tools → declines answers →
  stdin w = (answers ++ rest)%list →
  dict_get bd bStr.pythonPath = Some (VStr python) →
  (∀ t, t ∈ tools → (t.2) = false ∧ passesProbe host w bd (toolKey t)) →
  ∃ w1,
    verifyTools host true tools bd w = (Return bd, w1)
    ∧ files w1 = files w ∧ stdin w1 = rest ∧ clock w1 = clock w.
Proof.
  induction tools as [|t tools IH]; intros answers bd w rest Hlen Hno E Hpy Hall.
  - destruct answers; [|done]. by exists w.
  - destruct answers as [|line answers]; [done|].
    apply Forall_cons in Hno as [Hn Hno].
    destruct (Hall t) as [Hflag Hpass]; [by left|].
    destruct (verifyTool_declined bd t w line (answers ++ rest) Hflag Hpass E Hn)
      as (w1 & Hround & Hf & Hin & Hc).
    simpl. rewrite (bind_step _ _ _ _ _ Hround).
    rewrite (dict_set_same _ _ _ Hpy).
    destruct (IH answers bd w1 rest) as (w2 & Hrun & Hf2 & Hin2 & Hc2);
      [by injection Hlen|done|done|done| |].
    + intros t' Ht'. destruct (Hall t') as [? ?]; [by right|].
      split; [done|]. by apply (passesProbe_files host w).
    + exists w2. split; [done|]. split; [congruence|]. split; [done|congruence].
Qed.

Lemma toolsList_flags_keys tool :
  tool ∈ toolsList g → (tool.2) = false ∧ toolKey tool ≠ bStr.pythonPath.
Proof. intros Hin. tools_cases Hin; by vm_compute. Qed.

(** Every stored path passes and nothing is requested: the descriptor
    comes back with the interpreter filled in, and no line is read or
    printed. *)
Lemma verifyExistingPaths_quiet bd w :
  storedToolsPass host g bd →
  verifyExistingPaths host g bd false w
  = (Return (dict_set bd bStr.pythonPath (VStr python)), w).
Proof.
  intros Hall. unfold verifyExistingPaths.
  set (bd' := dict_set bd bStr.pythonPath (VStr python)).
  assert (Hrest : ∀ tools,
            (∀ t, t ∈ tools → t ∈ toolsList g) →
            verifyTools host false tools bd' w = (Return bd', w)).
  { intros tools Hsub. apply verifyTools_quiet.
    - apply dict_get_set_eq.
    - intros t Ht. destruct (toolsList_flags_keys t (Hsub t Ht)) as [? ?].
      split; [done|]. apply passesProbe_set_ne; [done|].
      apply (storedToolsPass_passesProbe host g); [done|by apply Hsub]. }
  unfold toolsList at 1. cbn [verifyTools].
  rewrite (bind_step _ _ _ bd' w).
  - apply (Hrest (tail (toolsList g))). intros t Ht. by right.
  - apply verifyTool_quiet; [done|].
    apply (storedToolsPass_passesProbe host g); [done|by left].
Qed.

(** Every stored path passes and the operator declines each of the four
    confirmations: the descriptor comes back as it was. *)
Lemma verifyExistingPaths_declined bd w answers rest :
  storedToolsPass host g bd →
  dict_get bd bStr.pythonPath = Some (VStr python) →
  length answers = 4 → declines answers →
  stdin w = (answers ++ rest)%list →
  ∃ w1,
    verifyExistingPaths host g bd true w = (Return bd, w1)
    ∧ files w1 = files w ∧ stdin w1 = rest ∧ clock w1 = clock w.
Proof.
  intros Hall Hpy Hlen Hno E. unfold verifyExistingPaths.
  apply (verifyTools_declined _ answers); try done.
  intros t Ht. destruct (toolsList_flags_keys t Ht) as [? ?].
  split; [done|]. by apply (storedToolsPass_passesProbe host g).
Qed.

End Quiet.

(** ** Descriptor and cache in [prepareBuildData] *)

Section Precedence.
Context (host : Host) (g : Workspace).

Lemma files_agree w w1 :
  files w1 !! toolsPaths g = files w !! toolsPaths g →
  (∀ p, p ≠ toolsPaths g → files w1 !! p = files w !! p) →
  files w1 = files w.
Proof.
  intros Htp Hrest. apply map_eq. intros p.
  destruct (decide (p = toolsPaths g)) as [->|Hne]; eauto.
Qed.

(** How a [prepareBuildData] that returns is made up, when the descriptor
    is a document: the cache has been looked at, laid over the descriptor
    if it is a document, and the result has gone through
    [verifyExistingPaths]. *)
Lemma prepareBuildData_returns w D buildData' w' :
  files w !! buildDataPath g = Some (Doc D) →
  prepareBuildData host g w = (Return buildData', w') →
  ∃ m w1 w2,
    candidates (files w !! toolsPaths g) D = Some m
    ∧ files w1 !! toolsPaths g = afterCheck host g (files w !! toolsPaths g)
    ∧ (∀ p, p ≠ toolsPaths g → files w1 !! p = files w !! p)
    ∧ stdin w1 = stdin w ∧ clock w1 = clock w
    ∧ verifyExistingPaths host g m false w1 = (Return buildData', w2)
    ∧ createUserToolsFile host g buildData' w2 = (Return tt, w').
Proof.
  intros Hdesc Hrun. unfold prepareBuildData in Hrun.
  destruct (checkBuildDataFile_doc host g w D Hdesc)
    as (wa & Hcheck & Hfa & Hia & Hca).
  rewrite (bind_step _ _ _ _ _ Hcheck) in Hrun.
  rewrite (bind_step _ _ wa D wa) in Hrun
    by (apply getBuildData_doc; by rewrite Hfa).
  destruct (checkToolsPathFile_spec host g wa)
    as (wb & Hcache & Htp & Hother & Hib & Hcb).
  rewrite Hfa in Htp, Hother, Hcache.
  rewrite (bind_step _ _ _ _ _ Hcache) in Hrun.
  assert (Hmerge : ∃ m,
            candidates (files w !! toolsPaths g) D = Some m
            ∧ (if match files w !! toolsPaths g with
                  | Some (Doc _) => true
                  | _ => false
                  end
               then addToolsPathsData g D
               else ret D) wb = (Return m, wb)).
  { unfold candidates.
    destruct (files w !! toolsPaths g) as [[| |C]|] eqn:E;
      try by (exists D).
    destruct (overlay toolFields C D) as [m|] eqn:Hm.
    - exists m. split; [done|]. unfold addToolsPathsData.
      rewrite (bind_step _ _ wb C wb)
        by (by apply getToolsPathsData_doc).
      by apply copyFields_returns.
    - exfalso. destruct (copyFields_raises _ _ _ wb Hm) as [k Hk].
      unfold addToolsPathsData in Hrun.
      erewrite bind_raises in Hrun; [discriminate Hrun|].
      rewrite (bind_step _ _ wb C wb)
        by (by apply getToolsPathsData_doc).
      exact Hk. }
  destruct Hmerge as (m & Hm & Hadd).
  rewrite (bind_step _ _ _ _ _ Hadd) in Hrun.
  apply bind_returns in Hrun as (bd & w2 & Hverify & Hrun).
  apply bind_returns in Hrun as ([] & w3 & Hsave & Hrun).
  unfold ret in Hrun. injection Hrun as <- <-.
  exists m, wb, w2. repeat split; try done; congruence.
Qed.


End Precedence.



(** ** Two runs of [updatePaths.py] in a row *)

Lemma overlay_src_ext keys (src src' dst : pydict) :
  (∀ k, k ∈ keys → dict_get src k = dict_get src' k) →
  overlay keys src dst = overlay keys src' dst.
Proof.
  revert dst. induction keys as [|k keys IH]; intros dst Hsame; [done|].
  simpl. rewrite <- (Hsame k) by by left.
  destruct (dict_get src k); [|done]. apply IH. intros k' Hk'.
  apply Hsame. by right.
Qed.

Lemma overlay_keys_present keys (src dst d : pydict) k :
  overlay keys src dst = Some d → k ∈ keys → is_Some (dict_get src k).
Proof.
  revert dst. induction keys as [|k0 keys IH]; intros dst Hd Hk.
  - by apply elem_of_nil in Hk.
  - simpl in Hd. destruct (dict_get src k0) as [v|] eqn:Hv; [|done].
    apply elem_of_cons in Hk as [->|Hk]; [by rewrite Hv|eauto].
Qed.

Lemma toolFields_not_stamp k :
  k ∈ toolFields → k ≠ "VERSION" ∧ k ≠ "LAST_RUN".
Proof.
  unfold toolFields. intros Hk.
  repeat (apply elem_of_cons in Hk as [->|Hk]); [..|by apply elem_of_nil in Hk];
    by vm_compute.
Qed.

Lemma dict_get_stamped bd now k :
  k ≠ "VERSION" → k ≠ "LAST_RUN" →
  dict_get (stamped bd now) k = dict_get bd k.
Proof. intros ??. unfold stamped. by rewrite !dict_get_set_ne. Qed.

Lemma cacheOf_ext bd bd' :
  (∀ k, k ∈ toolFields → dict_get bd k = dict_get bd' k) →
  cacheOf bd = cacheOf bd'.
Proof. intros H. unfold cacheOf. by apply overlay_src_ext. Qed.

Lemma cacheOf_stamped bd now : cacheOf (stamped bd now) = cacheOf bd.
Proof.
  apply cacheOf_ext. intros k [? ?]%toolFields_not_stamp.
  by apply dict_get_stamped.
Qed.

Lemma stamped_again bd now now' :
  stamped (stamped bd now) now'
  = dict_set (stamped bd now) "LAST_RUN" (VStr now').
Proof.
  unfold stamped at 1. f_equal. apply dict_set_same.
  unfold stamped. rewrite dict_get_set_ne by done. apply dict_get_set_eq.
Qed.

Lemma afterSave_ext host g bd bd' slot :
  cacheOf bd = cacheOf bd' → afterSave host g bd slot = afterSave host g bd' slot.
Proof. unfold afterSave. by intros ->. Qed.

(** Saving the cache twice after a check, and going through the same once
    more, leaves at the place of the cache what the first time left. *)
Lemma cache_slot_settled host g bd slot :
  let s := afterSave host g bd (afterSave host g bd (afterCheck host g slot)) in
  afterSave host g bd (afterSave host g bd (afterCheck host g s)) = s.
Proof.
  unfold afterSave, afterCheck.
  destruct (cacheOf bd), slot as [[| |C]|],
    (can_remove host (toolsPaths g)), (can_write host (toolsPaths g));
    reflexivity.
Qed.

(** A document found at the place of the cache after a run with descriptor
    [bd] is the one just saved, or the one that was there before. *)
Lemma cache_slot_document host g bd slot C :
  afterSave host g bd (afterSave host g bd (afterCheck host g slot))
  = Some (Doc C) →
  cacheOf bd = Some C ∨ slot = Some (Doc C).
Proof.
  unfold afterSave, afterCheck.
  destruct (cacheOf bd), slot as [[| |C0]|],
    (can_remove host (toolsPaths g)), (can_write host (toolsPaths g));
    intros [=]; subst; auto.
Qed.

Lemma toolKey_in_toolFields (g : Workspace) tool :
  tool ∈ toolsList g → toolKey tool ∈ toolFields.
Proof.
  intros Hin. tools_cases Hin; unfold toolKey, toolFields; simpl; set_solver.
Qed.

Section Idempotence.
Context (host : Host) (g : Workspace) (python : string).
Hypothesis Hpython : pythonReady host python.
Hypothesis Hdistinct : buildDataPath g ≠ toolsPaths g.

Lemma storedToolsPass_ext d d' :
  (∀ tool, tool ∈ toolsList g →
           dict_get d' (toolKey tool) = dict_get d (toolKey tool)) →
  storedToolsPass host g d → storedToolsPass host g d'.
Proof.
  intros Hsame Hd tool Hin. destruct (Hd tool Hin) as (p & Hget & Hp).
  exists p. by rewrite Hsame.
Qed.

(** [prepareBuildData] when every candidate passes: nothing is asked. *)
Lemma prepareBuildData_quiet w D m :
  files w !! buildDataPath g = Some (Doc D) →
  candidates (files w !! toolsPaths g) D = Some m →
  storedToolsPass host g m →
  let bd := dict_set m bStr.pythonPath (VStr python) in
  ∃ w1,
    prepareBuildData host g w = (Return bd, w1)
    ∧ files w1 !! buildDataPath g = Some (Doc D)
    ∧ files w1 !! toolsPaths g
      = afterSave host g bd (afterCheck host g (files w !! toolsPaths g))
    ∧ stdin w1 = stdin w ∧ clock w1 = clock w.
Proof.
  intros Hdesc Hm Hpass bd. unfold prepareBuildData.
  destruct (checkBuildDataFile_doc host g w D Hdesc)
    as (wa & Hcheck & Hfa & Hia & Hca).
  rewrite (bind_step _ _ _ _ _ Hcheck).
  rewrite (bind_step _ _ wa D wa)
    by (apply getBuildData_doc; by rewrite Hfa).
  destruct (checkToolsPathFile_spec host g wa)
    as (wb & Hcache & Htp & Hother & Hib & Hcb).
  rewrite Hfa in Htp, Hother, Hcache.
  rewrite (bind_step _ _ _ _ _ Hcache).
  rewrite (bind_step _ _ wb m wb).
  2:{ unfold candidates in Hm.
      destruct (files w !! toolsPaths g) as [[| |C]|] eqn:E;
        try by (injection Hm as ->).
      unfold addToolsPathsData.
      rewrite (bind_step _ _ wb C wb) by (by apply getToolsPathsData_doc).
      by apply copyFields_returns. }
  rewrite (bind_step _ _ _ _ _
             (verifyExistingPaths_quiet host g python Hpython m wb Hpass)).
  fold bd.
  destruct (createUserToolsFile_spec host g bd wb)
    as (wc & Hsave & Htp' & Hother' & Hic & Hcc).
  rewrite (bind_step _ _ _ _ _ Hsave).
  exists wc. split; [done|].
  split; [by rewrite Hother', Hother|].
  split; [by rewrite Htp', Htp|]. split; congruence.
Qed.

(** The whole script when every candidate passes and the operator
    declines the four confirmations. *)
Lemma updatePaths_run_quiet w D m answers rest :
  files w !! buildDataPath g = Some (Doc D) →
  candidates (files w !! toolsPaths g) D = Some m →
  storedToolsPass host g m →
  length answers = 4 → declines answers →
  stdin w = (answers ++ rest)%list →
  let bd := dict_set m bStr.pythonPath (VStr python) in
  if can_write host (buildDataPath g) then
    ∃ w',
      updatePaths_run host g w = (Return tt, w')
      ∧ files w' !! buildDataPath g = Some (Doc (stamped bd (clock w)))
      ∧ files w' !! toolsPaths g
        = afterSave host g bd
            (afterSave host g bd
               (afterCheck host g (files w !! toolsPaths g)))
      ∧ stdin w' = rest
  else ∃ w', updatePaths_run host g w = (Exit 1, w').
Proof.
  intros Hdesc Hm Hpass Hlen Hno Hin bd.
  destruct (prepareBuildData_quiet w D m Hdesc Hm Hpass)
    as (w1 & Hprep & Hd1 & Ht1 & Hi1 & Hc1). fold bd in Hprep, Ht1.
  assert (Hpassbd : storedToolsPass host g bd).
  { apply (storedToolsPass_ext m); [|done]. intros tool Ht.
    apply dict_get_set_ne.
    by destruct (toolsList_flags_keys g tool Ht) as [_ ?]. }
  destruct (verifyExistingPaths_declined host g python Hpython bd w1
              answers rest Hpassbd) as (w2 & Hver & Hf2 & Hi2 & Hc2);
    [apply dict_get_set_eq|done|done|congruence|].
  pose proof (overwriteBuildDataFile_spec host g bd w2 D) as Hover.
  rewrite Hf2 in Hover. specialize (Hover Hd1).
  unfold updatePaths_run.
  rewrite (bind_step _ _ _ _ _ Hprep), (bind_step _ _ _ _ _ Hver).
  destruct (can_write host (buildDataPath g)).
  - destruct Hover as (w3 & Hover & Hf3 & Hi3 & Hc3).
    rewrite (bind_step _ _ _ _ _ Hover).
    destruct (createUserToolsFile_spec host g (stamped bd (clock w2)) w3)
      as (w4 & Hsave & Ht4 & Ho4 & Hi4 & Hc4).
    exists w4. split; [done|].
    assert (clock w2 = clock w) as Hclk by congruence.
    rewrite Hclk in *.
    split; [|split; [|congruence]].
    + rewrite Ho4 by done. rewrite Hf3. apply lookup_insert_eq.
    + rewrite Ht4, Hf3. rewrite lookup_insert_ne by done.
      rewrite Ht1. apply afterSave_ext, cacheOf_stamped.
  - destruct Hover as (w3 & Hover).
    rewrite (bind_exits _ _ _ _ _ Hover). by eexists.
Qed.

End Idempotence.

(** C4. Let the descriptor be a document, let every tool path stored in
    it, and in the cache if that is a document, exist on the disk or on the
    search path, let the interpreter be found without a question, and let
    the operator answer [n] to each of the four confirmations.  If a run of
    [updatePaths.py] returns, then a second run, started on the files the
    first one left, at any later time and with the same kind of answers,
    returns too; it leaves [toolsPaths.json] exactly as the first run left
    it, and [buildData.json] as the first run left it but for the value of
    [LAST_RUN]. *)
Theorem reconciliation_idempotent (host : Host) (g : Workspace)
        (python : string)
        (Hpython : pythonReady host python)
        (Hdistinct : buildDataPath g ≠ toolsPaths g)
        (w0 : world) (D : pydict) (answers1 rest1 : list string)
        (Hdesc : files w0 !! buildDataPath g = Some (Doc D))
        (HpassD : storedToolsPass host g D)
        (HpassC : ∀ C, files w0 !! toolsPaths g = Some (Doc C) →
                       storedToolsPass host g C)
        (Hfour1 : length answers1 = 4) (Hno1 : declines answers1)
        (Hin1 : stdin w0 = (answers1 ++ rest1)%list)
        (w1 : world)
        (Hrun1 : updatePaths_run host g w0 = (Return tt, w1))
        (clock2 : string) (answers2 rest2 : list string)
        (Hfour2 : length answers2 = 4) (Hno2 : declines answers2) :
  ∃ w2 d1,
    updatePaths_run host g
      (World (files w1) (answers2 ++ rest2) (stdout w1) clock2)
    = (Return tt, w2)
    ∧ files w1 !! buildDataPath g = Some (Doc d1)
    ∧ files w2 !! buildDataPath g
      = Some (Doc (dict_set d1 "LAST_RUN" (VStr clock2)))
    ∧ files w2 !! toolsPaths g = files w1 !! toolsPaths g.
Proof.
  (* the first run *)
  assert (Hm : ∃ m, candidates (files w0 !! toolsPaths g) D = Some m).
  { pose proof Hrun1 as Hrun. unfold updatePaths_run in Hrun.
    apply bind_returns in Hrun as (bd0 & wp & Hprep & _).
    destruct (prepareBuildData_returns host g w0 D bd0 wp Hdesc Hprep)
      as (m & _ & _ & Hm & _). by exists m. }
  destruct Hm as [m Hm].
  assert (Hpassm : storedToolsPass host g m).
  { unfold candidates in Hm.
    destruct (files w0 !! toolsPaths g) as [[| |C]|] eqn:E;
      try by (injection Hm as <-).
    apply (storedToolsPass_ext host g C); [|by apply HpassC].
    intros tool Ht. rewrite (overlay_get _ _ _ _ _ Hm).
    by rewrite bool_decide_true by by apply (toolKey_in_toolFields g). }
  set (bd := dict_set m bStr.pythonPath (VStr python)).
  pose proof (updatePaths_run_quiet host g python Hpython Hdistinct w0 D m
                answers1 rest1 Hdesc Hm Hpassm Hfour1 Hno1 Hin1) as Hfirst.
  fold bd in Hfirst.
  destruct (can_write host (buildDataPath g)) eqn:Hwrite;
    [|destruct Hfirst as [? Hexit]; rewrite Hexit in Hrun1; discriminate Hrun1].
  destruct Hfirst as (w' & Hrun & Hd1 & Hs1 & _).
  rewrite Hrun in Hrun1. injection Hrun1 as ->.
  set (d1 := stamped bd (clock w0)) in *.
  (* what the second run finds *)
  assert (Hfields : ∀ k, k ∈ toolFields → dict_get d1 k = dict_get bd k).
  { intros k [? ?]%toolFields_not_stamp. by apply dict_get_stamped. }
  assert (Hpy1 : dict_get d1 bStr.pythonPath = Some (VStr python)).
  { rewrite Hfields by (unfold toolFields; set_solver).
    apply dict_get_set_eq. }
  assert (Hm' : ∃ m', candidates (files w1 !! toolsPaths g) d1 = Some m'
                      ∧ dict_set m' bStr.pythonPath (VStr python) = d1).
  { destruct (files w1 !! toolsPaths g) as [[| |C']|] eqn:E;
      try (exists d1; split; [done|by apply dict_set_same]).
    unfold candidates. apply overlay_absorbed; [done|]. intros k Hk.
    symmetry in Hs1.
    apply cache_slot_document in Hs1 as [Hsaved|Hold].
    - unfold cacheOf in Hsaved.
      rewrite (overlay_get _ _ _ _ k Hsaved), bool_decide_true by done.
      split; [by eapply overlay_keys_present|]. by rewrite Hfields.
    - rewrite Hold in Hm. unfold candidates in Hm.
      split; [by eapply overlay_keys_present|]. intros Hne.
      rewrite Hfields by done. unfold bd. rewrite dict_get_set_ne by done.
      by rewrite (overlay_get _ _ _ _ k Hm), bool_decide_true. }
  destruct Hm' as (m' & Hm' & Hback).
  assert (Hpassm' : storedToolsPass host g m').
  { apply (storedToolsPass_ext host g m); [|done]. intros tool Ht.
    destruct (toolsList_flags_keys g tool Ht) as [_ Hne].
    transitivity (dict_get d1 (toolKey tool)).
    - rewrite <- Hback. by rewrite dict_get_set_ne.
    - rewrite Hfields by by apply (toolKey_in_toolFields g).
      unfold bd. by rewrite dict_get_set_ne. }
  (* the second run *)
  set (w1' := World (files w1) (answers2 ++ rest2) (stdout w1) clock2).
  pose proof (updatePaths_run_quiet host g python Hpython Hdistinct w1' d1 m'
                answers2 rest2 Hd1 Hm' Hpassm' Hfour2 Hno2 eq_refl) as Hsecond.
  rewrite Hwrite, Hback in Hsecond.
  destruct Hsecond as (w2 & Hrun2 & Hd2 & Hs2 & _).
  exists w2, d1. split; [exact Hrun2|]. split; [exact Hd1|]. split.
  - rewrite Hd2. simpl. unfold d1. by rewrite stamped_again.
  - rewrite Hs2. simpl. rewrite Hs1.
    rewrite !(afterSave_ext host g d1 bd) by apply cacheOf_stamped.
    apply cache_slot_settled.
Qed.

Lemma demo_pythonReady : pythonReady Demo.linux "python3".
Proof.
  intros w. unfold getPython3Path.
  rewrite (bind_step _ _ w "unix" w) by reflexivity.
  change (if bool_decide ("unix" = "unix") || bool_decide ("unix" = "wsl")
          then "python3" else "python") with "python3".
  rewrite bind_gets.
  assert (pathExists Demo.linux w (Some "python3") = true) as ->; [|done].
  simpl. by destruct (os_path_exists Demo.linux w "python3").
Qed.

Lemma demo_storedToolsPass d gcc :
  dict_get d bStr.gccExePath = Some (VStr gcc) →
  toolExists Demo.linux gcc = true →
  dict_get d bStr.buildToolsPath = Some (VStr "/usr/bin/make") →
  dict_get d bStr.openOcdPath = Some (VStr "/usr/bin/openocd") →
  dict_get d bStr.stm32SvdPath = Some (VStr "/ws/SVD") →
  storedToolsPass Demo.linux Demo.ws d.
Proof.
  intros Hgcc Hgccthere Hmake Hocd Hsvd tool Hin.
  tools_cases Hin; unfold toolKey; simpl; eexists; (split; [eassumption|]);
    first [assumption | by vm_compute].
Qed.

Lemma reconciliation_idempotent_witness :
  let w0 := Demo.at_start Demo.both_documents ["n"; "N"; "n"; "n"] in
  pythonReady Demo.linux "python3"
  ∧ buildDataPath Demo.ws ≠ toolsPaths Demo.ws
  ∧ files w0 !! buildDataPath Demo.ws = Some (Doc Demo.descriptor)
  ∧ storedToolsPass Demo.linux Demo.ws Demo.descriptor
  ∧ ∃ w1,
      updatePaths_run Demo.linux Demo.ws w0 = (Return tt, w1)
      ∧ ∃ w2 d1,
          updatePaths_run Demo.linux Demo.ws
            (World (files w1) ["n"; "n"; "n"; "n"] (stdout w1)
                   "2019-05-03 18:45:10.000000")
          = (Return tt, w2)
          ∧ files w1 !! buildDataPath Demo.ws = Some (Doc d1)
          ∧ files w2 !! buildDataPath Demo.ws
            = Some (Doc (dict_set d1 "LAST_RUN"
                           (VStr "2019-05-03 18:45:10.000000")))
          ∧ files w2 !! toolsPaths Demo.ws = files w1 !! toolsPaths Demo.ws.
Proof.
  intros w0.
  assert (Hdistinct : buildDataPath Demo.ws ≠ toolsPaths Demo.ws) by done.
  assert (Hdesc : files w0 !! buildDataPath Demo.ws = Some (Doc Demo.descriptor))
    by (vm_compute; reflexivity).
  assert (HpassD : storedToolsPass Demo.linux Demo.ws Demo.descriptor).
  { by apply (demo_storedToolsPass _ "/opt/gcc10/bin/arm-none-eabi-gcc"). }
  assert (HpassC : ∀ C, files w0 !! toolsPaths Demo.ws = Some (Doc C) →
                        storedToolsPass Demo.linux Demo.ws C).
  { intros C HC. vm_compute in HC. injection HC as <-.
    by apply (demo_storedToolsPass _ "/opt/gcc/bin/arm-none-eabi-gcc"). }
  split; [exact demo_pythonReady|]. split; [exact Hdistinct|].
  split; [exact Hdesc|]. split; [exact HpassD|].
  destruct (updatePaths_run Demo.linux Demo.ws w0) as [[[]|e|c] w1] eqn:Hrun1.
  - exists w1. split; [reflexivity|].
    exact (reconciliation_idempotent Demo.linux Demo.ws "python3"
             demo_pythonReady Hdistinct w0 Demo.descriptor
             ["n"; "N"; "n"; "n"] [] Hdesc HpassD HpassC eq_refl
             ltac:(repeat constructor) eq_refl w1 Hrun1
             "2019-05-03 18:45:10.000000" ["n"; "n"; "n"; "n"] []
             eq_refl ltac:(repeat constructor)).
  - vm_compute in Hrun1. discriminate Hrun1.
  - vm_compute in Hrun1. discriminate Hrun1.
Defined.

(** The two runs of the example, evaluated: the cache after the second run
    is the cache after the first, and it names the compiler of the cache
    that was there at the start. *)
Example two_runs_evaluated :
  let w0 := Demo.at_start Demo.both_documents ["n"; "N"; "n"; "n"] in
  ∃ w1 w2 c,
    updatePaths_run Demo.linux Demo.ws w0 = (Return tt, w1)
    ∧ updatePaths_run Demo.linux Demo.ws
        (World (files w1) ["n"; "n"; "n"; "n"] (stdout w1)
               "2019-05-03 18:45:10.000000") = (Return tt, w2)
    ∧ files w1 !! toolsPaths Demo.ws = Some (Doc c)
    ∧ files w2 !! toolsPaths Demo.ws = Some (Doc c)
    ∧ dict_get c bStr.gccExePath = Some (VStr "/opt/gcc/bin/arm-none-eabi-gcc").
Proof.
  intros w0. eexists _, _, _.
  split; [vm_compute; reflexivity|].
  split; [vm_compute; reflexivity|].
  split; [vm_compute; reflexivity|].
  split; vm_compute; reflexivity.
Qed.


(** ** The string and path functions on examples *)

Example posix_join_rel : Posix.join "/ws" "build" = "/ws/build".
Proof. reflexivity. Qed.
Example posix_join_abs : Posix.join "/ws" "/tmp/build" = "/tmp/build".
Proof. reflexivity. Qed.
Example posix_dirname_exe :
  Posix.dirname "/opt/gcc/bin/arm-none-eabi-gcc" = "/opt/gcc/bin".
Proof. reflexivity. Qed.
Example posix_dirname_bare : Posix.dirname "make" = "".
Proof. reflexivity. Qed.
Example posix_dirname_root : Posix.dirname "/make" = "/".
Proof. reflexivity. Qed.
Example posix_normpath_dots :
  Posix.normpath "/ws/./build/../out//fw.elf" = "/ws/out/fw.elf".
Proof. reflexivity. Qed.
Example posix_normpath_empty : Posix.normpath "" = ".".
Proof. reflexivity. Qed.
Example posix_normpath_up : Posix.normpath "../a/../../b" = "../../b".
Proof. reflexivity. Qed.
Example split_words :
  Str.split "-f interface/stlink.cfg  -f target/stm32f0x.cfg "
  = ["-f"; "interface/stlink.cfg"; "-f"; "target/stm32f0x.cfg"].
Proof. reflexivity. Qed.
Example lower_yes : Str.lower "Y" = "y".
Proof. reflexivity. Qed.
Example endswith_ioc : Str.endswith "board.ioc" ".ioc" = true.
Proof. reflexivity. Qed.
Example detectOS_wsl :
  ∀ w, detectOS Demo.wsl w = (Return "wsl", w).
Proof. reflexivity. Qed.

(** * Further properties of the scripts *)

(** ** Lists of strings *)

Lemma chars_append (s x : string) :
  Str.chars (s ++ x) = (Str.chars s ++ Str.chars x)%list.
Proof. induction s as [|c s IH]; simpl; [done|]. by rewrite IH. Qed.

Lemma chars_length (s : string) : length (Str.chars s) = String.length s.
Proof. induction s as [|c s IH]; simpl; [done|]. by rewrite IH. Qed.

Lemma of_chars_chars (s : string) : Str.of_chars (Str.chars s) = s.
Proof. apply string_of_list_ascii_of_string. Qed.

Lemma chars_of_chars (l : list ascii) : Str.chars (Str.of_chars l) = l.
Proof. apply list_ascii_of_string_of_list_ascii. Qed.

Lemma prefix_append (s x : string) : String.prefix s (s ++ x) = true.
Proof.
  induction s as [|c s IH]; simpl.
  - by destruct x.
  - by destruct (ascii_dec c c).
Qed.

Lemma contains_prefix (s sub : string) :
  String.prefix sub s = true → PyStr.contains s sub = true.
Proof.
  destruct s as [|c s]; [done|]. intros E.
  change (String.prefix sub (String c s) || PyStr.contains s sub = true).
  by rewrite E.
Qed.

Lemma contains_append (s x : string) : PyStr.contains (s ++ x) s = true.
Proof. apply contains_prefix, prefix_append. Qed.

Lemma from_append (s x : string) : PyStr.from (String.length s) (s ++ x) = x.
Proof.
  unfold PyStr.from. rewrite chars_append, <- chars_length.
  rewrite drop_app_length. apply of_chars_chars.
Qed.

(** X1. What [preappendString] puts in front of the items of a list,
    [stripStartOfString] takes off again: the two are inverse on lists. *)
Theorem stripStartOfString_preappendString (items : list string)
        (prefix : string) :
  match preappendString (VList items) prefix with
  | inr (VList prefixed) => stripStartOfString prefixed prefix = items
  | _ => False
  end.
Proof.
  simpl. induction items as [|item items IH]; simpl; [done|].
  by rewrite contains_append, from_append, IH.
Qed.

Lemma lstrip_chars_head l c :
  head (PyStr.lstrip_chars l) = Some c → Str.isspace c = false.
Proof.
  induction l as [|x l IH]; simpl; [done|].
  destruct (Str.isspace x) eqn:E; [done|]. simpl. by intros [= <-].
Qed.

Lemma lstrip_chars_suffix l : ∃ blanks, l = (blanks ++ PyStr.lstrip_chars l)%list.
Proof.
  induction l as [|x l [blanks IH]]; simpl.
  - by exists [].
  - destruct (Str.isspace x).
    + exists (x :: blanks). simpl. by rewrite <- IH.
    + by exists [].
Qed.

Lemma last_rev {A} (l : list A) : last (rev l) = head l.
Proof. destruct l as [|x l]; [done|]. simpl. by rewrite last_snoc. Qed.

Lemma head_rev {A} (l : list A) : head (rev l) = last l.
Proof. by rewrite <- (rev_involutive l) at 2; rewrite last_rev. Qed.

Lemma last_app_suffix {A} (pre l : list A) x :
  last l = Some x → last (pre ++ l) = Some x.
Proof.
  intros Hl. destruct l as [|y l] using rev_ind; [done|].
  rewrite last_snoc in Hl. injection Hl as ->.
  by rewrite app_assoc, last_snoc.
Qed.

Lemma strip_trimmed (s : string) : trimmed (PyStr.strip s).
Proof.
  unfold trimmed, PyStr.strip. rewrite chars_of_chars.
  set (a := PyStr.lstrip_chars (Str.chars s)).
  set (b := PyStr.lstrip_chars (rev a)).
  split; intros c Hc.
  - rewrite head_rev in Hc.
    destruct (lstrip_chars_suffix (rev a)) as [blanks Hb]. fold b in Hb.
    apply (last_app_suffix blanks) in Hc. rewrite <- Hb, last_rev in Hc.
    by apply (lstrip_chars_head (Str.chars s)).
  - rewrite last_rev in Hc. by apply (lstrip_chars_head (rev a)).
Qed.

Lemma split_go_nonempty sep skip cur s : PyStr.split_go sep skip cur s ≠ [].
Proof.
  revert skip cur.
  induction s as [|c s IH]; intros skip cur; cbn [PyStr.split_go]; [done|].
  destruct skip; [|done]. by destruct (String.prefix sep (String c s)).
Qed.

(** X3. [stringToList] with a separator that is not empty always yields at
    least one item, and no item begins or ends with a blank; with the empty
    separator [split] raises and nothing is yielded. *)
Theorem stringToList_items (text separator : string) :
  if decide (separator = "") then stringToList text separator = None
  else ∃ items, stringToList text separator = Some items
                ∧ items ≠ [] ∧ Forall trimmed items.
Proof.
  unfold stringToList, PyStr.split. destruct (decide (separator = "")); [done|].
  simpl. eexists. split; [done|]. split.
  - intros E%fmap_nil_inv. by apply split_go_nonempty in E.
  - apply Forall_fmap, Forall_forall. intros item _. apply strip_trimmed.
Qed.

Example stringToList_sources :
  stringToList "main.c , startup.s,, " ","
  = Some ["main.c"; "startup.s"; ""; ""].
Proof. reflexivity. Qed.

Example stringToList_long_separator :
  stringToList "a -I b -Ic" "-I" = Some ["a"; "b"; "c"].
Proof. reflexivity. Qed.

Lemma prefix_occurs (s sub : string) :
  String.prefix sub s = true ↔ ∃ post, s = sub ++ post.
Proof.
  split.
  - revert s. induction sub as [|c sub IH]; intros s Hp.
    + by exists s.
    + destruct s as [|c' s]; [done|]. simpl in Hp.
      destruct (ascii_dec c c') as [->|]; [|done].
      destruct (IH s Hp) as [post ->]. by exists post.
  - intros [post ->]. apply prefix_append.
Qed.

Lemma contains_occurs (s sub : string) :
  PyStr.contains s sub = true ↔ ∃ pre post, s = pre ++ sub ++ post.
Proof.
  induction s as [|c s IH].
  - change (String.prefix sub "" = true ↔ ∃ pre post, "" = pre ++ sub ++ post).
    rewrite prefix_occurs. split.
    + intros [post E]. by exists "", post.
    + intros (pre & post & E). destruct pre; [|discriminate E].
      destruct sub; [by exists ""|discriminate E].
  - change (String.prefix sub (String c s) || PyStr.contains s sub = true
            ↔ ∃ pre post, String c s = pre ++ sub ++ post).
    rewrite orb_true_iff, prefix_occurs, IH. split.
    + intros [[post E]|(pre & post & E)].
      * by exists "", post.
      * exists (String c pre), post. simpl. by rewrite E.
    + intros (pre & post & E). destruct pre as [|c' pre].
      * left. by exists post.
      * right. simpl in E. injection E as -> E. by exists pre, post.
Qed.

(** X2. [stripStartOfString] keeps the number and the order of the items.
    An item in which the pattern occurs at any place, not only at its start,
    comes back without its first characters, as many as the pattern has; an
    item in which it does not occur comes back as it is. *)
Theorem stripStartOfString_items (dataList : list string) (pattern : string) :
  length (stripStartOfString dataList pattern) = length dataList
  ∧ ∀ i data,
      dataList !! i = Some data →
      ∃ item,
        stripStartOfString dataList pattern !! i = Some item
        ∧ ((∃ pre post, data = pre ++ pattern ++ post) →
           item = PyStr.from (String.length pattern) data)
        ∧ ((¬ ∃ pre post, data = pre ++ pattern ++ post) → item = data).
Proof.
  induction dataList as [|d dataList [IHlen IH]]; simpl.
  - split; [done|]. intros i data Hi. by rewrite lookup_nil in Hi.
  - split; [by rewrite IHlen|]. intros [|i] data Hi; simpl in *.
    + injection Hi as ->. eexists. split; [done|].
      destruct (PyStr.contains data pattern) eqn:E.
      * split; [done|]. intros Hno. exfalso. apply Hno.
        by apply contains_occurs.
      * split; [|done]. intros Hocc%contains_occurs. congruence.
    + by apply IH.
Qed.

(** ** The prompts *)

(** A prompt loop whose rounds only look at the line and at the files: when
    it returns, the operator typed lines that were passed over and then the
    line that decided. *)
Lemma while_input_trace {A} msg (body : string → M (option A))
      (verdict : world → string → option A) :
  (∀ l, preserves stdin (body l)) →
  (∀ l, preserves files (body l)) →
  (∀ w w' l, files w = files w' → verdict w l = verdict w' l) →
  (∀ w l r w1, body l w = (Return r, w1) → r = verdict w l) →
  ∀ w a w',
    while_input msg body w = (Return a, w') →
    ∃ passed line,
      stdin w = (passed ++ line :: stdin w')%list
      ∧ Forall (λ l, verdict w l = None) passed
      ∧ verdict w line = Some a
      ∧ files w' = files w.
Proof.
  intros Hin Hfiles Hext Hbody w.
  remember (stdin w) as typed eqn:E. revert w E.
  induction typed as [|line rest IH]; intros w E a w' Hrun.
  - by rewrite while_input_eof in Hrun.
  - rewrite (while_input_step _ _ w line rest) in Hrun by done.
    set (w0 := set_stdin rest (set_stdout (stdout w ++ [msg]) w)) in Hrun.
    destruct (body line w0) as [[[x|]|e|c] w1] eqn:Hb; try discriminate Hrun.
    + injection Hrun as -> ->.
      exists [], line. simpl.
      rewrite (preserves_run stdin _ _ _ _ (Hin line) Hb).
      split; [done|]. split; [done|].
      split; [by rewrite (Hext w w0), <- (Hbody _ _ _ _ Hb)|].
      by rewrite (preserves_run files _ _ _ _ (Hfiles line) Hb).
    + assert (Hf1 : files w1 = files w).
      { by rewrite (preserves_run files _ _ _ _ (Hfiles line) Hb). }
      destruct (IH w1) with (a := a) (w' := w')
        as (passed & line' & Hsplit & Hpassed & Hline & Hf); [|done|].
      { by rewrite (preserves_run stdin _ _ _ _ (Hin line) Hb). }
      exists (line :: passed), line'.
      split; [simpl; by rewrite Hsplit|]. split; [|split].
      * constructor.
        -- by rewrite (Hext w w0), <- (Hbody _ _ _ _ Hb).
        -- eapply Forall_impl; [exact Hpassed|]. intros l Hl. simpl in Hl.
           by rewrite (Hext w w1).
      * by rewrite (Hext w w1).
      * congruence.
Qed.

(** X4. [getYesNoAnswer] reads lines until one is [y] or [n], in either
    case: it returns [True] for the first, [False] for the second, every
    line before it was neither, and the lines after it are left unread. *)
Theorem getYesNoAnswer_answer (msg : string) (w : world) (answer : bool)
        (w' : world) :
  getYesNoAnswer msg w = (Return answer, w') →
  ∃ passed line,
    stdin w = (passed ++ line :: stdin w')%list
    ∧ Forall (λ l, yesNo l = None) passed
    ∧ yesNo line = Some answer
    ∧ files w' = files w.
Proof.
  unfold getYesNoAnswer.
  apply (while_input_trace _ _ (λ _ l, yesNo l)).
  - intros l. preserves_auto.
  - intros l. preserves_auto.
  - done.
  - intros w0 l r w1. cbv zeta. unfold yesNo.
    repeat case_decide; unfold ret; by intros [= <- <-].
Qed.

Lemma getYesNoAnswer_answer_witness :
  let w := Demo.at_start ∅ ["maybe"; ""; "Y"; "n"] in
  ∃ w', getYesNoAnswer "Use this path? [y/n]: " w = (Return true, w')
        ∧ stdin w' = ["n"]
        ∧ ∃ passed line,
            stdin w = (passed ++ line :: stdin w')%list
            ∧ Forall (λ l, yesNo l = None) passed
            ∧ yesNo line = Some true.
Proof.
  intros w.
  destruct (getYesNoAnswer "Use this path? [y/n]: " w) as [[b|e|c] w'] eqn:Hrun;
    [|vm_compute in Hrun; discriminate Hrun..].
  destruct (getYesNoAnswer_answer _ w b w' Hrun)
    as (passed & line & Hsplit & Hpassed & Hline & _).
  vm_compute in Hrun. injection Hrun as <- <-.
  exists (World ∅ ["n"]
            (replicate 3 "Use this path? [y/n]: ")
            "2019-05-02 09:30:00.000000").
  split; [reflexivity|]. split; [reflexivity|].
  exists passed, line. eauto.
Defined.

(** X5. [getUserPath] returns the first line typed that passes the probe
    once its quotes are removed and it is normalised; what it returns is
    that cleaned line, not the line as typed, and every line before it
    failed the probe. *)
Theorem getUserPath_first_valid (host : Host) (pathName : string) (w : world)
        (path : string) (w' : world) :
  getUserPath host pathName w = (Return path, w') →
  ∃ passed line,
    stdin w = (passed ++ line :: stdin w')%list
    ∧ Forall (λ l, pathExists host w (Some (cleanedPath host l)) = false) passed
    ∧ path = cleanedPath host line
    ∧ pathExists host w' (Some path) = true
    ∧ files w' = files w.
Proof.
  intros Hrun. unfold getUserPath in Hrun.
  apply (while_input_trace _ _
           (λ w l, if pathExists host w (Some (cleanedPath host l))
                   then Some (cleanedPath host l) else None)) in Hrun.
  - destruct Hrun as (passed & line & Hsplit & Hpassed & Hline & Hf).
    exists passed, line. split; [done|]. split; [|split; [|split; [|done]]].
    + eapply Forall_impl; [exact Hpassed|]. intros l Hl. cbv beta in Hl.
      by destruct (pathExists host w (Some (cleanedPath host l))).
    + destruct (pathExists host w (Some (cleanedPath host line)));
        by simplify_eq.
    + destruct (pathExists host w (Some (cleanedPath host line))) eqn:E;
        simplify_eq. by rewrite (pathExists_files host w' w).
  - intros l. preserves_auto.
  - intros l. preserves_auto.
  - intros w0 w1 l Hf. by rewrite (pathExists_files host w0 w1).
  - intros w0 l r w1. cbv zeta. rewrite bind_gets.
    fold (cleanedPath host l).
    destruct (pathExists host w0 (Some (cleanedPath host l))).
    + unfold ret. by intros [= <- <-].
    + unfold bind, print, ret. by intros [= <- <-].
Qed.

Lemma getUserPath_first_valid_witness :
  let w := Demo.at_start ∅ ["/opt/nowhere/gcc"; "'/usr/bin/../bin/make'"; "x"] in
  ∃ w', getUserPath Demo.linux "make" w = (Return "/usr/bin/make", w')
        ∧ stdin w' = ["x"]
        ∧ pathExists Demo.linux w' (Some "/usr/bin/make") = true.
Proof.
  intros w.
  destruct (getUserPath Demo.linux "make" w) as [[p|e|c] w'] eqn:Hrun;
    [|vm_compute in Hrun; discriminate Hrun..].
  destruct (getUserPath_first_valid Demo.linux "make" w p w' Hrun)
    as (passed & line & _ & _ & _ & Hp & _).
  assert (p = "/usr/bin/make" ∧ stdin w' = ["x"]) as [-> Hin].
  { vm_compute in Hrun. by injection Hrun as <- <-. }
  exists w'. eauto.
Defined.

(** X6. [getStm32SvdFile] never hands back [ls], which it keeps for listing
    the folder: what it returns is a typed name, other than [ls], such that
    the folder joined with the name passes the probe; and it is the first
    such line. *)
Theorem getStm32SvdFile_names_a_file (host : Host) (stm32SvdPath : string)
        (w : world) (fileName : string) (w' : world) :
  getStm32SvdFile host stm32SvdPath w = (Return fileName, w') →
  fileName ≠ "ls"
  ∧ pathExists host w' (Some (stm32SvdPath ++ "/" ++ fileName)) = true
  ∧ ∃ passed,
      stdin w = (passed ++ fileName :: stdin w')%list
      ∧ Forall (λ l, l = "ls"
                     ∨ pathExists host w (Some (stm32SvdPath ++ "/" ++ l))
                       = false) passed.
Proof.
  intros Hrun. unfold getStm32SvdFile in Hrun.
  apply (while_input_trace _ _
           (λ w l, if decide (l = "ls") then None
                   else if pathExists host w (Some (stm32SvdPath ++ "/" ++ l))
                        then Some l else None)) in Hrun.
  - destruct Hrun as (passed & line & Hsplit & Hpassed & Hline & Hf).
    destruct (decide (line = "ls")); [done|].
    destruct (pathExists host w (Some (stm32SvdPath ++ "/" ++ line))) eqn:E;
      [|done].
    injection Hline as <-. split; [done|].
    split; [by rewrite (pathExists_files host w' w)|].
    exists passed. split; [done|].
    eapply Forall_impl; [exact Hpassed|]. intros l Hl. cbv beta in Hl.
    destruct (decide (l = "ls")); [by left|]. right.
    by destruct (pathExists host w (Some (stm32SvdPath ++ "/" ++ l))).
  - intros l. preserves_auto.
    unfold listdir. destruct (os_listdir host stm32SvdPath); preserves_auto.
  - intros l. preserves_auto. apply listdir_files.
  - intros w0 w1 l Hf. by rewrite (pathExists_files host w0 w1).
  - intros w0 l r w1. destruct (decide (l = "ls")) as [->|Hne].
    + intros (names & w2 & _ & Hr)%bind_returns.
      unfold bind, print, ret in Hr. by injection Hr as <- <-.
    + rewrite bind_gets.
      destruct (pathExists host w0 (Some (stm32SvdPath ++ "/" ++ l))).
      * unfold ret. by intros [= <- <-].
      * unfold bind, print, ret. by intros [= <- <-].
Qed.

Lemma getStm32SvdFile_names_a_file_witness :
  let w := Demo.at_start ∅ ["ls"; "STM32F0.svd"; "STM32F042x.svd"] in
  ∃ w', getStm32SvdFile Demo.linux "/ws/SVD" w = (Return "STM32F042x.svd", w')
        ∧ pathExists Demo.linux w' (Some "/ws/SVD/STM32F042x.svd") = true.
Proof.
  intros w.
  destruct (getStm32SvdFile Demo.linux "/ws/SVD" w) as [[f|e|c] w'] eqn:Hrun;
    [|vm_compute in Hrun; discriminate Hrun..].
  destruct (getStm32SvdFile_names_a_file Demo.linux "/ws/SVD" w f w' Hrun)
    as (_ & Hp & _).
  assert (f = "STM32F042x.svd") as ->.
  { vm_compute in Hrun. by injection Hrun as <- _. }
  exists w'. eauto.
Defined.

(** X7. [getPython3Path]: when the command for the detected system
    ([python3] on unix and wsl, [python] otherwise) passes the probe, it is
    returned and nothing is read or printed; and whatever the function
    returns passes the probe. *)
Theorem getPython3Path_found (host : Host) (w : world) :
  (∀ osIs, detectOS host w = (Return osIs, w) →
           pathExists host w (Some (pythonCommand osIs)) = true →
           getPython3Path host w = (Return (pythonCommand osIs), w))
  ∧ (∀ python w', getPython3Path host w = (Return python, w') →
                  pathExists host w' (Some python) = true
                  ∧ files w' = files w).
Proof.
  split.
  - intros osIs Hos Hp. unfold getPython3Path.
    rewrite (bind_step _ _ _ _ _ Hos). fold (pythonCommand osIs).
    by rewrite bind_gets, Hp.
  - intros python w' Hrun.
    split; [|by apply (preserves_run files _ _ _ _
                         (getPython3Path_files host) Hrun)].
    unfold getPython3Path in Hrun.
    apply bind_returns in Hrun as (osIs & w1 & Hos & Hrun).
    pose proof (detectOS_pure host w) as Hpure. rewrite Hos in Hpure.
    simpl in Hpure. subst w1. fold (pythonCommand osIs) in Hrun.
    rewrite bind_gets in Hrun.
    destruct (pathExists host w (Some (pythonCommand osIs))) eqn:E; simpl in Hrun.
    + unfold ret in Hrun. by injection Hrun as <- <-.
    + apply bind_returns in Hrun as ([] & w2 & _ & Hrun).
      by apply getUserPath_returns in Hrun.
Qed.

Lemma getPython3Path_found_witness :
  let w := Demo.at_start ∅ [] in
  getPython3Path Demo.linux w = (Return "python3", w)
  ∧ pathExists Demo.linux w (Some "python3") = true.
Proof.
  intros w.
  destruct (getPython3Path_found Demo.linux w) as [Hfound Hpasses].
  assert (Hrun : getPython3Path Demo.linux w = (Return "python3", w)).
  { apply (Hfound "unix"); vm_compute; reflexivity. }
  split; [exact Hrun|]. exact (proj1 (Hpasses "python3" w Hrun)).
Defined.

Lemma pathsOfFragments_exist (host : Host) w scripts args path :
  path ∈ pathsOfFragments host w scripts args →
  pathExists host w (Some path) = true.
Proof.
  unfold pathsOfFragments. intros (arg & -> & Harg)%list_elem_of_fmap.
  by apply list_elem_of_filter in Harg as [Hfile _].
Qed.

(** X8. Every path that [getOpenOcdConfig] returns passes the probe: the
    fragments that were let through as flags leave nothing in the result. *)
Theorem getOpenOcdConfig_paths_exist (host : Host) (openOcdPath : string)
        (w : world) (configPaths : list string) (w' : world) :
  getOpenOcdConfig host openOcdPath w = (Return configPaths, w') →
  Forall (λ path, pathExists host w' (Some path) = true) configPaths.
Proof.
  unfold getOpenOcdConfig.
  apply (while_input_returns _ _
           (λ cfg w', Forall (λ path, pathExists host w' (Some path) = true)
                             cfg)).
  intros line w0 cfg w1 Hbody.
  destruct (checkConfigArgs_spec host (openOcdScriptsPath host openOcdPath)
              (Str.split (pathWithForwardSlashes host line)) [] w0)
    as (w2 & Hrun & _ & Hf).
  rewrite Hrun in Hbody. injection Hbody as Hcfg <-.
  destruct (forallb _ _); [|done]. injection Hcfg as <-.
  apply Forall_forall. intros path Hin. simpl in Hin.
  rewrite (pathExists_files host w2 w0) by done.
  by eapply pathsOfFragments_exist.
Qed.

Lemma getOpenOcdConfig_paths_exist_witness :
  let w := Demo.at_start ∅ ["-f interface/stlink.cfg -d3"] in
  ∃ w', getOpenOcdConfig Demo.linux "/usr/bin/openocd" w
        = (Return ["/usr/share/openocd/scripts/interface/stlink.cfg"], w')
        ∧ pathExists Demo.linux w'
            (Some "/usr/share/openocd/scripts/interface/stlink.cfg") = true.
Proof.
  intros w.
  destruct (getOpenOcdConfig Demo.linux "/usr/bin/openocd" w)
    as [[cfg|e|c] w'] eqn:Hrun;
    [|vm_compute in Hrun; discriminate Hrun..].
  pose proof (getOpenOcdConfig_paths_exist Demo.linux "/usr/bin/openocd"
                w cfg w' Hrun) as Hall.
  assert (cfg = ["/usr/share/openocd/scripts/interface/stlink.cfg"]) as ->.
  { vm_compute in Hrun. by injection Hrun as <- _. }
  exists w'. split; [reflexivity|]. by apply Forall_cons in Hall as [? _].
Defined.

(** ** Repairing one path *)

Lemma getYesNoAnswer_first msg w line rest b :
  stdin w = line :: rest → yesNo line = Some b →
  getYesNoAnswer msg w
  = (Return b, set_stdin rest (set_stdout (stdout w ++ [msg]) w)).
Proof.
  intros E Hb. unfold getYesNoAnswer.
  rewrite (while_input_step _ _ w line rest); [|intros l; preserves_auto|done].
  cbv zeta. unfold yesNo in Hb.
  repeat case_decide; by simplify_eq.
Qed.

(** X9. Whatever [updatePath] returns passes the probe, on a host where
    what [shutil.which] finds exists; and when the default does not pass
    the probe no confirmation is asked: the call is [getUserPath]. *)
Theorem updatePath_result (host : Host) (Hwhich : which_sound host)
        (path pathName default : string) (w : world) :
  (∀ newPath w',
     updatePath host path pathName default w = (Return newPath, w') →
     pathExists host w' (Some newPath) = true ∧ files w' = files w)
  ∧ (pathExists host w (Some default) = false →
     updatePath host path pathName default w = getUserPath host pathName w).
Proof.
  split.
  - intros newPath w' Hrun. split; [by eapply updatePath_returns|].
    apply (preserves_run files _ _ _ _
             (updatePath_files host path pathName default) Hrun).
  - intros Hno. unfold updatePath. by rewrite bind_gets, Hno.
Qed.

Lemma updatePath_result_witness :
  let w := Demo.at_start ∅ ["n"; "/opt/gcc10/bin/arm-none-eabi-gcc"] in
  which_sound Demo.linux
  ∧ ∃ w', updatePath Demo.linux bStr.gccExePath "arm-none-eabi-gcc"
            "arm-none-eabi-gcc" w
          = (Return "/opt/gcc10/bin/arm-none-eabi-gcc", w')
          ∧ pathExists Demo.linux w' (Some "/opt/gcc10/bin/arm-none-eabi-gcc")
            = true.
Proof.
  intros w. split; [apply demo_which_sound|].
  destruct (updatePath Demo.linux bStr.gccExePath "arm-none-eabi-gcc"
              "arm-none-eabi-gcc" w) as [[p|e|c] w'] eqn:Hrun;
    [|vm_compute in Hrun; discriminate Hrun..].
  destruct (updatePath_result Demo.linux (demo_which_sound _ _ _)
              bStr.gccExePath "arm-none-eabi-gcc" "arm-none-eabi-gcc" w)
    as [Hpass _].
  destruct (Hpass p w' Hrun) as [Hp _].
  assert (p = "/opt/gcc10/bin/arm-none-eabi-gcc") as ->.
  { vm_compute in Hrun. by injection Hrun as <- _. }
  exists w'. eauto.
Defined.

(** X10. When the default passes the probe, [updatePath] asks once.  On
    [y] it returns the place where [shutil.which] finds the default, or the
    default itself if it is a path and not a command, and reads nothing
    more; on [n] it goes on as [getUserPath] with the lines that follow. *)
Theorem updatePath_default (host : Host) (path pathName dflt : string)
        (w : world) (line : string) (rest : list string) :
  pathExists host w (Some dflt) = true →
  stdin w = line :: rest →
  match yesNo line with
  | Some true =>
      ∃ w', updatePath host path pathName dflt w
            = (Return (default dflt (shutil_which host dflt)), w')
            ∧ stdin w' = rest ∧ files w' = files w
  | Some false =>
      ∃ w1, stdin w1 = rest ∧ files w1 = files w
            ∧ updatePath host path pathName dflt w
              = getUserPath host pathName w1
  | None => True
  end.
Proof.
  intros Hdef E. unfold updatePath. rewrite bind_gets, Hdef.
  destruct (yesNo line) as [[]|] eqn:Hline; [| |done].
  - rewrite (bind_step _ _ _ _ _ (getYesNoAnswer_first _ w line rest true E Hline)).
    eexists. split; [reflexivity|done].
  - rewrite (bind_step _ _ _ _ _ (getYesNoAnswer_first _ w line rest false E Hline)).
    eexists. split; [|split; [|reflexivity]]; reflexivity.
Qed.

Lemma updatePath_default_witness :
  let w := Demo.at_start ∅ ["Y"; "unread"] in
  pathExists Demo.linux w (Some "make") = true
  ∧ ∃ w', updatePath Demo.linux bStr.buildToolsPath "make" "make" w
          = (Return "/usr/bin/make", w')
          ∧ stdin w' = ["unread"].
Proof.
  intros w.
  assert (Hdef : pathExists Demo.linux w (Some "make") = true)
    by (vm_compute; reflexivity).
  split; [exact Hdef|].
  pose proof (updatePath_default Demo.linux bStr.buildToolsPath "make" "make"
                w "Y" ["unread"] Hdef eq_refl) as Hthm.
  change (yesNo "Y") with (Some true) in Hthm.
  destruct Hthm as (w' & Hrun & Hin & _). by exists w'.
Defined.

(** ** What [verifyExistingPaths] leaves in the descriptor *)

Lemma getPython3Path_passes (host : Host) w python w' :
  getPython3Path host w = (Return python, w') →
  pathExists host w' (Some python) = true.
Proof.
  intros Hrun. unfold getPython3Path in Hrun.
  apply bind_returns in Hrun as (osIs & w1 & Hos & Hrun).
  pose proof (detectOS_pure host w) as Hpure. rewrite Hos in Hpure.
  simpl in Hpure. subst w1. rewrite bind_gets in Hrun.
  destruct (pathExists host w _) eqn:E; simpl in Hrun.
  - unfold ret in Hrun. by injection Hrun as <- <-.
  - apply bind_returns in Hrun as ([] & w2 & _ & Hrun).
    by apply getUserPath_returns in Hrun.
Qed.

Lemma verifyTool_python (host : Host) request bd tool w bd' w' :
  verifyTool host request bd tool w = (Return bd', w') →
  passesProbe host w' bd' bStr.pythonPath.
Proof.
  unfold verifyTool. intros H.
  apply bind_returns in H as ([bd1 u] & w1 & _ & H).
  apply bind_returns in H as (bd2 & w2 & _ & H).
  apply bind_returns in H as (python & w3 & Hpy & H).
  unfold ret in H. injection H as <- <-.
  exists python. rewrite dict_get_set_eq. split; [done|].
  by eapply getPython3Path_passes.
Qed.

Lemma verifyTools_python (host : Host) request tools :
  tools ≠ [] →
  ∀ bd w bd' w',
    verifyTools host request tools bd w = (Return bd', w') →
    passesProbe host w' bd' bStr.pythonPath.
Proof.
  induction tools as [|t tools IH]; [done|]. intros _ bd w bd' w' Hrun.
  simpl in Hrun. apply bind_returns in Hrun as (bd1 & w1 & Hround & Hrun).
  destruct tools as [|t' tools].
  - unfold verifyTools, ret in Hrun. injection Hrun as <- <-.
    by eapply verifyTool_python.
  - by eapply IH.
Qed.

(** X11. When [verifyExistingPaths] returns, the descriptor names a Python
    interpreter under [pythonPath] and that path passes the probe, whatever
    the descriptor held there before and whether or not an update was
    requested; no document has been written. *)
Theorem verifyExistingPaths_python (host : Host) (g : Workspace)
        (buildData : pydict) (request : bool) (w : world)
        (buildData' : pydict) (w' : world) :
  verifyExistingPaths host g buildData request w = (Return buildData', w') →
  passesProbe host w' buildData' bStr.pythonPath ∧ files w' = files w.
Proof.
  intros Hrun. split.
  - unfold verifyExistingPaths in Hrun.
    by eapply verifyTools_python; [|exact Hrun].
  - apply (preserves_run files _ _ _ _
             (verifyExistingPaths_files host g buildData request) Hrun).
Qed.

Lemma verifyExistingPaths_python_witness :
  let w := Demo.at_start ∅ ["y"] in
  let buildData :=
    dict_set Demo.stale_descriptor bStr.pythonPath (VStr "/opt/python2") in
  ¬ passesProbe Demo.linux w buildData bStr.pythonPath
  ∧ ∃ buildData' w',
      verifyExistingPaths Demo.linux Demo.ws buildData false w
      = (Return buildData', w')
      ∧ dict_get buildData' bStr.pythonPath = Some (VStr "python3")
      ∧ passesProbe Demo.linux w' buildData' bStr.pythonPath.
Proof.
  intros w buildData. split.
  { intros (p & Hget & Hp). vm_compute in Hget. injection Hget as <-.
    vm_compute in Hp. discriminate Hp. }
  destruct (verifyExistingPaths Demo.linux Demo.ws buildData false w)
    as [[bd'|e|c] w'] eqn:Hrun;
    [|vm_compute in Hrun; discriminate Hrun..].
  exists bd', w'. split; [reflexivity|].
  split; [vm_compute in Hrun; by injection Hrun as <- <-|].
  exact (proj1 (verifyExistingPaths_python Demo.linux Demo.ws
                  buildData false w bd' w' Hrun)).
Defined.







(** ** The two documents on the disk *)

(** X13. [checkBuildDataFile] never raises.  When it returns, the
    descriptor is there and [getBuildData] reads it: it is the document
    that was there before, with no file written, or, when there was none
    that could be read, the template.  Otherwise the run ends in
    [sys.exit(1)] with no file written. *)
Theorem checkBuildDataFile_ensures (host : Host) (g : Workspace) (w : world) :
  match checkBuildDataFile host g w with
  | (Return _, w') =>
      ∃ D, getBuildData g w' = (Return D, w')
           ∧ match files w !! buildDataPath g with
             | Some (Doc D0) => D = D0 ∧ files w' = files w
             | _ => D = buildDataTemplate host
                    ∧ files w' = <[buildDataPath g := Doc D]> (files w)
             end
  | (Exit c, w') => c = 1%Z ∧ files w' = files w
  | (Raise _, _) => False
  end.
Proof.
  assert (Hcreate : ∀ w0 : world,
             files w0 = files w →
             match files w !! buildDataPath g with
             | Some (Doc _) => False | _ => True end →
             match createBuildDataFile host g w0 with
             | (Return _, w') =>
                 ∃ D, getBuildData g w' = (Return D, w')
                      ∧ D = buildDataTemplate host
                      ∧ files w' = <[buildDataPath g := Doc D]> (files w)
             | (Exit c, w') => c = 1%Z ∧ files w' = files w
             | (Raise _, _) => False
             end).
  { intros w0 Hf Hslot.
    unfold createBuildDataFile, try_except, bind, json_dump_file.
    cbv beta zeta. rewrite Hf.
    destruct (files w !! buildDataPath g) as [[| |D0]|] eqn:E; [|..|done| ];
      simpl; try done;
      (destruct (can_write host (buildDataPath g)); simpl; [|done];
       eexists; split; [|split; reflexivity];
       unfold getBuildData, json_load_file; simpl;
       by rewrite lookup_insert_eq). }
  unfold checkBuildDataFile. rewrite bind_gets.
  destruct (pathExists host w (Some (buildDataPath g))) eqn:Hthere.
  - unfold try_except, bind at 1, json_load_file.
    destruct (files w !! buildDataPath g) as [[| |D0]|] eqn:E.
    + unfold bind at 1, print at 1. cbv beta iota.
      match goal with
      | |- context [createBuildDataFile host g ?w0] =>
          exact (Hcreate w0 eq_refl I)
      end.
    + unfold bind at 1, print at 1. cbv beta iota.
      match goal with
      | |- context [createBuildDataFile host g ?w0] =>
          exact (Hcreate w0 eq_refl I)
      end.
    + simpl. exists D0. split; [|done].
      unfold getBuildData, json_load_file. simpl. by rewrite E.
    + unfold bind at 1, print at 1. cbv beta iota.
      match goal with
      | |- context [createBuildDataFile host g ?w0] =>
          exact (Hcreate w0 eq_refl I)
      end.
  - specialize (Hcreate w eq_refl).
    destruct (files w !! buildDataPath g) as [[| |D0]|] eqn:E;
      [by apply Hcreate..| |by apply Hcreate].
    by rewrite (file_exists host _ _ _ E) in Hthere.
Qed.

(** X14. [overwriteBuildDataFile] never raises and never creates the
    descriptor.  When it returns, a descriptor was there already, the
    dictionary it was given now carries [VERSION] and [LAST_RUN] and is
    unchanged under every other key, [getBuildData] reads that same
    dictionary back, and no other file has been written.  Otherwise the run
    ends in [sys.exit(1)] and no file has been written. *)
Theorem overwriteBuildDataFile_round_trip (host : Host) (g : Workspace)
        (data : pydict) (w : world) :
  match overwriteBuildDataFile host g data w with
  | (Return d, w') =>
      d = stamped data (clock w)
      ∧ getBuildData g w' = (Return d, w')
      ∧ (∀ p, p ≠ buildDataPath g → files w' !! p = files w !! p)
      ∧ is_Some (files w !! buildDataPath g)
      ∧ dict_get d "VERSION" = Some (VStr version)
      ∧ dict_get d "LAST_RUN" = Some (VStr (clock w))
      ∧ ∀ k, k ≠ "VERSION" → k ≠ "LAST_RUN" → dict_get d k = dict_get data k
  | (Exit c, w') => c = 1%Z ∧ files w' = files w
  | (Raise _, _) => False
  end.
Proof.
  unfold overwriteBuildDataFile, try_except, bind at 1, open_update.
  destruct (files w !! buildDataPath g) as [[| |D]|] eqn:E; [done| | |done];
    (destruct (can_write host (buildDataPath g)) eqn:Hw; [|done];
     rewrite bind_gets; unfold bind at 1, json_dump_file;
     rewrite E, Hw; simpl; fold (stamped data (clock w));
     split; [done|]; split;
     [unfold getBuildData, json_load_file; simpl; by rewrite lookup_insert_eq|];
     split; [intros p Hp; by apply lookup_insert_ne|];
     split; [done|]; unfold stamped;
     split; [by rewrite dict_get_set_ne, dict_get_set_eq|];
     split; [by rewrite dict_get_set_eq|];
     intros k Hv Hl; by rewrite !dict_get_set_ne).
Qed.

Lemma dict_set_keys (d : pydict) k v :
  k ∉ map fst d → map fst (dict_set d k v) = (map fst d ++ [k])%list.
Proof.
  induction d as [|[k0 v0] d IH]; simpl; [done|].
  intros [Hne Hk]%not_elem_of_cons.
  rewrite decide_False by done. simpl. by rewrite IH.
Qed.

Lemma overlay_keys keys :
  NoDup keys →
  ∀ src dst d,
    (∀ k, k ∈ keys → k ∉ map fst dst) →
    overlay keys src dst = Some d →
    map fst d = (map fst dst ++ keys)%list.
Proof.
  induction 1 as [|k keys Hk Hnd IH]; intros src dst d Hfresh Hov.
  - simpl in Hov. injection Hov as <-. by rewrite app_nil_r.
  - simpl in Hov. destruct (dict_get src k) as [v|]; [|discriminate Hov].
    rewrite (IH src (dict_set dst k v) d); [| |done].
    + rewrite dict_set_keys by (apply Hfresh; by left).
      by rewrite <- app_assoc.
    + intros k' Hk'. rewrite dict_set_keys by (apply Hfresh; by left).
      apply not_elem_of_app. split; [apply Hfresh; by right|].
      intros ->%list_elem_of_singleton. done.
Qed.

Lemma overlay_defined keys (src dst : pydict) :
  (∀ k, k ∈ keys → is_Some (dict_get src k)) →
  is_Some (overlay keys src dst).
Proof.
  revert dst. induction keys as [|k keys IH]; intros dst Hall; simpl; [done|].
  destruct (Hall k) as [v ->]; [by left|].
  apply IH. intros k' Hk'. apply Hall. by right.
Qed.

(** X15. [createUserToolsFile] always returns: a field missing from the
    descriptor or a cache that cannot be written gives a warning, not an
    error.  It writes no file but the cache; and when it writes the cache,
    the document holds the two [ABOUT] notes and then the eight tool fields
    in their order, each with the descriptor's value, and nothing else of
    the descriptor. *)
Theorem createUserToolsFile_writes (host : Host) (g : Workspace)
        (buildData : pydict) (w : world) :
  ∃ w',
    createUserToolsFile host g buildData w = (Return tt, w')
    ∧ (∀ p, p ≠ toolsPaths g → files w' !! p = files w !! p)
    ∧ (files w' !! toolsPaths g = files w !! toolsPaths g
       ∨ ∃ c, files w' !! toolsPaths g = Some (Doc c)
              ∧ map fst c = "ABOUT1" :: "ABOUT2" :: toolFields
              ∧ ∀ k, k ∈ toolFields → dict_get c k = dict_get buildData k).
Proof.
  destruct (createUserToolsFile_spec host g buildData w)
    as (w' & Hrun & Hslot & Hrest & _).
  exists w'. split; [done|]. split; [done|].
  rewrite Hslot. unfold afterSave.
  destruct (cacheOf buildData) as [c|] eqn:Hc; [|by left].
  assert (Hdoc : map fst c = "ABOUT1" :: "ABOUT2" :: toolFields
                 ∧ ∀ k, k ∈ toolFields → dict_get c k = dict_get buildData k).
  { unfold cacheOf in Hc. split.
    - rewrite (overlay_keys toolFields) with (3 := Hc); [done| |].
      + apply (bool_decide_unpack _). vm_compute. exact I.
      + intros k Hk. unfold toolFields in Hk.
        repeat (apply elem_of_cons in Hk as [->|Hk]);
          [..|by apply elem_of_nil in Hk]; not_in_concrete_list.
    - intros k Hk. rewrite (overlay_get _ _ _ _ k Hc).
      by rewrite bool_decide_eq_true_2. }
  destruct (files w !! toolsPaths g) as [[| |C]|]; [by left|..];
    (destruct (can_write host (toolsPaths g)); [right; by exists c|by left]).
Qed.

(** X16. What [createUserToolsFile] saves, [addToolsPathsData] brings back:
    if the descriptor holds the eight tool fields and the cache can be
    written, then after the save [addToolsPathsData] lays over any other
    descriptor the eight fields as they were saved and leaves the other
    keys of that descriptor as they are. *)
Theorem cache_round_trip (host : Host) (g : Workspace)
        (buildData other : pydict) (w : world) :
  (∀ k, k ∈ toolFields → is_Some (dict_get buildData k)) →
  can_write host (toolsPaths g) = true →
  files w !! toolsPaths g ≠ Some Folder →
  ∃ w1 d,
    createUserToolsFile host g buildData w = (Return tt, w1)
    ∧ addToolsPathsData g other w1 = (Return d, w1)
    ∧ (∀ k, k ∈ toolFields → dict_get d k = dict_get buildData k)
    ∧ (∀ k, k ∉ toolFields → dict_get d k = dict_get other k).
Proof.
  intros Hall Hw Hslot.
  destruct (createUserToolsFile_spec host g buildData w)
    as (w1 & Hrun & Hsaved & _).
  destruct (overlay_defined toolFields buildData
              [("ABOUT1", VStr "Common tools paths that are automatically filled in buildData.json.");
               ("ABOUT2", VStr "Delete/correct this file if paths change on system.")]
              Hall) as [c Hc].
  assert (Hdoc : files w1 !! toolsPaths g = Some (Doc c)).
  { rewrite Hsaved. unfold afterSave, cacheOf. rewrite Hc, Hw.
    by destruct (files w !! toolsPaths g) as [[| |C]|]. }
  assert (Hc' : ∀ k, k ∈ toolFields → dict_get c k = dict_get buildData k).
  { intros k Hk. rewrite (overlay_get _ _ _ _ k Hc).
    by rewrite bool_decide_eq_true_2. }
  destruct (overlay_defined toolFields c other) as [d Hd].
  { intros k Hk. rewrite Hc' by done. by apply Hall. }
  exists w1, d. split; [done|]. split.
  - unfold addToolsPathsData.
    rewrite (bind_step _ _ _ _ _ (getToolsPathsData_doc g w1 c Hdoc)).
    by apply copyFields_returns.
  - split; intros k Hk; rewrite (overlay_get _ _ _ _ k Hd).
    + rewrite bool_decide_eq_true_2 by done. by apply Hc'.
    + by rewrite bool_decide_eq_false_2.
Qed.

Lemma cache_round_trip_witness :
  let w := Demo.at_start ∅ [] in
  let other := dict_set Demo.stale_descriptor "cSources" (VList ["main.c"]) in
  (∀ k, k ∈ toolFields → is_Some (dict_get Demo.descriptor k))
  ∧ ∃ w1 d,
      createUserToolsFile Demo.linux Demo.ws Demo.descriptor w = (Return tt, w1)
      ∧ addToolsPathsData Demo.ws other w1 = (Return d, w1)
      ∧ dict_get d bStr.gccExePath
        = Some (VStr "/opt/gcc10/bin/arm-none-eabi-gcc")
      ∧ dict_get d "cSources" = Some (VList ["main.c"]).
Proof.
  intros w other.
  assert (Hall : ∀ k, k ∈ toolFields → is_Some (dict_get Demo.descriptor k)).
  { intros k Hk. unfold toolFields in Hk.
    repeat (apply elem_of_cons in Hk as [->|Hk]);
      [..|by apply elem_of_nil in Hk]; by eexists. }
  split; [exact Hall|].
  destruct (cache_round_trip Demo.linux Demo.ws Demo.descriptor other w Hall
              eq_refl) as (w1 & d & Hsave & Hload & Hfields & Hrest).
  { vm_compute. discriminate. }
  exists w1, d. split; [exact Hsave|]. split; [exact Hload|]. split.
  - rewrite Hfields; [reflexivity|]. by left.
  - rewrite Hrest; [reflexivity|]. not_in_concrete_list.
Defined.

Lemma copyFields_missing keys (src dst : pydict) w :
  overlay keys src dst = None →
  ∃ k, k ∈ keys ∧ dict_get src k = None
       ∧ copyFields keys src dst w = (Raise (KeyError k), w).
Proof.
  revert dst. induction keys as [|k keys IH]; intros dst Hov; [done|].
  simpl in Hov |- *. unfold bind, dict_item.
  destruct (dict_get src k) as [v|] eqn:Hget.
  - destruct (IH _ Hov) as (k' & Hin & Hnone & Hrun).
    exists k'. split; [by right|]. done.
  - exists k. split; [by left|]. done.
Qed.

Lemma overlay_missing keys (src dst : pydict) k :
  k ∈ keys → dict_get src k = None → overlay keys src dst = None.
Proof.
  intros Hin Hnone.
  destruct (overlay keys src dst) as [d|] eqn:Hov; [|done].
  destruct (overlay_keys_present _ _ _ _ k Hov Hin) as [v Hv]. congruence.
Qed.

Lemma checkBuildDataFile_outcome (host : Host) (g : Workspace) (w : world) :
  match checkBuildDataFile host g w with
  | (Return _, w') =>
      stdin w' = stdin w
      ∧ (∃ D, files w' !! buildDataPath g = Some (Doc D))
      ∧ (∀ p, p ≠ buildDataPath g → files w' !! p = files w !! p)
      ∧ (∀ D0, files w !! buildDataPath g = Some (Doc D0) →
               files w' = files w)
  | (Exit c, w') => c = 1%Z ∧ files w' = files w ∧ stdin w' = stdin w
  | (Raise _, _) => False
  end.
Proof.
  assert (Hcreate : ∀ w0 : world,
             files w0 = files w → stdin w0 = stdin w →
             match files w !! buildDataPath g with
             | Some (Doc _) => False | _ => True end →
             match createBuildDataFile host g w0 with
             | (Return _, w') =>
                 stdin w' = stdin w
                 ∧ (∃ D, files w' !! buildDataPath g = Some (Doc D))
                 ∧ (∀ p, p ≠ buildDataPath g →
                         files w' !! p = files w !! p)
                 ∧ (∀ D0, files w !! buildDataPath g = Some (Doc D0) →
                          files w' = files w)
             | (Exit c, w') =>
                 c = 1%Z ∧ files w' = files w ∧ stdin w' = stdin w
             | (Raise _, _) => False
             end).
  { intros w0 Hf Hi Hslot.
    unfold createBuildDataFile, try_except, bind, json_dump_file.
    cbv beta zeta. rewrite Hf.
    destruct (files w !! buildDataPath g) as [[| |D0]|] eqn:E; [|..|done| ];
      simpl; try done;
      (destruct (can_write host (buildDataPath g)); simpl; [|done];
       split; [done|]; split; [by rewrite lookup_insert_eq; eexists|];
       split; [intros p Hp; by rewrite lookup_insert_ne|];
       intros D1 HD1; discriminate HD1). }
  unfold checkBuildDataFile. rewrite bind_gets.
  destruct (pathExists host w (Some (buildDataPath g))) eqn:Hthere.
  - unfold try_except, bind at 1, json_load_file.
    destruct (files w !! buildDataPath g) as [[| |D0]|] eqn:E.
    + unfold bind at 1, print at 1. cbv beta iota.
      match goal with
      | |- context [createBuildDataFile host g ?w0] =>
          exact (Hcreate w0 eq_refl eq_refl I)
      end.
    + unfold bind at 1, print at 1. cbv beta iota.
      match goal with
      | |- context [createBuildDataFile host g ?w0] =>
          exact (Hcreate w0 eq_refl eq_refl I)
      end.
    + simpl. split; [done|]. split; [by exists D0|]. done.
    + unfold bind at 1, print at 1. cbv beta iota.
      match goal with
      | |- context [createBuildDataFile host g ?w0] =>
          exact (Hcreate w0 eq_refl eq_refl I)
      end.
  - specialize (Hcreate w eq_refl eq_refl).
    destruct (files w !! buildDataPath g) as [[| |D0]|] eqn:E;
      [by apply Hcreate..| |by apply Hcreate].
    by rewrite (file_exists host _ _ _ E) in Hthere.
Qed.

(** X17. A cache that is a readable document but lacks one of the eight
    tool fields stops [prepareBuildData], whatever the state of the
    descriptor: the run never returns.  It ends in the [KeyError] of
    [addToolsPathsData] for a missing field, which nothing catches, before
    anything is asked; by then no file has been written but, where the
    descriptor could not be read, the template of the descriptor, and
    nothing at all where the descriptor was a readable document.  Or, where
    that template could not be written, it ends in [sys.exit(1)] with
    nothing written. *)
Theorem prepareBuildData_incomplete_cache (host : Host) (g : Workspace)
        (w : world) (C : pydict) (k : string) :
  files w !! toolsPaths g = Some (Doc C) →
  k ∈ toolFields → dict_get C k = None →
  match prepareBuildData host g w with
  | (Raise e, w') =>
      (∃ k', e = KeyError k' ∧ k' ∈ toolFields ∧ dict_get C k' = None)
      ∧ stdin w' = stdin w
      ∧ (∀ p, p ≠ buildDataPath g → files w' !! p = files w !! p)
      ∧ (∀ D, files w !! buildDataPath g = Some (Doc D) → files w' = files w)
  | (Exit c, w') => c = 1%Z ∧ files w' = files w ∧ stdin w' = stdin w
  | (Return _, _) => False
  end.
Proof.
  intros HC Hk Hnone. unfold prepareBuildData.
  pose proof (checkBuildDataFile_outcome host g w) as Hcheck.
  destruct (checkBuildDataFile host g w) as [[[]|e|c] w1] eqn:Hrun1;
    [|done|by rewrite (bind_exits _ _ _ _ _ Hrun1)].
  destruct Hcheck as (Hi1 & [D HD1] & Hframe1 & Hsame1).
  rewrite (bind_step _ _ _ _ _ Hrun1).
  rewrite (bind_step _ _ _ _ _ (getBuildData_doc g w1 D HD1)).
  assert (HC1 : files w1 !! toolsPaths g = Some (Doc C)).
  { destruct (decide (toolsPaths g = buildDataPath g)) as [Heq|Hne].
    - rewrite Heq in HC. by rewrite (Hsame1 C HC), Heq.
    - by rewrite Hframe1. }
  destruct (checkToolsPathFile_spec host g w1)
    as (w2 & Hcache & Hslot & Hrest & Hi2 & _).
  rewrite HC1 in Hcache, Hslot. simpl in Hslot.
  rewrite (bind_step _ _ _ _ _ Hcache).
  assert (Hf2 : files w2 = files w1).
  { apply (files_agree g); [by rewrite HC1|done]. }
  destruct (copyFields_missing toolFields C D w2
              (overlay_missing _ _ _ k Hk Hnone)) as (k' & Hin & Hk' & Hrun).
  erewrite bind_raises; cycle 1.
  { unfold addToolsPathsData.
    rewrite (bind_step _ _ _ _ _ (getToolsPathsData_doc g w2 C Hslot)).
    exact Hrun. }
  split; [by exists k'|]. split; [by rewrite Hi2|].
  rewrite Hf2. split; [done|]. exact Hsame1.
Qed.

Lemma prepareBuildData_incomplete_cache_witness :
  let cache := [(bStr.gccExePath, VStr "/opt/gcc/bin/arm-none-eabi-gcc")] in
  let w := Demo.at_start {[ toolsPaths Demo.ws := Doc cache ]} ["y"] in
  ∃ w',
    prepareBuildData Demo.linux Demo.ws w
    = (Raise (KeyError bStr.gccInludePath), w')
    ∧ stdin w' = ["y"]
    ∧ files w' !! toolsPaths Demo.ws = Some (Doc cache)
    ∧ files w' !! buildDataPath Demo.ws = Some (Doc Demo.template).
Proof.
  intros cache w.
  pose proof (prepareBuildData_incomplete_cache Demo.linux Demo.ws w
                cache bStr.gccInludePath eq_refl) as Hthm.
  destruct (prepareBuildData Demo.linux Demo.ws w) as [[d|e|c] w'] eqn:Hrun;
    [vm_compute in Hrun; discriminate Hrun| |vm_compute in Hrun; discriminate Hrun].
  destruct Hthm as (_ & Hi & Hframe & _); [by right; left|reflexivity|].
  assert (He : e = KeyError bStr.gccInludePath
               ∧ files w' !! buildDataPath Demo.ws = Some (Doc Demo.template)).
  { vm_compute in Hrun. by injection Hrun as <- <-. }
  destruct He as [-> Hdoc].
  exists w'. split; [reflexivity|]. split; [exact Hi|].
  split; [|exact Hdoc]. by rewrite Hframe.
Defined.

(** ** The facts taken over from the Makefile *)

Lemma takeFields_spec keys (src : pydict) :
  ∀ dst w,
    match takeFields keys src dst w with
    | (Return d, w') =>
        w' = w
        ∧ (∀ k, k ∉ map fst keys → dict_get d k = dict_get dst k)
        ∧ (NoDup (map fst keys) →
           ∀ kd ks, (kd, ks) ∈ keys →
                    dict_get d kd = dict_get src ks
                    ∧ is_Some (dict_get src ks))
    | (Raise e, w') => w' = w ∧ ∃ k, e = KeyError k ∧ dict_get src k = None
    | (Exit _, _) => False
    end.
Proof.
  induction keys as [|[kd ks] keys IH]; intros dst w.
  - simpl. unfold ret. split; [done|]. split; [done|].
    intros _ kd ks H. by apply elem_of_nil in H.
  - cbn [takeFields]. unfold bind at 1, dict_item.
    destruct (dict_get src ks) as [v|] eqn:Hs;
      [|unfold raise; split; [done|]; by exists ks].
    unfold ret at 1. specialize (IH (dict_set dst kd v) w).
    destruct (takeFields keys src (dict_set dst kd v) w) as [[d|e|c] w'];
      [|done..].
    destruct IH as (-> & Hframe & Hverb). split; [done|]. split.
    + intros k Hk. cbn [map fst] in Hk.
      apply not_elem_of_cons in Hk as [Hne Hk].
      rewrite Hframe by done. by rewrite dict_get_set_ne.
    + intros Hnd kd' ks' Hin. cbn [map fst] in Hnd.
      apply NoDup_cons in Hnd as [Hfresh Hnd].
      apply elem_of_cons in Hin as [Heq|Hin].
      * injection Heq as -> ->. rewrite Hframe by done.
        rewrite dict_get_set_eq. by rewrite Hs.
      * by apply Hverb.
Qed.

(** X18. [addMakefileDataToBuildDataFile] reads no input, writes no file and
    never exits.  When it returns, each of the nine fields that it takes
    over holds what the Makefile data holds under the corresponding key,
    and every key of the descriptor other than these nine and
    [targetExecutablePath] is as it was.  When it raises, the exception is a
    [KeyError] for a key that the Makefile data lacks, or a [TypeError]. *)
Theorem addMakefileData_fields (host : Host) (g : Workspace)
        (buildData makefileData : pydict) (w : world) :
  match addMakefileDataToBuildDataFile host g buildData makefileData w with
  | (Return d, w') =>
      w' = w
      ∧ (∀ kd ks, (kd, ks) ∈ makefileFields host →
                  dict_get d kd = dict_get makefileData ks
                  ∧ is_Some (dict_get makefileData ks))
      ∧ (∀ k, k ∉ map fst (makefileFields host) →
              k ≠ bStr.targetExecutablePath →
              dict_get d k = dict_get buildData k)
  | (Raise e, w') =>
      w' = w
      ∧ (e = TypeError
         ∨ ∃ k, e = KeyError k ∧ dict_get makefileData k = None)
  | (Exit _, _) => False
  end.
Proof.
  unfold addMakefileDataToBuildDataFile. unfold bind at 1.
  pose proof (takeFields_spec (makefileFields host) makefileData buildData w)
    as Htake.
  destruct (takeFields (makefileFields host) makefileData buildData w)
    as [[d|e|c] w1];
    [|destruct Htake as (-> & k & -> & Hk); split; [done|right; by exists k]
     |done].
  destruct Htake as (-> & Hframe & Hverb).
  assert (Hnd : NoDup (map fst (makefileFields host))).
  { apply (bool_decide_unpack _). vm_compute. exact I. }
  assert (Htarget : bStr.targetExecutablePath ∉ map fst (makefileFields host)).
  { not_in_concrete_list. }
  unfold bind at 1, dict_item.
  destruct (dict_get makefileData (mkf_buildDir (mkfStr host))) as [v|] eqn:Hb;
    [|unfold raise; split; [done|]; right; by eexists].
  unfold ret at 1, bind at 1.
  destruct (dict_get makefileData (mkf_projectName (mkfStr host)))
    as [v'|] eqn:Hn;
    [|unfold raise; split; [done|]; right; by eexists].
  unfold ret at 1, bind at 1.
  destruct v' as [|projectName|l]; [by split; [|left]| |by split; [|left]].
  unfold as_str at 1, ret at 1, bind at 1.
  destruct v as [|buildDirPath|l]; [by split; [|left]| |by split; [|left]].
  unfold as_str, ret. split; [done|]. split.
  - intros kd ks Hin. destruct (Hverb Hnd kd ks Hin) as [Hget Hsome].
    split; [|done]. rewrite dict_get_set_ne; [done|].
    intros Heq. apply Htarget. apply list_elem_of_fmap. by exists (kd, ks).
  - intros k Hk Hne. rewrite dict_get_set_ne by done. by apply Hframe.
Qed.

(** ** A whole run of [updatePaths.py] *)

Lemma verifyExistingPaths_all_pass (host : Host) (g : Workspace)
      (Hwhich : which_sound host) buildData request w buildData' w' tool :
  verifyExistingPaths host g buildData request w = (Return buildData', w') →
  tool ∈ toolsList g →
  passesProbe host w' buildData' (toolKey tool).
Proof.
  intros Hrun Hin. unfold verifyExistingPaths in Hrun.
  apply (verifyTools_valid host Hwhich request (toolKey tool) (toolsList g))
    with (bd := buildData) (w := w); [| | |done|by eauto].
  - unfold toolsList in Hin |- *. intros t Ht.
    repeat (apply elem_of_cons in Hin as [->|Hin]);
      [..|by apply elem_of_nil in Hin];
      (repeat (apply elem_of_cons in Ht as [->|Ht]);
       [..|by apply elem_of_nil in Ht]);
      first [left; reflexivity | right; not_in_concrete_list].
  - tools_cases Hin; by vm_compute.
  - tools_cases Hin; by vm_compute.
Qed.

Lemma pathExists_mono (host : Host) w w' p :
  (∀ q, is_Some (files w !! q) → is_Some (files w' !! q)) →
  pathExists host w p = true → pathExists host w' p = true.
Proof.
  intros Hmono. destruct p as [p|]; [|done]. simpl. unfold os_path_exists.
  destruct (bool_decide (is_Some (files w !! p))) eqn:E.
  - apply bool_decide_eq_true in E. apply Hmono in E.
    by rewrite (bool_decide_eq_true_2 _ E).
  - simpl. intros H. destruct (bool_decide (is_Some (files w' !! p))); [done|].
    done.
Qed.

Lemma overwriteBuildDataFile_returns (host : Host) (g : Workspace) data w d w' :
  overwriteBuildDataFile host g data w = (Return d, w') →
  d = stamped data (clock w)
  ∧ files w' = <[buildDataPath g := Doc d]> (files w).
Proof.
  unfold overwriteBuildDataFile, try_except, bind at 1, open_update.
  destruct (files w !! buildDataPath g) as [[| |D]|] eqn:E;
    [done| | |done];
    (destruct (can_write host (buildDataPath g)) eqn:Hw; [|done];
     rewrite bind_gets; unfold bind at 1, json_dump_file;
     rewrite E, Hw; simpl; fold (stamped data (clock w));
     by intros [= <- <-]).
Qed.

(** X19. A run of [updatePaths.py] that comes to its end leaves a
    descriptor on the disk in which every tool of the list and the Python
    interpreter are stored with a path that passes the probe, and which
    carries the version of the scripts; this on a host where what
    [shutil.which] finds exists and where the descriptor and the cache are
    two files. *)
Theorem updatePaths_run_result (host : Host) (g : Workspace)
        (Hwhich : which_sound host) (w w' : world) :
  buildDataPath g ≠ toolsPaths g →
  updatePaths_run host g w = (Return tt, w') →
  ∃ d, files w' !! buildDataPath g = Some (Doc d)
       ∧ (∀ tool, tool ∈ toolsList g →
                  passesProbe host w' d (toolKey tool))
       ∧ passesProbe host w' d bStr.pythonPath
       ∧ dict_get d "VERSION" = Some (VStr version).
Proof.
  intros Hapart Hrun. unfold updatePaths_run in Hrun.
  apply bind_returns in Hrun as (bd1 & w1 & _ & Hrun).
  apply bind_returns in Hrun as (bd2 & w2 & Hverify & Hrun).
  apply bind_returns in Hrun as (bd3 & w3 & Hwrite & Hsave).
  apply overwriteBuildDataFile_returns in Hwrite as [-> Hf3].
  destruct (createUserToolsFile_spec host g (stamped bd2 (clock w2)) w3)
    as (w4 & Hsave' & Hslot & Hrest & _).
  rewrite Hsave in Hsave'. injection Hsave' as <-.
  assert (Hmono : ∀ q, is_Some (files w2 !! q) → is_Some (files w' !! q)).
  { intros q Hq. destruct (decide (q = toolsPaths g)) as [->|Hq1].
    - rewrite Hslot, Hf3, lookup_insert_ne by done.
      unfold afterSave.
      destruct (cacheOf (stamped bd2 (clock w2))); [|done].
      destruct Hq as [[| |C] ->]; [done|..];
        by destruct (can_write host (toolsPaths g)).
    - rewrite Hrest, Hf3 by done.
      destruct (decide (q = buildDataPath g)) as [->|Hq2].
      + by rewrite lookup_insert_eq.
      + by rewrite lookup_insert_ne. }
  assert (Hkeep : ∀ k, k ≠ "VERSION" → k ≠ "LAST_RUN" →
                       passesProbe host w2 bd2 k →
                       passesProbe host w' (stamped bd2 (clock w2)) k).
  { intros k Hv Hl (p & Hget & Hp). exists p.
    rewrite dict_get_stamped by done. split; [done|].
    by apply (pathExists_mono host w2). }
  exists (stamped bd2 (clock w2)). split.
  { rewrite Hrest, Hf3 by done. by rewrite lookup_insert_eq. }
  split; [|split].
  - intros tool Hin. apply Hkeep.
    + tools_cases Hin; by vm_compute.
    + tools_cases Hin; by vm_compute.
    + by eapply verifyExistingPaths_all_pass.
  - apply Hkeep; [by vm_compute..|].
    unfold verifyExistingPaths in Hverify.
    by eapply verifyTools_python; [|exact Hverify].
  - unfold stamped. by rewrite dict_get_set_ne, dict_get_set_eq.
Qed.

Lemma updatePaths_run_result_witness :
  let w := Demo.at_start Demo.both_documents ["n"; "n"; "n"; "n"] in
  which_sound Demo.linux
  ∧ buildDataPath Demo.ws ≠ toolsPaths Demo.ws
  ∧ ∃ w' d,
      updatePaths_run Demo.linux Demo.ws w = (Return tt, w')
      ∧ files w' !! buildDataPath Demo.ws = Some (Doc d)
      ∧ passesProbe Demo.linux w' d bStr.gccExePath
      ∧ passesProbe Demo.linux w' d bStr.pythonPath.
Proof.
  intros w.
  assert (Hsound : which_sound Demo.linux) by apply demo_which_sound.
  assert (Hapart : buildDataPath Demo.ws ≠ toolsPaths Demo.ws) by done.
  split; [exact Hsound|]. split; [exact Hapart|].
  destruct (updatePaths_run Demo.linux Demo.ws w) as [[[]|e|c] w'] eqn:Hrun;
    [|vm_compute in Hrun; discriminate Hrun..].
  destruct (updatePaths_run_result Demo.linux Demo.ws Hsound w w' Hapart Hrun)
    as (d & Hdoc & Htools & Hpy & _).
  exists w', d. split; [reflexivity|]. split; [exact Hdoc|].
  split; [|exact Hpy].
  apply (Htools (bStr.gccExePath, "arm-none-eabi-gcc", "arm-none-eabi-gcc",
                 false)).
  by left.
Defined.

(** ** The checks of the folder *)

Lemma rootFilesEnding_lists (host : Host) root ending names w :
  os_listdir host root = Some names →
  rootFilesEnding host root ending w
  = (Return (map (λ theFile,
                    pathWithForwardSlashes host (os_path_join host root theFile))
                 (filter (λ theFile, Str.endswith theFile ending = true) names)),
     w).
Proof.
  intros Hls. unfold rootFilesEnding, bind, listdir. by rewrite Hls.
Qed.

(** X20. [verifyFolderStructure] on a workspace root that can be listed:
    unless exactly one name of the root ends in [.code-workspace] it ends in
    [sys.exit(1)] and has made no folder.  When it returns, the workspace
    file is that one name joined to the root, the [.vscode] folder passes
    the probe, nothing else has been created, and the CubeMX project is
    recorded when exactly one name ends in [.ioc] and left out otherwise. *)
Theorem verifyFolderStructure_checks (host : Host) (w : world)
        (names : list string) :
  let root :=
    pathWithForwardSlashes host
      (os_path_dirname host (os_path_dirname host (sys_argv0 host))) in
  let vscodeFolder :=
    pathWithForwardSlashes host (os_path_join host root ".vscode") in
  let inRoot theFile :=
    pathWithForwardSlashes host (os_path_join host root theFile) in
  os_listdir host root = Some names →
  (length (filter (λ f, Str.endswith f ".code-workspace" = true) names) ≠ 1 →
   ∃ w', verifyFolderStructure host w = (Exit 1, w') ∧ files w' = files w)
  ∧ (∀ g w',
       verifyFolderStructure host w = (Return g, w') →
       workspacePath g = root
       ∧ (∃ name,
            filter (λ f, Str.endswith f ".code-workspace" = true) names = [name]
            ∧ workspaceFilePath g = inRoot name)
       ∧ pathExists host w' (Some vscodeFolder) = true
       ∧ (∀ p, p ≠ vscodeFolder → files w' !! p = files w !! p)
       ∧ cubeMxProjectFilePath g
         = match filter (λ f, Str.endswith f ".ioc" = true) names with
           | [one] => Some (inRoot one)
           | _ => None
           end).
Proof.
  intros root vscodeFolder inRoot Hls.
  pose proof (rootFilesEnding_lists host root ".code-workspace" names w Hls)
    as Hcw.
  fold inRoot in Hcw.
  unfold verifyFolderStructure. fold root. unfold getCodeWorkspaces.
  rewrite (bind_step _ _ _ _ _ Hcw). clear Hcw.
  destruct (filter (λ f, Str.endswith f ".code-workspace" = true) names)
    as [|name [|name' more]] eqn:Hfilter.
  - split.
    + intros _. erewrite bind_exits by reflexivity. by eexists.
    + intros g w' Hrun. erewrite bind_exits in Hrun by reflexivity.
      discriminate Hrun.
  - split; [done|]. intros g w' Hrun.
    cbn [map] in Hrun. erewrite bind_step in Hrun by reflexivity.
    rewrite bind_gets in Hrun. fold vscodeFolder in Hrun.
    apply bind_returns in Hrun as ([] & w1 & Hfolder & Hrun).
    assert (Hw1 : pathExists host w1 (Some vscodeFolder) = true
                  ∧ ∀ p, p ≠ vscodeFolder → files w1 !! p = files w !! p).
    { destruct (pathExists host w (Some vscodeFolder)) eqn:Hthere;
        cbn [negb] in Hfolder.
      - unfold print in Hfolder. injection Hfolder as <-.
        split; [|done]. by rewrite (pathExists_files host _ w).
      - unfold try_except, bind, os_mkdir in Hfolder.
        destruct (can_mkdir host vscodeFolder
                  && negb (os_path_exists host w vscodeFolder));
          [|discriminate Hfolder].
        unfold print in Hfolder. injection Hfolder as <-. split.
        + apply (file_exists host _ _ Folder). apply lookup_insert_eq.
        + intros p Hp. by apply lookup_insert_ne. }
    destruct Hw1 as [Hvs Hframe].
    apply bind_returns in Hrun as (osIs & w2 & Hos & Hrun).
    pose proof (detectOS_pure host w1) as Hpure. rewrite Hos in Hpure.
    simpl in Hpure. subst w2.
    apply bind_returns in Hrun as (settings & w2 & Hset & Hrun).
    assert (w2 = w1) as ->.
    { repeat case_decide; unfold ret, raise in Hset; by simplify_eq. }
    unfold getCubeMXProjectFiles in Hrun.
    rewrite (bind_step _ _ _ _ _
               (rootFilesEnding_lists host root ".ioc" names w1 Hls)) in Hrun.
    fold inRoot in Hrun.
    apply bind_returns in Hrun as (cube & w3 & Hcube & Hrun).
    unfold ret in Hrun. injection Hrun as <- <-.
    assert (Hw3 : files w3 = files w1
                  ∧ cube = match filter (λ f, Str.endswith f ".ioc" = true)
                                   names with
                           | [one] => Some (inRoot one)
                           | _ => None
                           end).
    { destruct (filter (λ f, Str.endswith f ".ioc" = true) names)
        as [|one [|two more]]; cbn [map] in Hcube;
        unfold bind, print, ret in Hcube; by injection Hcube as <- <-. }
    destruct Hw3 as [Hf3 ->].
    split; [done|]. split; [by exists name|].
    split; [by rewrite (pathExists_files host w3 w1)|].
    split; [|done]. intros p Hp. rewrite Hf3. by apply Hframe.
  - split.
    + intros _. erewrite bind_exits by reflexivity. by eexists.
    + intros g w' Hrun. erewrite bind_exits in Hrun by reflexivity.
      discriminate Hrun.
Qed.

Lemma verifyFolderStructure_checks_witness :
  let w := Demo.at_start ∅ [] in
  ∃ g w',
    verifyFolderStructure Demo.linux w = (Return g, w')
    ∧ workspaceFilePath g = "/ws/fw.code-workspace"
    ∧ cubeMxProjectFilePath g = Some "/ws/fw.ioc"
    ∧ pathExists Demo.linux w' (Some "/ws/.vscode") = true
    ∧ files w' !! "/ws/.vscode" = Some Folder.
Proof.
  intros w.
  destruct (verifyFolderStructure Demo.linux w) as [[g|e|c] w'] eqn:Hrun;
    [|vm_compute in Hrun; discriminate Hrun..].
  destruct (verifyFolderStructure_checks Demo.linux w
              ["Makefile"; "fw.code-workspace"; "fw.ioc"; "ideScripts"; "SVD"]
              eq_refl) as [_ Hreturn].
  destruct (Hreturn g w' Hrun) as (_ & (name & Hname & Hfile) & Hvs & _ & Hcube).
  exists g, w'. split; [reflexivity|].
  injection Hname as <-.
  split; [exact Hfile|]. split; [exact Hcube|]. split; [exact Hvs|].
  vm_compute in Hrun. by injection Hrun as <- <-.
Defined.

(** ** The build folder *)

(** X21. [createBuildFolder] never exits.  When it returns, the build
    folder passes the probe, no other path has been touched, nothing at all
    has been written if the folder was there already, and a second call
    writes nothing.  A failure of [os.mkdir] is not caught: it comes out as
    the [OSError], with nothing written. *)
Theorem createBuildFolder_ensures (host : Host) (g : Workspace)
        (folderName : string) (w : world) :
  let buildFolderPath := os_path_join host (workspacePath g) folderName in
  match createBuildFolder host g folderName w with
  | (Return _, w') =>
      pathExists host w' (Some buildFolderPath) = true
      ∧ (∀ p, p ≠ buildFolderPath → files w' !! p = files w !! p)
      ∧ (pathExists host w (Some buildFolderPath) = true → files w' = files w)
      ∧ ∃ w'', createBuildFolder host g folderName w' = (Return tt, w'')
               ∧ files w'' = files w'
  | (Raise e, w') =>
      e = OSError buildFolderPath ∧ w' = w
      ∧ pathExists host w (Some buildFolderPath) = false
  | (Exit _, _) => False
  end.
Proof.
  intros buildFolderPath.
  assert (Hagain : ∀ w0 : world,
             pathExists host w0 (Some buildFolderPath) = true →
             ∃ w1, createBuildFolder host g folderName w0 = (Return tt, w1)
                   ∧ files w1 = files w0).
  { intros w0 Hthere. unfold createBuildFolder. cbv zeta.
    fold buildFolderPath. rewrite bind_gets, Hthere. by eexists. }
  unfold createBuildFolder. cbv zeta. fold buildFolderPath.
  rewrite bind_gets.
  destruct (pathExists host w (Some buildFolderPath)) eqn:Hthere; cbn [negb].
  - unfold print. split; [by rewrite (pathExists_files host _ w)|].
    split; [done|]. split; [done|].
    apply Hagain. by rewrite (pathExists_files host _ w).
  - unfold bind, os_mkdir.
    destruct (can_mkdir host buildFolderPath
              && negb (os_path_exists host w buildFolderPath)); [|done].
    unfold print.
    assert (Hnow : pathExists host
                     (set_stdout
                        (stdout (set_files (<[buildFolderPath:=Folder]> (files w)) w)
                         ++ ["Build folder created: " ++ buildFolderPath])
                        (set_files (<[buildFolderPath:=Folder]> (files w)) w))
                     (Some buildFolderPath) = true).
    { apply (file_exists host _ _ Folder). apply lookup_insert_eq. }
    split; [exact Hnow|]. split; [|split; [done|by apply Hagain]].
    intros p Hp. by apply lookup_insert_ne.
Qed.

Lemma createBuildFolder_ensures_witness :
  let w := Demo.at_start ∅ [] in
  ∃ w', createBuildFolder Demo.linux Demo.ws "build" w = (Return tt, w')
        ∧ files w' !! "/ws/build" = Some Folder
        ∧ pathExists Demo.linux w' (Some "/ws/build") = true.
Proof.
  intros w.
  pose proof (createBuildFolder_ensures Demo.linux Demo.ws "build" w) as Hthm.
  destruct (createBuildFolder Demo.linux Demo.ws "build" w)
    as [[[]|e|c] w'] eqn:Hrun;
    [|vm_compute in Hrun; discriminate Hrun..].
  exists w'. split; [reflexivity|].
  split; [vm_compute in Hrun; by injection Hrun as <-|].
  exact (proj1 Hthm).
Defined.

(** ** The cache, before it is read *)

(** X22. [checkToolsPathFile] always returns and touches no file but the
    cache.  When it answers [True], nothing has been written and
    [getToolsPathsData] then reads a document; when it answers [False],
    there is no readable cache. *)
Theorem checkToolsPathFile_guards (host : Host) (g : Workspace) (w : world) :
  ∃ b w',
    checkToolsPathFile host g w = (Return b, w')
    ∧ (∀ p, p ≠ toolsPaths g → files w' !! p = files w !! p)
    ∧ stdin w' = stdin w
    ∧ if b then files w' = files w
               ∧ ∃ C, getToolsPathsData g w' = (Return C, w')
      else ∀ C, files w' !! toolsPaths g ≠ Some (Doc C).
Proof.
  destruct (checkToolsPathFile_spec host g w)
    as (w' & Hrun & Hslot & Hrest & Hin & _).
  eexists _, w'. split; [exact Hrun|]. split; [done|]. split; [done|].
  destruct (files w !! toolsPaths g) as [[| |C]|] eqn:E; simpl in Hslot.
  - intros C. by rewrite Hslot.
  - intros C. rewrite Hslot. by destruct (can_remove host (toolsPaths g)).
  - split.
    + apply (files_agree g); [by rewrite Hslot, E|done].
    + exists C. by apply getToolsPathsData_doc.
  - intros C. by rewrite Hslot.
Qed.

(** ** Paths with forward slashes *)

(** X23. A path that comes out of [pathWithForwardSlashes] holds no
    backslash; and a path whose normal form holds none comes out as its
    normal form. *)
Theorem pathWithForwardSlashes_no_backslash (host : Host) (path : string) :
  (Str.bslash ∉ Str.chars (pathWithForwardSlashes host path))
  ∧ ((Str.bslash ∉ Str.chars (os_path_normpath host path)) →
     pathWithForwardSlashes host path = os_path_normpath host path).
Proof.
  unfold pathWithForwardSlashes, Str.replace_char.
  set (normal := os_path_normpath host path). split.
  - rewrite chars_of_chars.
    intros (c & Hc & _)%list_elem_of_fmap.
    destruct (decide (c = Str.bslash)); [discriminate Hc|by subst].
  - intros Hno. rewrite <- (of_chars_chars normal) at 2. f_equal.
    induction (Str.chars normal) as [|c l IH]; [done|].
    apply not_elem_of_cons in Hno as [Hc Hl]. simpl.
    rewrite decide_False by done. by rewrite IH.
Qed.

Lemma pathWithForwardSlashes_no_backslash_witness :
  pathWithForwardSlashes Demo.linux "C:\tools\gcc/bin" = "C:/tools/gcc/bin"
  ∧ (Str.bslash
     ∉ Str.chars (pathWithForwardSlashes Demo.linux "C:\tools\gcc/bin"))
  ∧ pathWithForwardSlashes Demo.linux "/opt//gcc/./bin" = "/opt/gcc/bin".
Proof.
  split; [reflexivity|]. split.
  - exact (proj1 (pathWithForwardSlashes_no_backslash Demo.linux
                    "C:\tools\gcc/bin")).
  - rewrite (proj2 (pathWithForwardSlashes_no_backslash Demo.linux
                      "/opt//gcc/./bin")); [reflexivity|].
    not_in_concrete_list.
Defined.

(** ** A workspace in which nothing is to be repaired *)

Lemma verifyExistingPaths_declined_any (host : Host) (g : Workspace)
      (python : string) (Hpython : pythonReady host python)
      (bd : pydict) (w : world) (answers rest : list string) :
  storedToolsPass host g bd →
  length answers = 4 → declines answers →
  stdin w = (answers ++ rest)%list →
  ∃ w1,
    verifyExistingPaths host g bd true w
    = (Return (dict_set bd bStr.pythonPath (VStr python)), w1)
    ∧ files w1 = files w ∧ stdin w1 = rest.
Proof.
  intros Hstored Hlen Hno Hin.
  assert (Hlist : ∃ t tl, toolsList g = t :: tl ∧ length tl = 3)
    by (eexists _, _; split; reflexivity).
  destruct Hlist as (t & tl & Hl & Hlen3).
  destruct answers as [|line answers]; [discriminate Hlen|].
  injection Hlen as Hlen. apply Forall_cons in Hno as [Hline Hno].
  assert (Ht : t ∈ toolsList g) by (rewrite Hl; by left).
  destruct (toolsList_flags_keys g t Ht) as [Hflag _].
  destruct (verifyTool_declined host python Hpython bd t w line
              (answers ++ rest)%list Hflag
              (storedToolsPass_passesProbe host g w bd t Hstored Ht)
              Hin Hline) as (w1 & Hround & Hf1 & Hi1 & _).
  destruct (verifyTools_declined host python Hpython tl answers
              (dict_set bd bStr.pythonPath (VStr python)) w1 rest)
    as (w2 & Hrun & Hf2 & Hi2 & _);
    [congruence|done|done|apply dict_get_set_eq| |].
  - intros t' Ht'.
    assert (Hin' : t' ∈ toolsList g) by (rewrite Hl; by right).
    destruct (toolsList_flags_keys g t' Hin') as [Hflag' Hkey'].
    split; [done|]. apply passesProbe_set_ne; [done|].
    by apply (storedToolsPass_passesProbe host g).
  - exists w2. unfold verifyExistingPaths. rewrite Hl. cbn [verifyTools].
    rewrite (bind_step _ _ _ _ _ Hround). split; [exact Hrun|].
    split; [congruence|done].
Qed.

(** X24. When every tool of the list is stored with a path that is on the
    disk or on the search path and the interpreter is found without asking,
    [verifyExistingPaths] changes nothing in the descriptor but
    [pythonPath], to which it assigns the interpreter found.  Without a
    request it reads nothing and prints nothing; with a request it asks four
    questions, and on four answers [n] it returns that same descriptor, with
    no file written and the later input unread. *)
Theorem verifyExistingPaths_healthy (host : Host) (g : Workspace)
        (python : string) (buildData : pydict) (w : world) :
  pythonReady host python →
  storedToolsPass host g buildData →
  let buildData' := dict_set buildData bStr.pythonPath (VStr python) in
  verifyExistingPaths host g buildData false w = (Return buildData', w)
  ∧ (∀ answers rest,
       length answers = 4 → declines answers →
       stdin w = (answers ++ rest)%list →
       ∃ w1, verifyExistingPaths host g buildData true w
             = (Return buildData', w1)
             ∧ files w1 = files w ∧ stdin w1 = rest)
  ∧ (∀ k, k ≠ bStr.pythonPath →
          dict_get buildData' k = dict_get buildData k).
Proof.
  intros Hpython Hstored buildData'. split; [|split].
  - by apply verifyExistingPaths_quiet.
  - intros answers rest Hlen Hno Hin.
    by apply (verifyExistingPaths_declined_any host g python Hpython
                buildData w answers rest).
  - intros k Hk. unfold buildData'. by rewrite dict_get_set_ne.
Qed.

Lemma verifyExistingPaths_healthy_witness :
  let w := Demo.at_start ∅ ["N"; "n"; "n"; "N"; "later"] in
  let buildData :=
    dict_set Demo.descriptor bStr.pythonPath (VStr "/usr/bin/python3") in
  pythonReady Demo.linux "python3"
  ∧ storedToolsPass Demo.linux Demo.ws buildData
  ∧ verifyExistingPaths Demo.linux Demo.ws buildData false w
    = (Return Demo.descriptor, w)
  ∧ ∃ w1, verifyExistingPaths Demo.linux Demo.ws buildData true w
          = (Return Demo.descriptor, w1)
          ∧ stdin w1 = ["later"].
Proof.
  intros w buildData.
  assert (Hpy : pythonReady Demo.linux "python3") by apply demo_pythonReady.
  assert (Hst : storedToolsPass Demo.linux Demo.ws buildData).
  { by apply (demo_storedToolsPass _ "/opt/gcc10/bin/arm-none-eabi-gcc"). }
  split; [exact Hpy|]. split; [exact Hst|].
  destruct (verifyExistingPaths_healthy Demo.linux Demo.ws "python3"
              buildData w Hpy Hst) as (Hquiet & Hasked & _).
  split; [exact Hquiet|].
  destruct (Hasked ["N"; "n"; "n"; "N"] ["later"]) as (w1 & Hrun & _ & Hrest);
    [reflexivity| |reflexivity|by exists w1].
  unfold declines. by repeat constructor.
Defined.

(** ** The statements above on the example workspace *)

Lemma stripStartOfString_items_witness :
  stripStartOfString ["-Iinc"; "src/-Iold"; "Drivers"] "-I"
  = ["inc"; "c/-Iold"; "Drivers"]
  ∧ ∃ item, stripStartOfString ["-Iinc"; "src/-Iold"; "Drivers"] "-I" !! 1
            = Some item
            ∧ item = PyStr.from (String.length "-I") "src/-Iold".
Proof.
  split; [reflexivity|].
  destruct (proj2 (stripStartOfString_items
                     ["-Iinc"; "src/-Iold"; "Drivers"] "-I")
              1 "src/-Iold" eq_refl) as (item & Hitem & Hocc & _).
  exists item. split; [exact Hitem|]. apply Hocc. by exists "src/", "old".
Defined.

Lemma checkBuildDataFile_ensures_witness :
  let w := Demo.at_start {[ buildDataPath Demo.ws := Corrupt ]} [] in
  ∃ w', checkBuildDataFile Demo.linux Demo.ws w = (Return tt, w')
        ∧ getBuildData Demo.ws w' = (Return Demo.template, w').
Proof.
  intros w.
  pose proof (checkBuildDataFile_ensures Demo.linux Demo.ws w) as Hthm.
  destruct (checkBuildDataFile Demo.linux Demo.ws w)
    as [[[]|e|c] w'] eqn:Hrun;
    [|vm_compute in Hrun; discriminate Hrun..].
  destruct Hthm as (D & Hread & Hslot).
  exists w'. split; [reflexivity|].
  change (files w !! buildDataPath Demo.ws) with (Some Corrupt) in Hslot.
  destruct Hslot as [-> _]. exact Hread.
Defined.

Lemma overwriteBuildDataFile_round_trip_witness :
  let w := Demo.at_start Demo.both_documents [] in
  let data := dict_set Demo.descriptor "cSources" (VList ["main.c"]) in
  ∃ d w', overwriteBuildDataFile Demo.linux Demo.ws data w = (Return d, w')
          ∧ getBuildData Demo.ws w' = (Return d, w')
          ∧ dict_get d "LAST_RUN" = Some (VStr "2019-05-02 09:30:00.000000")
          ∧ dict_get d "cSources" = Some (VList ["main.c"]).
Proof.
  intros w data.
  pose proof (overwriteBuildDataFile_round_trip Demo.linux Demo.ws data w)
    as Hthm.
  destruct (overwriteBuildDataFile Demo.linux Demo.ws data w)
    as [[d|e|c] w'] eqn:Hrun;
    [|vm_compute in Hrun; discriminate Hrun..].
  destruct Hthm as (_ & Hread & _ & _ & _ & Hlast & Hrest).
  exists d, w'. split; [reflexivity|]. split; [exact Hread|].
  split; [exact Hlast|]. by rewrite Hrest.
Defined.

Lemma createUserToolsFile_writes_witness :
  let w := Demo.at_start ∅ [] in
  ∃ w' c,
    createUserToolsFile Demo.linux Demo.ws Demo.descriptor w = (Return tt, w')
    ∧ files w' !! toolsPaths Demo.ws = Some (Doc c)
    ∧ map fst c = "ABOUT1" :: "ABOUT2" :: toolFields.
Proof.
  intros w.
  destruct (createUserToolsFile_writes Demo.linux Demo.ws Demo.descriptor w)
    as (w' & Hrun & _ & [Hsame|(c & Hdoc & Hkeys & _)]).
  - exfalso.
    assert (Hq : is_Some ((createUserToolsFile Demo.linux Demo.ws
                             Demo.descriptor w).2.(files)
                          !! toolsPaths Demo.ws))
      by (vm_compute; by eexists).
    rewrite Hrun in Hq.
    change (is_Some (files w' !! toolsPaths Demo.ws)) in Hq.
    rewrite Hsame in Hq. by destruct Hq as [? Hq].
  - by exists w', c.
Defined.

Lemma addMakefileData_fields_witness :
  let w := Demo.at_start ∅ [] in
  ∃ d, addMakefileDataToBuildDataFile Demo.linux Demo.ws Demo.descriptor
         Demo.makefileData w = (Return d, w)
       ∧ dict_get d bStr.cSources = Some (VList ["Src/main.c"; "Src/system.c"])
       ∧ dict_get d bStr.gccExePath
         = Some (VStr "/opt/gcc10/bin/arm-none-eabi-gcc").
Proof.
  intros w.
  pose proof (addMakefileData_fields Demo.linux Demo.ws Demo.descriptor
                Demo.makefileData w) as Hthm.
  destruct (addMakefileDataToBuildDataFile Demo.linux Demo.ws Demo.descriptor
              Demo.makefileData w) as [[d|e|c] w'] eqn:Hrun;
    [|vm_compute in Hrun; discriminate Hrun..].
  destruct Hthm as (-> & Hverb & Hframe).
  exists d. split; [reflexivity|]. split.
  - destruct (Hverb bStr.cSources "C_SOURCES") as [-> _]; [by left|].
    reflexivity.
  - rewrite Hframe; [reflexivity|not_in_concrete_list|by vm_compute].
Defined.

Lemma checkToolsPathFile_guards_witness :
  let w := Demo.at_start Demo.both_documents ["unread"] in
  ∃ w', checkToolsPathFile Demo.linux Demo.ws w = (Return true, w')
        ∧ files w' = files w
        ∧ ∃ C, getToolsPathsData Demo.ws w' = (Return C, w').
Proof.
  intros w.
  destruct (checkToolsPathFile_guards Demo.linux Demo.ws w)
    as (b & w' & Hrun & _ & _ & Hb).
  assert (b = true) as ->.
  { assert (Hq : (checkToolsPathFile Demo.linux Demo.ws w).1 = Return true)
      by (vm_compute; reflexivity).
    rewrite Hrun in Hq. by injection Hq. }
  exists w'. split; [exact Hrun|]. exact Hb.
Defined.

(** ** A second copy of the marker header *)

Lemma posix_join_include_last (a : string) :
  last (Str.chars (Posix.join a "include")) = Some "e"%char.
Proof.
  assert (Hend : ∀ x : string,
             last (Str.chars (x ++ "include")) = Some "e"%char).
  { intros x. rewrite chars_append.
    change (Str.chars "include")
      with (Str.chars "includ" ++ ["e"%char])%list.
    by rewrite app_assoc, last_snoc. }
  unfold Posix.join.
  change (Str.startswith "include" "/") with false. cbv iota.
  destruct (decide (a = "")); [done|].
  destruct (Str.endswith a "/"); [apply Hend|].
  change (a ++ "/" ++ "include") with (a ++ ("/" ++ "include")).
  rewrite chars_append.
  change (Str.chars ("/" ++ "include"))
    with (Str.chars "/includ" ++ ["e"%char])%list.
  by rewrite app_assoc, last_snoc.
Qed.

(** C6 as stated fails: below this installation root there is exactly one
    [lib/gcc/arm-none-eabi/<version>/include] that holds [stdint.h], and
    [getGccIncludePath] returns another folder, [include/sub], which the
    bottom-up walk meets first. *)
Lemma getGccIncludePath_nested_header :
  let gccExePath := "/opt/gcc/bin/arm-none-eabi-gcc" in
  let searchPath := gccSearchPath nested_headers gccExePath in
  let walk := os_walk_bottom_up nested_headers searchPath in
  let include :=
    os_path_join nested_headers
      (os_path_join nested_headers searchPath "9.2.1") "include" in
  (∃ dirs fs, (include, dirs, fs) ∈ walk ∧ "stdint.h" ∈ fs)
  ∧ (∀ version root dirs fs,
       (root, dirs, fs) ∈ walk → "stdint.h" ∈ fs →
       root = os_path_join nested_headers
                (os_path_join nested_headers searchPath version) "include" →
       root = include)
  ∧ getGccIncludePath nested_headers gccExePath (Demo.at_start ∅ [])
    = (Return "/opt/gcc/lib/gcc/arm-none-eabi/9.2.1/include/sub",
       Demo.at_start ∅ [])
  ∧ "/opt/gcc/lib/gcc/arm-none-eabi/9.2.1/include/sub"
    ≠ pathWithForwardSlashes nested_headers include.
Proof.
  intros gccExePath searchPath walk include.
  split; [|split; [|split]].
  - exists ["sub"], ["stddef.h"; "stdint.h"].
    split; [by right; left|by right; left].
  - intros version root dirs fs Hin Hm Hroot.
    change walk
      with [ ("/opt/gcc/lib/gcc/arm-none-eabi/9.2.1/include/sub",
              @nil string, ["stdint.h"]);
             ("/opt/gcc/lib/gcc/arm-none-eabi/9.2.1/include", ["sub"],
              ["stddef.h"; "stdint.h"]);
             ("/opt/gcc/lib/gcc/arm-none-eabi/9.2.1", ["include"],
              ["crtbegin.o"]);
             ("/opt/gcc/lib/gcc/arm-none-eabi", ["9.2.1"], @nil string) ]
      in Hin.
    apply elem_of_cons in Hin as [Hin|Hin].
    { injection Hin as -> -> ->. exfalso.
      pose proof (posix_join_include_last (Posix.join searchPath version))
        as Hlast.
      change (Posix.join (Posix.join searchPath version) "include")
        with (os_path_join nested_headers
                (os_path_join nested_headers searchPath version) "include")
        in Hlast.
      rewrite <- Hroot in Hlast. vm_compute in Hlast. discriminate Hlast. }
    apply elem_of_cons in Hin as [Hin|Hin].
    { injection Hin as -> -> ->. reflexivity. }
    apply elem_of_cons in Hin as [Hin|Hin].
    { injection Hin as -> -> ->. exfalso. revert Hm.
      by rewrite !elem_of_cons, elem_of_nil; intros [|]. }
    apply elem_of_cons in Hin as [Hin|Hin].
    { injection Hin as -> -> ->. by apply elem_of_nil in Hm. }
    by apply elem_of_nil in Hin.
  - vm_compute. reflexivity.
  - vm_compute. discriminate.
Qed.
